(** * Verification of weecfg/extension.py: the weewx extension installer

  A shallow embedding of [ExtensionEngine] (Python 2) and the properties
  claimed about it.  Strings are [string], dictionaries with a meaningful
  iteration order are association lists, the file system is a finite map
  from paths to contents together with a finite set of directories, and
  the engine's methods live in a state-and-exception monad. *)

From Stdlib Require Import String Ascii List ZArith Lia Bool.
From stdpp Require Import base option list strings gmap pretty.
Import ListNotations.
Local Open Scope string_scope.
Local Open Scope Z_scope.
Set Warnings "-register-all".

(** ** Python strings *)

Module PyStr.

(** [str.find(c)] for a one-character needle: the lowest index, or -1. *)
Fixpoint find (c : ascii) (s : string) : Z :=
  match s with
  | EmptyString => -1
  | String x r =>
      if Ascii.eqb x c then 0
      else let i := find c r in if i <? 0 then -1 else i + 1
  end.

(** [str.rfind(c)]: the highest index, or -1. *)
Fixpoint rfind (c : ascii) (s : string) : Z :=
  match s with
  | EmptyString => -1
  | String x r =>
      let i := rfind c r in
      if 0 <=? i then i + 1 else if Ascii.eqb x c then 0 else -1
  end.

Fixpoint drop (n : nat) (s : string) : string :=
  match n, s with
  | O, _ => s
  | S _, EmptyString => EmptyString
  | S k, String _ r => drop k r
  end.

Fixpoint take (n : nat) (s : string) : string :=
  match n, s with
  | O, _ => EmptyString
  | S _, EmptyString => EmptyString
  | S k, String x r => String x (take k r)
  end.

(** [s[i:]] and [s[:i]] for a non-negative index. *)
Definition slice_from (i : Z) (s : string) : string := drop (Z.to_nat i) s.
Definition slice_to (i : Z) (s : string) : string := take (Z.to_nat i) s.

Fixpoint startswith (p s : string) : bool :=
  match p, s with
  | EmptyString, _ => true
  | String _ _, EmptyString => false
  | String x p', String y s' => Ascii.eqb x y && startswith p' s'
  end.

Definition endswith (p s : string) : bool :=
  (String.length p <=? String.length s)%nat
  && String.eqb (drop (String.length s - String.length p) s) p.

(** [needle in hay] on two strings: the substring test. *)
Fixpoint contains (needle hay : string) : bool :=
  startswith needle hay
  || match hay with
     | EmptyString => false
     | String _ r => contains needle r
     end.

(** [s.replace(old, new)] for a non-empty [old]: every occurrence, scanning
    from the left without overlap. *)
Fixpoint replace_fuel (fuel : nat) (old new s : string) : string :=
  match fuel with
  | O => s
  | S f =>
      match s with
      | EmptyString => EmptyString
      | String x r =>
          if startswith old s
          then new ++ replace_fuel f old new (drop (String.length old) s)
          else String x (replace_fuel f old new r)
      end
  end.

Definition replace (old new s : string) : string :=
  replace_fuel (String.length s) old new s.

(** [s.rstrip('/')]. *)
Fixpoint rstrip_slash (s : string) : string :=
  match s with
  | EmptyString => EmptyString
  | String x r =>
      match rstrip_slash r with
      | EmptyString => if Ascii.eqb x "/" then EmptyString else String x EmptyString
      | r' => String x r'
      end
  end.

(** [s.split('/')]. *)
Fixpoint split_slash (s : string) : list string :=
  match s with
  | EmptyString => [EmptyString]
  | String x r =>
      if Ascii.eqb x "/" then EmptyString :: split_slash r
      else match split_slash r with
           | [] => [String x EmptyString]
           | h :: t => String x h :: t
           end
  end.

Fixpoint join_slash (l : list string) : string :=
  match l with
  | [] => EmptyString
  | [x] => x
  | x :: r => x ++ "/" ++ join_slash r
  end.

(** The list of the characters of a string, each as a string: what
    iterating over a [str] yields. *)
Fixpoint chars (s : string) : list string :=
  match s with
  | EmptyString => []
  | String x r => String x EmptyString :: chars r
  end.

Definition concat (l : list string) : string :=
  fold_right String.append EmptyString l.

End PyStr.

(** ** The [os.path] functions the engine calls (posixpath) *)

Module OsPath.

(** The longest common leading run of characters of two strings. *)
Fixpoint commonprefix2 (a b : string) : string :=
  match a, b with
  | String x a', String y b' =>
      if Ascii.eqb x y then String x (commonprefix2 a' b') else EmptyString
  | _, _ => EmptyString
  end.

(** [os.path.commonprefix(m)]: character by character, not component by
    component; the empty string for an empty list. *)
Definition commonprefix (m : list string) : string :=
  match m with
  | [] => EmptyString
  | s :: r => fold_left commonprefix2 r s
  end.

(** [os.path.join(a, b)] on two strings. *)
Definition join (a b : string) : string :=
  if PyStr.startswith "/" b then b
  else if String.eqb a "" || PyStr.endswith "/" a then a ++ b
  else a ++ "/" ++ b.

(** [os.path.dirname(p)]. *)
Definition dirname (p : string) : string :=
  let i := PyStr.rfind "/" p + 1 in
  let head := PyStr.slice_to i p in
  match PyStr.rstrip_slash head with
  | EmptyString => head
  | stripped => stripped
  end.

Fixpoint norm_comps (acc : list string) (comps : list string) : list string :=
  match comps with
  | [] => rev acc
  | c :: r =>
      if String.eqb c "" || String.eqb c "." then norm_comps acc r
      else if String.eqb c ".."
      then match acc with
           | [] => norm_comps acc r
           | _ :: acc' => norm_comps acc' r
           end
      else norm_comps (c :: acc) r
  end.

(** [os.path.normpath(p)] for an absolute path. *)
Definition normpath_abs (p : string) : string :=
  let lead := if PyStr.startswith "//" p && negb (PyStr.startswith "///" p)
              then "//" else "/" in
  lead ++ PyStr.join_slash (norm_comps [] (PyStr.split_slash p)).

(** [os.path.abspath(p)], with the working directory [cwd] (absolute). *)
Definition abspath (cwd p : string) : string :=
  if PyStr.startswith "/" p then normpath_abs p else normpath_abs (join cwd p).

End OsPath.

(** ** Data model *)

(** A configuration value: a single string, or a list of strings (ConfigObj
    reads [a, b] and [a,] as lists and a bare [a] as a string). *)
Inductive value := VStr (s : string) | VList (l : list string).

(** The live configuration tree (a ConfigObj): ordered entries, each with
    the comment lines attached to its key; deleting a key deletes its
    comment with it. *)
Inductive cfg :=
| Scalar (v : value)
| Section (body : list (string * (list string * cfg))).

Abbreviation section := (list (string * (list string * cfg))).

(** A plain Python dictionary as an extension's [install.py] declares it;
    the list order is the order in which iterating the dictionary yields
    its keys. *)
Inductive pydict :=
| PScalar (v : value)
| PDict (body : list (string * pydict)).

(** One element of the manifest's [files]: a pair [(prefix, [file, ...])],
    written as a tuple or as a list. *)
Record source_tuple := SourceTuple {
  st_is_tuple : bool;
  st_prefix : string;
  st_files : list string }.

(** The installer manifest ([ExtensionInstaller], a dict).  [i_groups] holds
    the remaining keys, among them the service groups. *)
Record installer := Installer {
  i_name : option string;
  i_files : option (list source_tuple);
  i_config : option (list (string * pydict));
  i_groups : list (string * value) }.

(** What a regular file holds. *)
Inductive content :=
| Data (bytes : string)
| Manifest (i : installer)
| ConfigFile (c : section).

(** A tarball: its members in order, a directory member carrying [None]. *)
Abbreviation tarball := (list (string * option content)).

Inductive exn :=
| SystemExit (msg : string)
| InstallError (msg : string)
| ExtensionError (msg : string)
| ExtractError (msg : string)
| KeyError (key : string)
| UnboundLocalError (name : string)
| OSError (msg : string)
| IOError (msg : string)
| TypeError (msg : string)
| AttributeError (msg : string)
| ShutilError (msg : string).

Inductive result (A : Type) :=
| Ok (a : A)
| Raise (e : exn).
Arguments Ok {A} a.
Arguments Raise {A} e.

(** The world an engine acts on: regular files, tarballs, directories, the
    in-memory configuration dictionary and what the logger was given. *)
Record state := State {
  files : gmap string content;
  tarballs : gmap string tarball;
  dirs : gset string;
  config_dict : section;
  log : list (nat * string) }.

(** The fields of an [ExtensionEngine] that do not change, with the
    constants of the surrounding program: the working directory, the order
    in which iterating [target_dirs] yields its keys, [all_service_groups],
    [weecfg.major_comment_block] and the name [save_with_backup] gives the
    backup. *)
Record engine := Engine {
  config_path : string;
  tmpdir : string;
  dry_run : bool;
  root_dict : gmap string string;
  cwd : string;
  target_order : list string;
  all_service_groups : list string;
  major_comment_block : list string;
  backup_path : string }.

(** ** The state-and-exception monad *)

Definition M (A : Type) : Type := state -> result A * state.

#[global] Instance M_ret : MRet M := fun A a s => (Ok a, s).
#[global] Instance M_bind : MBind M := fun A B f m s =>
  match m s with
  | (Ok a, s') => f a s'
  | (Raise e, s') => (Raise e, s')
  end.

Definition raise {A} (e : exn) : M A := fun s => (Raise e, s).
Definition get : M state := fun s => (Ok s, s).
Definition put (s : state) : M unit := fun _ => (Ok tt, s).

(** [try: body except <handles>: handler]. *)
Definition try_except {A} (body : M A) (handles : exn -> bool)
    (handler : exn -> M A) : M A := fun s =>
  match body s with
  | (Ok a, s') => (Ok a, s')
  | (Raise e, s') => if handles e then handler e s' else (Raise e, s')
  end.

(** [try: body finally: final].  An exception raised by [final] replaces
    whatever [body] produced. *)
Definition try_finally {A} (body : M A) (final : M unit) : M A := fun s =>
  match body s with
  | (r, s') =>
      match final s' with
      | (Ok _, s'') => (r, s'')
      | (Raise e, s'') => (Raise e, s'')
      end
  end.

(** [for x in l: body x]. *)
Fixpoint for_each {A} (l : list A) (body : A -> M unit) : M unit :=
  match l with
  | [] => mret tt
  | x :: r => body x ;; for_each r body
  end.

Definition is_OSError (e : exn) : bool :=
  match e with OSError _ => true | _ => false end.
Definition is_ExtensionError (e : exn) : bool :=
  match e with ExtensionError _ => true | _ => false end.
Definition any_exception (e : exn) : bool := true.

(** [logger.log(msg, level)]; the level defaults to 0. *)
Definition logger_log (msg : string) (level : nat) : M unit := fun s =>
  (Ok tt, State (files s) (tarballs s) (dirs s) (config_dict s)
             (log s ++ [(level, msg)])).

(** ** The file system, as far as the engine uses it *)

Module Fs.

Definition with_files (f : gmap string content) (s : state) : state :=
  State f (tarballs s) (dirs s) (config_dict s) (log s).
Definition with_dirs (d : gset string) (s : state) : state :=
  State (files s) (tarballs s) d (config_dict s) (log s).

(** Every call resolves its path argument against the working directory. *)
Definition resolve (e : engine) (p : string) : string := OsPath.abspath (cwd e) p.

Fixpoint ancestors_fuel (fuel : nat) (p : string) : list string :=
  match fuel with
  | O => []
  | S f =>
      let d := OsPath.dirname p in
      if String.eqb d p then [] else d :: ancestors_fuel f d
  end.

(** The directories above [p], nearest first. *)
Definition ancestors (p : string) : list string :=
  ancestors_fuel (String.length p) p.

Definition is_file (s : state) (q : string) : bool :=
  bool_decide (is_Some (files s !! q)) || bool_decide (is_Some (tarballs s !! q)).
Definition is_dir (s : state) (q : string) : bool := bool_decide (q ∈ dirs s).

Definition isfile (e : engine) (p : string) : M bool :=
  s ← get; mret (is_file s (resolve e p)).
Definition isdir (e : engine) (p : string) : M bool :=
  s ← get; mret (is_dir s (resolve e p)).

(** [os.makedirs(p)]: the directory and every missing one above it;
    [OSError] when [p] exists already or a regular file is in the way. *)
Definition makedirs (e : engine) (p : string) : M unit :=
  let q := resolve e p in
  s ← get;
  if is_file s q || is_dir s q then raise (OSError ("File exists: " ++ q))
  else if existsb (is_file s) (ancestors q) then raise (OSError ("Not a directory: " ++ q))
  else put (with_dirs (dirs s ∪ {[ q ]} ∪ list_to_set (ancestors q)) s).

Definition basename (p : string) : string :=
  PyStr.slice_from (PyStr.rfind "/" p + 1) p.

(** What the regular file at [q] holds, a plain file or an archive. *)
Definition read (s : state) (q : string) : option (content + tarball) :=
  match files s !! q with
  | Some c => Some (inl c)
  | None => option_map inr (tarballs s !! q)
  end.

(** The state with the regular file [x] at [q], in place of what was
    there. *)
Definition write (q : string) (x : content + tarball) (s : state) : state :=
  match x with
  | inl c => State (<[ q := c ]> (files s)) (delete q (tarballs s))
                   (dirs s) (config_dict s) (log s)
  | inr t => State (delete q (files s)) (<[ q := t ]> (tarballs s))
                   (dirs s) (config_dict s) (log s)
  end.

(** [shutil.copy(src, dst)] and [shutil.copy2(src, dst)]: a directory as
    destination receives the file under its own name; the copy of a file
    onto itself is [shutil.Error]; [IOError] when the source is no regular
    file, when the destination's directory is missing or when the
    destination is a directory.  What was at the destination is
    overwritten. *)
Definition copy (e : engine) (src dst : string) : M unit :=
  let qs := resolve e src in
  s ← get;
  let target := if is_dir s (resolve e dst)
                then OsPath.join dst (basename src) else dst in
  let qd := if is_dir s (resolve e dst)
            then OsPath.join (resolve e dst) (basename qs) else resolve e dst in
  if String.eqb qs qd && is_file s qs
  then raise (ShutilError ("`" ++ src ++ "` and `" ++ target ++ "` are the same file"))
  else
    match read s qs with
    | None => raise (IOError ("No such file or directory: " ++ qs))
    | Some x =>
        if is_dir s (OsPath.dirname qd) && negb (is_dir s qd)
        then put (write qd x s)
        else raise (IOError ("No such file or directory: " ++ qd))
    end.

(** [os.remove(p)]: the regular file at [p] is removed, a plain file as
    well as an archive; [OSError] when there is none, as when [p] is a
    directory.  Permissions are not part of the file system here: what is
    there can be removed. *)
Definition remove (e : engine) (p : string) : M unit :=
  let q := resolve e p in
  s ← get;
  if is_file s q
  then put (State (delete q (files s)) (delete q (tarballs s))
                  (dirs s) (config_dict s) (log s))
  else raise (OSError ("No such file or directory: " ++ q)).

Definition child_of (d p : string) : bool :=
  String.eqb (OsPath.dirname p) d && negb (String.eqb p d).

(** Whether [os.listdir(d)] is a non-empty list; [OSError] when [d] is no
    directory. *)
Definition listdir_nonempty (e : engine) (d : string) : M bool :=
  let q := resolve e d in
  s ← get;
  if is_dir s q
  then mret (existsb (child_of q)
               (elements (dom (files s) ∪ dom (tarballs s) ∪ dirs s)))
  else raise (OSError ("No such file or directory: " ++ q)).

(** [os.listdir(d)]: the names of the entries of [d], in the order in
    which the file system yields them; [OSError] when [d] is no directory. *)
Definition listdir (e : engine) (d : string) : M (list string) :=
  let q := resolve e d in
  s ← get;
  if is_dir s q
  then mret (map basename
               (List.filter (child_of q)
                  (elements (dom (files s) ∪ dom (tarballs s) ∪ dirs s))))
  else raise (OSError ("No such file or directory: " ++ q)).

Definition under (d p : string) : bool :=
  String.eqb p d || PyStr.startswith (d ++ "/") p.

(** [shutil.rmtree(d, ignore_errors)]. *)
Definition rmtree (e : engine) (d : string) (ignore_errors : bool) : M unit :=
  let q := resolve e d in
  s ← get;
  if is_dir s q
  then put (State (filter (fun kv => ¬ Is_true (under q kv.1)) (files s))
                  (filter (fun kv => ¬ Is_true (under q kv.1)) (tarballs s))
                  (filter (fun p => ¬ Is_true (under q p)) (dirs s))
                  (config_dict s) (log s))
  else if ignore_errors then mret tt
  else raise (OSError ("No such file or directory: " ++ q)).

End Fs.

(** ** The collaborators in [weecfg] *)

Module Weecfg.

Definition write_member (e : engine) (dir : string) (m : string * option content)
    (s : state) : state :=
  let q := Fs.resolve e (OsPath.join dir m.1) in
  match m.2 with
  | Some c =>
      State (<[ q := c ]> (files s)) (tarballs s)
            (dirs s ∪ list_to_set (Fs.ancestors q)) (config_dict s) (log s)
  | None =>
      Fs.with_dirs (dirs s ∪ {[ q ]} ∪ list_to_set (Fs.ancestors q)) s
  end.

(** Modelled from the spec: [weecfg.extract_tarball] is not among the
    sources.  Given an archive path and a target directory it extracts the
    archive there and returns the member paths, or fails with an extraction
    error. *)
Definition extract_tarball (e : engine) (path dir : string) : M (list string) :=
  s ← get;
  match tarballs s !! Fs.resolve e path with
  | None => raise (ExtractError ("Unable to extract " ++ path))
  | Some members =>
      put (fold_left (fun s' m => write_member e dir m s') members s) ;;
      mret (map fst members)
  end.

(** Modelled from the spec: [weecfg.get_extension_installer] is not among
    the sources.  It locates and loads the installer manifest, a file at a
    conventional place inside the directory, and fails if it is absent or
    malformed. *)
Definition get_extension_installer (e : engine) (dir : string)
    : M (string * installer) :=
  let path := OsPath.join dir "install.py" in
  s ← get;
  match files s !! Fs.resolve e path with
  | Some (Manifest i) => mret (path, i)
  | _ => raise (ExtensionError ("Unable to find a loadable install.py in " ++ dir))
  end.

(** Modelled from the spec: [weecfg.save_with_backup] is not among the
    sources.  It writes the configuration tree to durable storage, first
    making a backup of the previous version, and reports where the backup
    is. *)
Definition save_with_backup (e : engine) : M string :=
  s ← get;
  let q := Fs.resolve e (config_path e) in
  let b := Fs.resolve e (backup_path e) in
  let kept := match files s !! q with
              | Some old => <[ b := old ]> (files s)
              | None => files s
              end in
  put (Fs.with_files (<[ q := ConfigFile (config_dict s) ]> kept) s) ;;
  mret (backup_path e).

End Weecfg.

(** ** Sections and dictionaries *)

Module Sec.

Fixpoint lookup {A} (k : string) (a : list (string * A)) : option A :=
  match a with
  | [] => None
  | (k', x) :: r => if String.eqb k' k then Some x else lookup k r
  end.

Definition mem {A} (k : string) (a : list (string * A)) : bool :=
  match lookup k a with Some _ => true | None => false end.

Fixpoint delete {A} (k : string) (a : list (string * A)) : list (string * A) :=
  match a with
  | [] => []
  | (k', x) :: r => if String.eqb k' k then delete k r else (k', x) :: delete k r
  end.

(** [d[k] = x] on a plain dictionary: in place when the key is there, as a
    new last key when it is not. *)
Fixpoint dict_set {A} (k : string) (x : A) (a : list (string * A)) : list (string * A) :=
  match a with
  | [] => [(k, x)]
  | (k', y) :: r =>
      if String.eqb k' k then (k', x) :: r else (k', y) :: dict_set k x r
  end.

(** [sec[k] = c] on a ConfigObj section: the key keeps its place and its
    comment when it is there, and is appended without comment when not. *)
Fixpoint set (k : string) (c : cfg) (a : section) : section :=
  match a with
  | [] => [(k, ([], c))]
  | (k', (cm, y)) :: r =>
      if String.eqb k' k then (k', (cm, c)) :: r else (k', (cm, y)) :: set k c r
  end.

(** [sec.comments[k] = lines]; a comment for a key that is absent is kept
    by ConfigObj but never written, and is dropped here. *)
Fixpoint set_comment (k : string) (lines : list string) (a : section) : section :=
  match a with
  | [] => []
  | (k', (cm, y)) :: r =>
      if String.eqb k' k then (k', (lines, y)) :: r
      else (k', (cm, y)) :: set_comment k lines r
  end.

Definition get (k : string) (a : section) : option cfg :=
  option_map snd (lookup k a).

Definition keys {A} (a : list (string * A)) : list string := map fst a.

End Sec.

Fixpoint of_pydict (p : pydict) : cfg :=
  match p with
  | PScalar v => Scalar v
  | PDict body => Section (map (fun kx => (fst kx, ([], of_pydict (snd kx)))) body)
  end.

Fixpoint to_pydict (c : cfg) : pydict :=
  match c with
  | Scalar v => PScalar v
  | Section body => PDict (map (fun kx => (fst kx, to_pydict (snd (snd kx)))) body)
  end.

Module Merge.

(** Modelled from the spec: [weecfg.conditional_merge] is not among the
    sources.  A conditional structural merge: fragment values are inserted
    for keys and sections not already present; pre-existing values in the
    live tree are never overwritten.  [merge_value x old] is what the key
    holds afterwards, [old] being what it held before. *)
Fixpoint merge_value (x : pydict) (old : option cfg) : cfg :=
  match x, old with
  | PScalar v, None => Scalar v
  | PScalar _, Some c => c
  | PDict _, Some (Scalar v) => Scalar v
  | PDict fb, Some (Section body) =>
      Section (fold_left
                 (fun a kx => Sec.set (fst kx) (merge_value (snd kx) (Sec.get (fst kx) a)) a)
                 fb body)
  | PDict fb, None =>
      Section (fold_left
                 (fun a kx => Sec.set (fst kx) (merge_value (snd kx) (Sec.get (fst kx) a)) a)
                 fb [])
  end.

Definition merge_key (a : section) (kx : string * pydict) : section :=
  Sec.set (fst kx) (merge_value (snd kx) (Sec.get (fst kx) a)) a.

Definition conditional_merge (a : section) (b : list (string * pydict)) : section :=
  fold_left merge_key b a.

(** Modelled from the spec: [weecfg.remove_and_prune] is not among the
    sources.  It removes from the live tree every key and section that
    matches one of the fragment, pruning parent sections that are empty
    afterwards: the structural inverse of the conditional merge.
    [remove_value x old] is what is left of [old], [None] when the key
    goes. *)
Fixpoint remove_value (x : pydict) (old : cfg) : option cfg :=
  match x, old with
  | PScalar _, _ => None
  | PDict _, Scalar v => Some (Scalar v)
  | PDict fb, Section body =>
      match fold_left
              (fun a kx =>
                 match Sec.lookup (fst kx) a with
                 | None => a
                 | Some (cm, old') =>
                     match remove_value (snd kx) old' with
                     | None => Sec.delete (fst kx) a
                     | Some c => Sec.set (fst kx) c a
                     end
                 end) fb body with
      | [] => None
      | body' => Some (Section body')
      end
  end.

Definition remove_key (a : section) (kx : string * pydict) : section :=
  match Sec.lookup (fst kx) a with
  | None => a
  | Some (cm, old) =>
      match remove_value (snd kx) old with
      | None => Sec.delete (fst kx) a
      | Some c => Sec.set (fst kx) c a
      end
  end.

Definition remove_and_prune (a : section) (b : list (string * pydict)) : section :=
  fold_left remove_key b a.

(** Modelled from the spec: [weecfg.prepend_path] is not among the sources.
    It rewrites every value stored under [label], at any depth of the
    fragment, by prefixing it with [value]; [None] when one of the two is
    not a string, which [os.path.join] refuses. *)
Fixpoint prepend_value (label : string) (value : cfg) (k : string) (x : pydict)
    : option pydict :=
  match x with
  | PDict body =>
      option_map PDict
        (fold_right
           (fun kx acc =>
              match prepend_value label value (fst kx) (snd kx), acc with
              | Some y, Some r => Some ((fst kx, y) :: r)
              | _, _ => None
              end) (Some []) body)
  | PScalar v =>
      if String.eqb k label
      then match value, v with
           | Scalar (VStr root), VStr s => Some (PScalar (VStr (OsPath.join root s)))
           | _, _ => None
           end
      else Some x
  end.

Definition prepend_path (b : list (string * pydict)) (label : string) (value : cfg)
    : option (list (string * pydict)) :=
  fold_right
    (fun kx acc =>
       match prepend_value label value (fst kx) (snd kx), acc with
       | Some y, Some r => Some ((fst kx, y) :: r)
       | _, _ => None
       end) (Some []) b.

End Merge.

Module Weeutil.

(** Modelled from the spec: [weeutil.weeutil.option_as_list] is not among
    the sources.  It parses an option into an ordered list of identifiers,
    accepting either a single identifier or a list. *)
Definition option_as_list (v : value) : list string :=
  match v with
  | VStr s => [s]
  | VList l => l
  end.

End Weeutil.

(** ** Paths into a configuration tree *)

(** [c[k1][k2]...]: what the tree holds under a path of keys. *)
Fixpoint lookup_path (p : list string) (c : cfg) : option cfg :=
  match p with
  | [] => Some c
  | k :: r =>
      match c with
      | Section b =>
          match Sec.get k b with
          | Some x => lookup_path r x
          | None => None
          end
      | Scalar _ => None
      end
  end.

(** [c'] holds every value that [c] holds, under the same path, and a
    section wherever [c] has one. *)
Definition preserved (c c' : cfg) : Prop :=
  (forall p v, lookup_path p c = Some (Scalar v) -> lookup_path p c' = Some (Scalar v))
  /\ (forall p b, lookup_path p c = Some (Section b) ->
                  exists b', lookup_path p c' = Some (Section b')).

(** The keys of a Python dictionary are distinct, at every level. *)
Fixpoint wf_pydict (x : pydict) : Prop :=
  match x with
  | PScalar _ => True
  | PDict b =>
      NoDup (map fst b)
      /\ fold_right (fun kx acc => wf_pydict (snd kx) /\ acc) True b
  end.

(** ** Python helpers of the engine *)

Definition py_repr_str (s : string) : string := "'" ++ s ++ "'".

Fixpoint py_join_comma (l : list string) : string :=
  match l with
  | [] => ""
  | [x] => x
  | x :: r => x ++ ", " ++ py_join_comma r
  end.

Definition py_repr_list (l : list string) : string :=
  "[" ++ py_join_comma (map py_repr_str l) ++ "]".

(** ["Unknown destination for file %s" % source_tuple]: a two-element tuple
    on the right of [%] is taken as two arguments for one conversion, which
    is a [TypeError]; a list is formatted as one value. *)
Definition unknown_destination (st : source_tuple) : exn :=
  if st_is_tuple st
  then TypeError "not all arguments converted during string formatting"
  else SystemExit ("Unknown destination for file ["
                   ++ py_repr_str (st_prefix st) ++ ", "
                   ++ py_repr_list (st_files st) ++ "]").

(** [c[k]] on a configuration value. *)
Definition index (c : cfg) (k : string) : M cfg :=
  match c with
  | Section b =>
      match Sec.get k b with
      | Some x => mret x
      | None => raise (KeyError k)
      end
  | Scalar (VStr _) => raise (TypeError "string indices must be integers, not str")
  | Scalar (VList _) => raise (TypeError "list indices must be integers, not str")
  end.

Definition with_config (c : section) (s : state) : state :=
  State (files s) (tarballs s) (dirs s) c (log s).

Definition modify_config (f : section -> section) : M unit := fun s =>
  (Ok tt, with_config (f (config_dict s)) s).

(** [for x in l: acc = body acc x], for loops that update local variables. *)
Fixpoint for_fold {A B} (l : list A) (acc : B) (body : B -> A -> M B) : M B :=
  match l with
  | [] => mret acc
  | x :: r => acc' ← body acc x; for_fold r acc' body
  end.

(** ** [ExtensionEngine] *)

Module ExtensionEngine.

(** The class attribute [target_dirs]. *)
Definition target_dirs : gmap string string :=
  {[ "bin" := "BIN_ROOT"; "skins" := "SKIN_ROOT" ]}.

(** [_strip_leading_dir(path)]; [None] is Python's [None], returned by
    falling off the end of the function. *)
Definition _strip_leading_dir (path : string) : option string :=
  let idx := PyStr.find "/" path in
  if 0 <=? idx then Some (PyStr.slice_from (idx + 1) path) else None.

(** [self.root_dict[root_type]]. *)
Definition root (e : engine) (root_type : string) : M string :=
  match root_dict e !! root_type with
  | Some r => mret r
  | None => raise (KeyError root_type)
  end.

(** [os.path.abspath(os.path.join(self.root_dict[root_type], dst))], where
    [dst] may be [None]; [posixpath.join] then fails on [None.startswith]. *)
Definition destination (e : engine) (root_type : string) (dst : option string)
    : M string :=
  r ← root e root_type;
  match dst with
  | Some d => mret (OsPath.abspath (cwd e) (OsPath.join r d))
  | None => raise (AttributeError "'NoneType' object has no attribute 'startswith'")
  end.

(** The loop [for directory in target_dirs: ... break / else: sys.exit(...)]
    shared by the copy and the removal phase: [body] is run for the first
    directory with a non-empty common prefix. *)
Fixpoint for_target_dirs {A} (ks : list string) (st : source_tuple)
    (body : string -> M A) : M A :=
  match ks with
  | [] => raise (unknown_destination st)
  | directory :: r =>
      let source_type := OsPath.commonprefix [st_prefix st; directory] in
      if negb (String.eqb source_type "")
      then match target_dirs !! source_type with
           | Some root_type => body root_type
           | None => raise (KeyError source_type)
           end
      else for_target_dirs r st body
  end.

(** The body of [for install_file in source_tuple[1]] in [install_from_dir]. *)
Definition install_file_step (e : engine) (extension_dir root_type : string)
    (N : nat) (install_file : string) : M nat :=
  let source_path := OsPath.join extension_dir install_file in
  let dst_file := _strip_leading_dir install_file in
  destination_path ← destination e root_type dst_file;
  logger_log ("Copying from '" ++ source_path ++ "' to '" ++ destination_path ++ "'") 3 ;;
  if dry_run e then mret N
  else
    try_except (Fs.makedirs e (OsPath.dirname destination_path))
               is_OSError (fun _ => mret tt) ;;
    Fs.copy e source_path destination_path ;;
    mret (S N).

(** [installer['files']]. *)
Definition installer_files (i : installer) : M (list source_tuple) :=
  match i_files i with
  | Some l => mret l
  | None => raise (KeyError "files")
  end.

(** The copy phase of [install_from_dir]. *)
Definition copy_files (e : engine) (extension_dir : string) (i : installer) : M nat :=
  l ← installer_files i;
  for_fold l O (fun N st =>
    for_target_dirs (target_order e) st (fun root_type =>
      for_fold (st_files st) N (install_file_step e extension_dir root_type))).

(** [delete_file(filename, report_errors)]. *)
Definition delete_file (e : engine) (filename : string) (report_errors : bool) : M nat :=
  r ← try_except
        (logger_log ("Deleting file " ++ filename) 2 ;;
         if dry_run e then mret None
         else Fs.remove e filename ;; mret (Some 1%nat))
        is_OSError
        (fun ex =>
           (if report_errors
            then logger_log ("Delete failed: "
                             ++ match ex with OSError m => m | _ => "" end) 4
            else mret tt) ;;
           mret None);
  mret (default O r).

(** [delete_directory(directory, report_errors)]. *)
Definition delete_directory (e : engine) (directory : string) (report_errors : bool)
    : M unit :=
  try_except
    (nonempty ← Fs.listdir_nonempty e directory;
     if (nonempty : bool)
     then logger_log ("Directory '" ++ directory ++ "' not empty") 2
     else
       logger_log ("Deleting directory " ++ directory) 2 ;;
       if dry_run e then mret tt else Fs.rmtree e directory false)
    is_OSError
    (fun ex =>
       if report_errors
       then logger_log ("Delete failed on directory '" ++ directory ++ "': "
                        ++ match ex with OSError m => m | _ => "" end) 2
       else mret tt).

(** The body of [for install_file in source_tuple[1]] in [uninstall_files]. *)
Definition uninstall_file_step (e : engine) (root_type : string)
    (N : nat) (install_file : string) : M nat :=
  let dst_file := _strip_leading_dir install_file in
  destination_path ← destination e root_type dst_file;
  n1 ← delete_file e destination_path true;
  if PyStr.endswith ".py" destination_path
  then
    n2 ← delete_file e (PyStr.replace ".py" ".pyc" destination_path) false;
    n3 ← delete_file e (PyStr.replace ".py" ".pyo" destination_path) false;
    mret (N + n1 + n2 + n3)%nat
  else mret (N + n1)%nat.

(** [uninstall_files(installer)]. *)
Definition uninstall_files (e : engine) (i : installer) : M unit :=
  logger_log "Removing files." 2 ;;
  l ← installer_files i;
  N ← for_fold l O (fun N st =>
         for_target_dirs (target_order e) st (fun root_type =>
           N' ← for_fold (st_files st) N (uninstall_file_step e root_type);
           (if String.eqb root_type "SKIN_ROOT"
            then
              let dst_dir := _strip_leading_dir (st_prefix st) in
              directory ← destination e root_type dst_dir;
              delete_directory e directory true
            else mret tt) ;;
           mret N'));
  logger_log ("Removed " ++ pretty N ++ " files") 2.

(** *** The configuration part of [install_from_dir] *)

(** Python's truth value of [d.get(k, None)]. *)
Definition truthy (c : option cfg) : bool :=
  match c with
  | None => false
  | Some (Scalar (VStr s)) => negb (String.eqb s "")
  | Some (Scalar (VList l)) => match l with [] => false | _ => true end
  | Some (Section b) => match b with [] => false | _ => true end
  end.

Definition is_string (x : pydict) (s : string) : bool :=
  match x with
  | PScalar (VStr t) => String.eqb t s
  | _ => false
  end.

(** One turn of [for i in cfg['Databases']] on the dictionary [db]: the
    dictionary as the turn leaves it, and whether the turn ended without an
    exception.  Assignments made before an exception stay. *)
Definition massage_db (sqlitecfg mysqlcfg : option cfg) (db : list (string * pydict))
    : list (string * pydict) * bool :=
  match Sec.lookup "driver" db with
  | None => (db, false)
  | Some driver =>
      if is_string driver "weedb.sqlite" && truthy sqlitecfg
      then match sqlitecfg with
           | Some (Section sb) =>
               match Sec.get "database_name" sb, Sec.lookup "database_name" db with
               | Some (Scalar (VStr sname)), Some (PScalar (VStr dname)) =>
                   let db1 := Sec.dict_set "database_name"
                                (PScalar (VStr (OsPath.join (OsPath.dirname sname) dname))) db in
                   match Sec.get "root" sb with
                   | Some r => (Sec.dict_set "root" (to_pydict r) db1, true)
                   | None => (db1, false)
                   end
               | _, _ => (db, false)
               end
           | _ => (db, false)
           end
      else if is_string driver "weedb.mysql" && truthy mysqlcfg
      then match mysqlcfg with
           | Some (Section mb) =>
               match Sec.get "host" mb with
               | None => (db, false)
               | Some h =>
                   let db1 := Sec.dict_set "host" (to_pydict h) db in
                   match Sec.get "user" mb with
                   | None => (db1, false)
                   | Some u =>
                       let db2 := Sec.dict_set "user" (to_pydict u) db1 in
                       match Sec.get "password" mb with
                       | None => (db2, false)
                       | Some p => (Sec.dict_set "password" (to_pydict p) db2, true)
                       end
                   end
               end
           | _ => (db, false)
           end
      else (db, true)
  end.

(** The loop over [cfg['Databases']], the keys of a dictionary being
    distinct; it stops at the first exception. *)
Fixpoint massage_dbs (sqlitecfg mysqlcfg : option cfg) (dbs : list (string * pydict))
    : list (string * pydict) :=
  match dbs with
  | [] => []
  | (i, PDict db) :: r =>
      let '(db', ok) := massage_db sqlitecfg mysqlcfg db in
      (i, PDict db') :: (if ok then massage_dbs sqlitecfg mysqlcfg r else r)
  | (i, PScalar v) :: r => (i, PScalar v) :: r
  end.

(** The [try: ... except: pass] block that massages the database
    dictionaries of the working copy [cfg]. *)
Definition massage_databases (config : section) (cfg : list (string * pydict))
    : list (string * pydict) :=
  match Sec.get "Databases" config with
  | Some (Section dbcfg) =>
      let sqlitecfg := Sec.get "archive_sqlite" dbcfg in
      let mysqlcfg := Sec.get "archive_mysql" dbcfg in
      match Sec.lookup "Databases" cfg with
      | Some (PDict dbs) =>
          Sec.dict_set "Databases" (PDict (massage_dbs sqlitecfg mysqlcfg dbs)) cfg
      | _ => cfg
      end
  | _ => cfg
  end.

Definition extension_comment (e : engine) (extension_name : string) : list string :=
  major_comment_block e ++ ["# Options for extension '" ++ extension_name ++ "'"].

(** The block under [if 'config' in installer]; the result is
    [save_config]. *)
Definition merge_config (e : engine) (i : installer) (extension_name : string) : M bool :=
  match i_config i with
  | None => mret false
  | Some fragment =>
      logger_log "Adding sections to configuration file" 2 ;;
      s ← get;
      std_report ← index (Section (config_dict s)) "StdReport";
      html_root ← index std_report "HTML_ROOT";
      cfg1 ← match Merge.prepend_path fragment "HTML_ROOT" html_root with
             | Some c => mret c
             | None => raise (AttributeError "'list' object has no attribute 'startswith'")
             end;
      let cfg := massage_databases (config_dict s) cfg1 in
      let new_top_level :=
        List.filter (fun k => negb (Sec.mem k (config_dict s))) (Sec.keys cfg) in
      for_each new_top_level (fun k => logger_log ("Adding section " ++ k) 3) ;;
      save_config ←
        (if dry_run e then mret false
         else
           modify_config (fun c => Merge.conditional_merge c cfg) ;;
           for_each new_top_level (fun new_section =>
             modify_config (Sec.set_comment new_section
                              (extension_comment e extension_name))) ;;
           mret true);
      logger_log "Merged extension settings into configuration file" 3 ;;
      mret save_config
  end.

(** *** Service groups *)

(** What [option_as_list] hands back for the live value: a list, or the
    section itself when the key holds a section. *)
Inductive svc_container :=
| AsList (l : list string)
| AsSection (b : section).

Definition svc_in (svc : string) (c : svc_container) : bool :=
  match c with
  | AsList l => existsb (String.eqb svc) l
  | AsSection b => Sec.mem svc b
  end.

(** [self.config_dict['Engine']['Services'][service_group]]. *)
Definition read_service_group (group : string) : M cfg :=
  s ← get;
  engine_sec ← index (Section (config_dict s)) "Engine";
  services ← index engine_sec "Services";
  index services group.

(** [self.config_dict['Engine']['Services'][service_group] = v], after the
    same path was read. *)
Definition write_service_group (group : string) (v : value) (config : section) : section :=
  match Sec.get "Engine" config with
  | Some (Section eb) =>
      match Sec.get "Services" eb with
      | Some (Section sb) =>
          Sec.set "Engine"
            (Section (Sec.set "Services" (Section (Sec.set group (Scalar v) sb)) eb))
            config
      | _ => config
      end
  | _ => config
  end.

(** The body of [for svc in extension_svcs]; the locals are [svc_list] and
    [save_config]. *)
Definition register_service (e : engine) (group : string)
    (locals : svc_container * bool) (svc : string) : M (svc_container * bool) :=
  if svc_in svc (fst locals) then mret locals
  else
    locals' ←
      (if dry_run e then mret locals
       else match fst locals with
            | AsList l =>
                modify_config (write_service_group group (VList (l ++ [svc]))) ;;
                mret (AsList (l ++ [svc]), true)
            | AsSection _ =>
                raise (AttributeError "'Section' object has no attribute 'append'")
            end);
    logger_log ("Added new service " ++ svc ++ " to " ++ group) 3 ;;
    mret locals'.

(** [option_as_list] on the live value. *)
Definition live_as_list (live : cfg) : svc_container :=
  match live with
  | Scalar v => AsList (Weeutil.option_as_list v)
  | Section b => AsSection b
  end.

(** The body of [for service_group in all_service_groups] in
    [install_from_dir]. *)
Definition register_group (e : engine) (i : installer) (save_config : bool)
    (group : string) : M bool :=
  match Sec.lookup group (i_groups i) with
  | None => mret save_config
  | Some declared =>
      let extension_svcs := Weeutil.option_as_list declared in
      live ← read_service_group group;
      let svc_list := live_as_list live in
      locals ← for_fold extension_svcs (svc_list, save_config) (register_service e group);
      mret (snd locals)
  end.

(** [x not in installer[service_group]]: membership in a list, the
    substring test on a string. *)
Definition not_in_declared (declared : value) (x : string) : bool :=
  match declared with
  | VStr s => negb (PyStr.contains x s)
  | VList l => negb (existsb (String.eqb x) l)
  end.

(** Python 2's [filter(f, live)]: a list from a list, a string from a
    string (its characters), the list of kept keys from a section. *)
Definition py_filter (f : string -> bool) (live : cfg) : value :=
  match live with
  | Scalar (VList l) => VList (List.filter f l)
  | Scalar (VStr s) => VStr (PyStr.concat (List.filter f (PyStr.chars s)))
  | Section b => VList (List.filter f (Sec.keys b))
  end.

(** The body of [for service_group in all_service_groups] in
    [uninstall_extension]. *)
Definition unregister_group (e : engine) (i : installer) (save_config : bool)
    (group : string) : M bool :=
  match Sec.lookup group (i_groups i) with
  | None => mret save_config
  | Some declared =>
      live ← read_service_group group;
      let new_list := py_filter (not_in_declared declared) live in
      if dry_run e then mret save_config
      else modify_config (write_service_group group new_list) ;; mret true
  end.

(** *** The three entry points *)

(** [install_from_dir(extension_dir)]. *)
Definition install_from_dir (e : engine) (extension_dir : string) : M unit :=
  logger_log ("Request to install extension found in directory " ++ extension_dir) 2 ;;
  found ← Weecfg.get_extension_installer e extension_dir;
  let installer_path := fst found in
  let i := snd found in
  let extension_name := default "Unknown" (i_name i) in
  logger_log ("Found extension with name '" ++ extension_name ++ "'") 2 ;;
  logger_log "Copying new files" 2 ;;
  N ← copy_files e extension_dir i;
  logger_log ("Copied " ++ pretty N ++ " files") 2 ;;
  save_config ← merge_config e i extension_name;
  logger_log "Adding services to service lists" 2 ;;
  save_config ← for_fold (all_service_groups e) save_config (register_group e i);
  ext_root ← root e "EXT_ROOT";
  let extension_installer_dir := OsPath.join ext_root extension_name in
  logger_log ("Saving installer file to " ++ extension_installer_dir) 0 ;;
  (if dry_run e then mret tt
   else
     try_except (Fs.makedirs e extension_installer_dir) is_OSError (fun _ => mret tt) ;;
     Fs.copy e installer_path extension_installer_dir) ;;
  if (save_config : bool)
  then
    backup ← Weecfg.save_with_backup e;
    logger_log ("Saved configuration dictionary. Backup copy at " ++ backup) 0
  else mret tt.

(** A local variable that may not have been assigned yet. *)
Definition read_local (name : string) (v : option string) : M string :=
  match v with
  | Some x => mret x
  | None => raise (UnboundLocalError
                     ("local variable '" ++ name ++ "' referenced before assignment"))
  end.

(** The statements of the [try] block of [install_extension] up to the
    assignment of [extension_dir]. *)
Definition stage_tarball (e : engine) (extension_path : string) : M string :=
  member_names ← Weecfg.extract_tarball e extension_path (tmpdir e);
  let extension_reldir := OsPath.commonprefix member_names in
  if String.eqb extension_reldir ""
  then raise (InstallError ("No common path in tarfile '" ++ extension_path
                            ++ "'. Unable to install."))
  else mret (OsPath.join (tmpdir e) extension_reldir).

(** The [try: ... finally: shutil.rmtree(extension_dir, ignore_errors=True)]
    of [install_extension]; the [finally] clause reads the local
    [extension_dir], which is assigned only when staging got that far. *)
Definition install_from_tarball (e : engine) (extension_path : string) : M unit := fun s =>
  match stage_tarball e extension_path s with
  | (Ok extension_dir, s1) =>
      try_finally (install_from_dir e extension_dir)
                  (d ← read_local "extension_dir" (Some extension_dir); Fs.rmtree e d true) s1
  | (Raise ex, s1) =>
      try_finally (raise ex)
                  (d ← read_local "extension_dir" None; Fs.rmtree e d true) s1
  end.

(** [enumerate_extensions()]. *)
Definition enumerate_extensions (e : engine) : M unit :=
  ext_root ← root e "EXT_ROOT";
  try_except
    (exts ← Fs.listdir e ext_root;
     match exts with
     | _ :: _ => for_each exts (fun f => logger_log f 0)
     | [] =>
         logger_log ("Extension cache is '" ++ ext_root ++ "'") 2 ;;
         logger_log "No extensions installed" 0
     end)
    is_OSError
    (fun _ =>
       logger_log ("No extension cache '" ++ ext_root ++ "'") 2 ;;
       logger_log "No extensions installed" 0).

(** [install_extension(extension_path)]. *)
Definition install_extension (e : engine) (extension_path : string) : M unit :=
  logger_log ("Request to install '" ++ extension_path ++ "'") 0 ;;
  is_f ← Fs.isfile e extension_path;
  (if (is_f : bool) then install_from_tarball e extension_path
   else
     is_d ← Fs.isdir e extension_path;
     if (is_d : bool) then install_from_dir e extension_path
     else raise (InstallError ("Extension '" ++ extension_path ++ "' not found."))) ;;
  logger_log ("Finished installing extension '" ++ extension_path ++ "'") 0.

(** [uninstall_extension(extension_name)]. *)
Definition uninstall_extension (e : engine) (extension_name : string) : M unit :=
  logger_log ("Request to remove extension '" ++ extension_name ++ "'") 0 ;;
  ext_root ← root e "EXT_ROOT";
  let extension_installer_dir := OsPath.join ext_root extension_name in
  found ← try_except (Weecfg.get_extension_installer e extension_installer_dir)
            is_ExtensionError
            (fun _ => raise (SystemExit ("Unable to find extension " ++ extension_name)));
  let i := snd found in
  uninstall_files e i ;;
  save_config ← for_fold (all_service_groups e) false (unregister_group e i);
  save_config ←
    match i_config i with
    | Some fragment =>
        if dry_run e then mret save_config
        else modify_config (fun c => Merge.remove_and_prune c fragment) ;; mret true
    | None => mret save_config
    end;
  (if dry_run e then mret tt else Fs.rmtree e extension_installer_dir false) ;;
  (if (save_config : bool) then Weecfg.save_with_backup e ;; mret tt else mret tt) ;;
  logger_log ("Finished removing extension '" ++ extension_name ++ "'") 0.

End ExtensionEngine.

(** ** The manifest as Python objects

    [install_from_dir] copies the manifest's fragment with [dict(...)] and
    then assigns into the copy.  Whether the manifest sees these
    assignments depends on which dictionaries are shared, so here the
    dictionaries live in a store and refer to each other by address. *)

Module Heap.

(** What a key of a dictionary holds: another dictionary, a string or list,
    or a section of the live configuration. *)
Inductive pyval :=
| PRef (a : nat)
| PVal (v : value)
| PSec (b : section).

Abbreviation heap := (gmap nat (list (string * pyval))).

Definition read (h : heap) (a : nat) : list (string * pyval) := default [] (h !! a).

(** [d[k] = v] for the dictionary at [a]. *)
Definition store (h : heap) (a : nat) (k : string) (v : pyval) : heap :=
  <[ a := Sec.dict_set k v (read h a) ]> h.

Definition fresh (h : heap) : nat := S (list_max (elements (dom h))).

(** [dict(d)]: a new dictionary with the keys of [d], each holding the very
    object [d] holds. *)
Definition dict_copy (a : nat) (h : heap) : nat * heap :=
  (fresh h, <[ fresh h := read h a ]> h).

Definition of_cfg (c : cfg) : pyval :=
  match c with
  | Scalar v => PVal v
  | Section b => PSec b
  end.

(** The tree that is reachable from a value. *)
Fixpoint reify (fuel : nat) (h : heap) (v : pyval) : pydict :=
  match fuel with
  | O => PDict []
  | S f =>
      match v with
      | PVal x => PScalar x
      | PSec b => to_pydict (Section b)
      | PRef a => PDict (map (fun kv => (fst kv, reify f h (snd kv))) (read h a))
      end
  end.

(** Modelled from the spec: [weecfg.prepend_path] is not among the sources.
    As [Merge.prepend_path], on the dictionary at [a]: the values under
    [label] are rewritten where they are stored; the flag is false when
    [os.path.join] refuses one. *)
Fixpoint prepend_path (fuel : nat) (label : string) (value : cfg) (a : nat) (h : heap)
    : heap * bool :=
  match fuel with
  | O => (h, true)
  | S f =>
      fold_left
        (fun (acc : heap * bool) (k : string) =>
           if snd acc
           then match Sec.lookup k (read (fst acc) a) with
                | Some (PRef b) => prepend_path f label value b (fst acc)
                | Some (PVal v) =>
                    if String.eqb k label
                    then match value, v with
                         | Scalar (VStr root), VStr s =>
                             (store (fst acc) a k (PVal (VStr (OsPath.join root s))), true)
                         | _, _ => (fst acc, false)
                         end
                    else acc
                | _ => acc
                end
           else acc)
        (map fst (read h a)) (h, true)
  end.

Definition is_string (x : pyval) (s : string) : bool :=
  match x with
  | PVal (VStr t) => String.eqb t s
  | _ => false
  end.

(** One turn of [for i in cfg['Databases']] for the dictionary [db] at
    address [a]: the assignments go to that dictionary. *)
Definition massage_db (sqlitecfg mysqlcfg : option cfg) (a : nat) (h : heap) : heap * bool :=
  match Sec.lookup "driver" (read h a) with
  | None => (h, false)
  | Some driver =>
      if is_string driver "weedb.sqlite" && ExtensionEngine.truthy sqlitecfg
      then match sqlitecfg with
           | Some (Section sb) =>
               match Sec.get "database_name" sb, Sec.lookup "database_name" (read h a) with
               | Some (Scalar (VStr sname)), Some (PVal (VStr dname)) =>
                   let h1 := store h a "database_name"
                               (PVal (VStr (OsPath.join (OsPath.dirname sname) dname))) in
                   match Sec.get "root" sb with
                   | Some r => (store h1 a "root" (of_cfg r), true)
                   | None => (h1, false)
                   end
               | _, _ => (h, false)
               end
           | _ => (h, false)
           end
      else if is_string driver "weedb.mysql" && ExtensionEngine.truthy mysqlcfg
      then match mysqlcfg with
           | Some (Section mb) =>
               match Sec.get "host" mb with
               | None => (h, false)
               | Some host =>
                   let h1 := store h a "host" (of_cfg host) in
                   match Sec.get "user" mb with
                   | None => (h1, false)
                   | Some u =>
                       let h2 := store h1 a "user" (of_cfg u) in
                       match Sec.get "password" mb with
                       | None => (h2, false)
                       | Some p => (store h2 a "password" (of_cfg p), true)
                       end
                   end
               end
           | _ => (h, false)
           end
      else (h, true)
  end.

(** The [try: ... except: pass] block on the working copy at [cfg]. *)
Definition massage_databases (config : section) (cfg : nat) (h : heap) : heap :=
  match Sec.get "Databases" config with
  | Some (Section dbcfg) =>
      let sqlitecfg := Sec.get "archive_sqlite" dbcfg in
      let mysqlcfg := Sec.get "archive_mysql" dbcfg in
      match Sec.lookup "Databases" (read h cfg) with
      | Some (PRef d) =>
          fst (fold_left
                 (fun (acc : heap * bool) (i : string) =>
                    if snd acc
                    then match Sec.lookup i (read (fst acc) d) with
                         | Some (PRef db) => massage_db sqlitecfg mysqlcfg db (fst acc)
                         | _ => (fst acc, false)
                         end
                    else acc)
                 (map fst (read h d)) (h, true))
      | _ => h
      end
  | _ => h
  end.

(** Lines 166 to 189 of [install_from_dir]: [cfg = dict(installer['config'])],
    the rewriting of the HTML paths and the massaging of the databases.
    The result is the address of [cfg], or the exception that leaves the
    block. *)
Definition working_copy (config : section) (installer_config : nat) (h : heap)
    : result nat * heap :=
  let '(cfg, h1) := dict_copy installer_config h in
  match Sec.get "StdReport" config with
  | Some (Section report) =>
      match Sec.get "HTML_ROOT" report with
      | Some html_root =>
          let '(h2, ok) := prepend_path (S (size h1)) "HTML_ROOT" html_root cfg h1 in
          if ok then (Ok cfg, massage_databases config cfg h2)
          else (Raise (AttributeError "'list' object has no attribute 'startswith'"), h2)
      | None => (Raise (KeyError "HTML_ROOT"), h1)
      end
  | Some (Scalar _) => (Raise (TypeError "string indices must be integers, not str"), h1)
  | None => (Raise (KeyError "StdReport"), h1)
  end.

End Heap.

(** ** Shapes of fragments *)

(** Two dictionaries have the same keys in the same order, at every level,
    and dictionaries and plain values in the same places. *)
Fixpoint same_shape (x y : pydict) : Prop :=
  match x, y with
  | PScalar _, PScalar _ => True
  | PDict b, PDict b' =>
      (fix go (b b' : list (string * pydict)) : Prop :=
         match b, b' with
         | [], [] => True
         | kx :: r, ky :: r' => fst kx = fst ky /\ same_shape (snd kx) (snd ky) /\ go r r'
         | _, _ => False
         end) b b'
  | _, _ => False
  end.

(** What the merge stores for a key that the live tree lacks. *)
Definition fresh_entry (ky : string * pydict) : string * (list string * cfg) :=
  (fst ky, ([], Merge.merge_value (snd ky) None)).

(** The entry holds a key of the fragment with a value that the fragment's
    value removes whole. *)
Definition removable (en : string * (list string * cfg)) (kx : string * pydict) : Prop :=
  fst en = fst kx /\ Merge.remove_value (snd kx) (snd (snd en)) = None.

(** ** The service groups in the configuration *)

(** The sections [Engine] and [Engine.Services] of a configuration, when it
    has them. *)
Definition services_of (c : section) : option (section * section) :=
  match Sec.get "Engine" c with
  | Some (Section eb) =>
      match Sec.get "Services" eb with
      | Some (Section sb) => Some (eb, sb)
      | _ => None
      end
  | _ => None
  end.

(** The configuration with another [Engine.Services] section. *)
Definition with_services (eb sb c : section) : section :=
  Sec.set "Engine" (Section (Sec.set "Services" (Section sb) eb)) c.

(** A section after a series of assignments, the first of the list being
    the latest. *)
Definition assigned (ovs : list (string * cfg)) (a : section) : section :=
  fold_right (fun gc acc => Sec.set (fst gc) (snd gc) acc) a ovs.

(** The configuration [c] is [c0] with the assignments [ovs] made in its
    [Engine.Services] section. *)
Definition services_assigned (c0 : section) (ovs : list (string * cfg)) (c : section) : Prop :=
  match services_of c0 with
  | Some (eb, sb0) => c = with_services eb (assigned ovs sb0) c0
  | None => c = c0 /\ ovs = []
  end.

(** The value [c] is the list that [c0] holds for the group [g], followed
    by identifiers that the manifest declares for [g]. *)
Definition extended_list (i : installer) (c0 : section) (g : string) (c : cfg) : Prop :=
  exists declared l a,
    Sec.lookup g (i_groups i) = Some declared
    /\ lookup_path ["Engine"; "Services"; g] (Section c0) = Some (Scalar (VList l))
    /\ c = Scalar (VList (l ++ a))
    /\ forall x, In x a -> In x (Weeutil.option_as_list declared).

(** What the round trip asks of the service groups: every group the
    manifest declares holds a list in the live configuration, and no
    element of that list would be taken out by the uninstall. *)
Definition services_untouched (G : list string) (i : installer) (c0 : section) : Prop :=
  forall g declared,
    In g G -> Sec.lookup g (i_groups i) = Some declared ->
    exists l, lookup_path ["Engine"; "Services"; g] (Section c0) = Some (Scalar (VList l))
              /\ forall x, In x l -> ExtensionEngine.not_in_declared declared x = true.

(** The identifiers of [svcs] that a list [cur] lacks, each once, in the
    order in which [svcs] first names them. *)
Fixpoint missing (cur svcs : list string) : list string :=
  match svcs with
  | [] => []
  | x :: r =>
      if existsb (String.eqb x) cur then missing cur r
      else x :: missing (cur ++ [x]) r
  end.

Definition same_fs (s s' : state) : Prop :=
  files s' = files s /\ tarballs s' = tarballs s /\ dirs s' = dirs s.

(** Every assignment is to a group of [G] and extends its list. *)
Definition assignments_extend (G : list string) (i : installer) (c0 : section)
    (ovs : list (string * cfg)) : Prop :=
  forall g c, In (g, c) ovs -> In g G /\ extended_list i c0 g c.

(** The latest assignment to a key gives it back the value of [c0], unless
    the key is a group still to be handled, whose list is extended. *)
Definition assignments_restore (R : list string) (i : installer) (c0 : section)
    (ovs : list (string * cfg)) : Prop :=
  forall k c, Sec.lookup k ovs = Some c ->
    lookup_path ["Engine"; "Services"; k] (Section c0) = Some c
    \/ (In k R /\ extended_list i c0 k c).

(** ** The destinations of a manifest *)

(** The root type that the loop over [target_dirs] settles on for a
    source-prefix, if it settles on one. *)
Fixpoint classify (ks : list string) (prefix : string) : option string :=
  match ks with
  | [] => None
  | directory :: r =>
      let source_type := OsPath.commonprefix [prefix; directory] in
      if negb (String.eqb source_type "")
      then ExtensionEngine.target_dirs !! source_type
      else classify r prefix
  end.

(** The destination path of a file, when it has one. *)
Definition dest_path (e : engine) (root_type : string) (f : string) : option string :=
  match root_dict e !! root_type, ExtensionEngine._strip_leading_dir f with
  | Some r, Some d => Some (OsPath.abspath (cwd e) (OsPath.join r d))
  | _, _ => None
  end.

Definition tuple_destinations (e : engine) (st : source_tuple) : list string :=
  match classify (target_order e) (st_prefix st) with
  | Some root_type => omap (dest_path e root_type) (st_files st)
  | None => []
  end.

(** Every destination path of the manifest's files. *)
Definition destinations (e : engine) (i : installer) : list string :=
  flat_map (tuple_destinations e) (default [] (i_files i)).

(** The paths that [uninstall_files] hands to [delete_file] for one
    destination: the file and, for Python, its two compiled siblings. *)
Definition deletions_of (d : string) : list string :=
  d :: (if PyStr.endswith ".py" d
        then [PyStr.replace ".py" ".pyc" d; PyStr.replace ".py" ".pyo" d]
        else []).

(** The directories that [uninstall_files] hands to [delete_directory]. *)
Definition skin_directories (e : engine) (i : installer) : list string :=
  flat_map (fun st =>
              match classify (target_order e) (st_prefix st) with
              | Some root_type =>
                  if String.eqb root_type "SKIN_ROOT"
                  then match dest_path e root_type (st_prefix st) with
                       | Some d => [d]
                       | None => []
                       end
                  else []
              | None => []
              end) (default [] (i_files i)).

(** The path [p] holds in [s'] the regular file, plain or archive, that it
    holds in [s], or none in both. *)
Definition same_at (s s' : state) (p : string) : Prop :=
  files s' !! p = files s !! p /\ tarballs s' !! p = tarballs s !! p.

(** From [s] to [s'] the configuration is kept and directories are only
    added; and either every regular file is as it was except under the
    keys of [K], or a key of [K] is a directory. *)
Definition copied_into (e : engine) (K : list string) (s s' : state) : Prop :=
  config_dict s' = config_dict s
  /\ dirs s ⊆ dirs s'
  /\ ((forall p, same_at s s' p \/ exists d, In d K /\ p = Fs.resolve e d)
      \/ exists d, In d K /\ Fs.resolve e d ∈ dirs s').

(** From [s] to [s'] the configuration is kept, every regular file is as
    it was or is gone, and gone only where [W] allows; and every directory
    is still there or is gone, and gone only where [D] allows. *)
Definition deleted_within (W D : string -> Prop) (s s' : state) : Prop :=
  config_dict s' = config_dict s
  /\ (forall p, same_at s s' p \/ (Fs.is_file s' p = false /\ W p))
  /\ (forall c, c ∈ dirs s' -> c ∈ dirs s)
  /\ (forall c, c ∈ dirs s -> c ∈ dirs s' \/ D c).

(** Where [uninstall_files] may delete: the destinations of the manifest's
    files with their compiled siblings, and what lies under the directories
    of its skins. *)
Definition may_delete (e : engine) (i : installer) (p : string) : Prop :=
  (exists d x, In d (destinations e i) /\ In x (deletions_of d) /\ p = Fs.resolve e x)
  \/ (exists q, In q (skin_directories e i) /\ Fs.under (Fs.resolve e q) p = true).

(** What is kept through a removal: every path of [Keep] holds the regular
    file that it holds in [s0], and every directory of [s0] that has a path
    of [Keep] under it is still a directory. *)
Definition kept (Keep : string -> Prop) (s0 t : state) : Prop :=
  (forall p, Keep p -> same_at s0 t p)
  /\ (forall c p, c ∈ dirs s0 -> Keep p -> Fs.under c p = true -> c ∈ dirs t).

(** The directory [q] holds what it has of [Keep] as a file system does: a
    path of [Keep] under [q] is an entry of [q], or lies under an entry of
    [q] that is a directory of [s0]. *)
Definition anchored (Keep : string -> Prop) (s0 : state) (q : string) : Prop :=
  forall p, Keep p -> Fs.under q p = true ->
    Fs.child_of q p = true
    \/ exists c, Fs.child_of q c = true /\ c ∈ dirs s0 /\ Fs.under c p = true.

(** At or under a directory of the manifest's skins. *)
Definition in_skin_directory (e : engine) (i : installer) (p : string) : Prop :=
  exists q, In q (skin_directories e i) /\ Fs.under (Fs.resolve e q) p = true.

(** The name under which an installation records the extension. *)
Definition recorded_name (i : installer) : string := default "Unknown" (i_name i).

(** What an installation leaves besides the extension's files: the saved
    configuration, its backup and the stored manifest. *)
Definition artifacts (e : engine) (dir r : string) (i : installer) : list string :=
  [Fs.resolve e (config_path e); Fs.resolve e (backup_path e);
   OsPath.join (Fs.resolve e (OsPath.join r (recorded_name i)))
               (Fs.basename (Fs.resolve e (OsPath.join dir "install.py")))].

(** The manifest's fragment is a dictionary none of whose top-level keys
    the configuration has. *)
Definition fragment_fresh (i : installer) (c : section) : Prop :=
  match i_config i with
  | Some F => wf_pydict (PDict F) /\ forall k, k ∈ map fst F -> Sec.mem k c = false
  | None => True
  end.

(** From [s] to [s'] directories are only added; and either every regular
    file is as it was except under the keys of [K] and where [W] allows,
    or a key of [K] is a directory. *)
Definition written_within (e : engine) (K : list string) (W : string -> Prop)
    (s s' : state) : Prop :=
  dirs s ⊆ dirs s'
  /\ ((forall p, same_at s s' p
                 \/ (exists d, In d K /\ p = Fs.resolve e d) \/ W p)
      \/ exists d, In d K /\ Fs.resolve e d ∈ dirs s').

(** The configuration dictionary is the same in [s] and [s']. *)
Definition keeps_config (s s' : state) : Prop := config_dict s' = config_dict s.


(** ** What the copy phase copies *)

(** The copy that [install_from_dir] makes for a file: from where, to
    where, both as the file system resolves them. *)
Definition copies_of (e : engine) (extension_dir root_type : string) (f : string)
    : list (string * string) :=
  match dest_path e root_type f with
  | Some d => [(Fs.resolve e (OsPath.join extension_dir f), Fs.resolve e d)]
  | None => []
  end.

Definition tuple_copies (e : engine) (extension_dir : string) (st : source_tuple)
    : list (string * string) :=
  match classify (target_order e) (st_prefix st) with
  | Some root_type => flat_map (copies_of e extension_dir root_type) (st_files st)
  | None => []
  end.

(** Every copy of the copy phase, in the order of the manifest. *)
Definition copies (e : engine) (extension_dir : string) (i : installer)
    : list (string * string) :=
  flat_map (tuple_copies e extension_dir) (default [] (i_files i)).

(** From [s] to [s'] the copies [P] were made: every target holds what its
    source held, which was a regular file, plain or archive; every other
    regular file is as it was; no directory was removed. *)
Definition copied (P : list (string * string)) (s s' : state) : Prop :=
  dirs s ⊆ dirs s'
  /\ (forall p, ~ In p (map snd P) -> same_at s s' p)
  /\ forall src dst, In (src, dst) P ->
       files s' !! dst = files s !! src
       /\ Fs.read s' dst = Fs.read s src /\ is_Some (Fs.read s src).

(** ** Relations between the state before and after a computation *)

(** [m] takes every state to one that is [R]-related to it, whether it
    returns or raises. *)
Definition respects (R : state -> state -> Prop) {A} (m : M A) : Prop :=
  forall s, R s (snd (m s)).

Definition config_preserved (s s' : state) : Prop :=
  preserved (Section (config_dict s)) (Section (config_dict s')).

(** Nothing but the log differs: the files, the tarballs, the directories
    and the configuration dictionary are the same. *)
Definition same_world (s s' : state) : Prop :=
  files s' = files s /\ tarballs s' = tarballs s /\ dirs s' = dirs s
  /\ config_dict s' = config_dict s.

(** The same engine with another dry-run flag. *)
Definition set_dry_run (dry : bool) (e : engine) : engine :=
  Engine (config_path e) (tmpdir e) dry (root_dict e) (cwd e) (target_order e)
         (all_service_groups e) (major_comment_block e) (backup_path e).

(** The lines by which [delete_file] announces a deletion. *)
Definition is_deleting_file (line : nat * string) : bool :=
  PyStr.startswith "Deleting file " (snd line).

(** Whenever [m] returns from a state, [m'] returns from every state whose
    log is [L]-related to it; the logs are [L]-related afterwards and the
    results [Q]-related. *)
Definition simulates {A B} (L : list (nat * string) -> list (nat * string) -> Prop)
    (Q : A -> B -> Prop) (m : M A) (m' : M B) : Prop :=
  forall s s' a s1,
    m s = (Ok a, s1) -> L (log s) (log s') ->
    exists b s1', m' s' = (Ok b, s1') /\ L (log s1) (log s1') /\ Q a b.

(** Every result that [m] returns satisfies [P]. *)
Definition returns {A} (P : A -> Prop) (m : M A) : Prop :=
  forall s a s', m s = (Ok a, s') -> P a.

(** Two logs announce the same deletions of files, in the same order. *)
Definition same_deletions (l l' : list (nat * string)) : Prop :=
  List.filter is_deleting_file l = List.filter is_deleting_file l'.

Definition deleting (f : string) : nat * string := (2%nat, "Deleting file " ++ f).

(** ** A concrete installation, for the examples *)

Module Sample.

Definition roots : gmap string string :=
  {[ "BIN_ROOT" := "/home/weewx/bin";
     "SKIN_ROOT" := "/home/weewx/skins";
     "EXT_ROOT" := "/home/weewx/bin/user/installer" ]}.

Definition weewx_engine (dry : bool) (order : list string) : engine :=
  Engine "/home/weewx/weewx.conf" "/var/tmp" dry roots "/home/weewx" order
         ["prep_services"; "report_services"]
         ["##############################################################################"]
         "/home/weewx/weewx.conf.bak".

Definition services (l : value) : cfg :=
  Section [("Services", ([], Section [("report_services", ([], Scalar l))]))].

Definition weewx_conf (l : value) : section :=
  [("StdReport", ([], Section [("HTML_ROOT", ([], Scalar (VStr "public_html")))]));
   ("Engine", ([], services l))].

Definition base_dirs : gset string :=
  {[ "/"; "/home"; "/home/me"; "/home/weewx"; "/home/weewx/bin";
     "/home/weewx/bin/user"; "/home/weewx/skins"; "/var"; "/var/tmp" ]}.

Definition world (fs : gmap string content) (tars : gmap string tarball)
    (extra_dirs : gset string) (l : value) : state :=
  State fs tars (base_dirs ∪ extra_dirs) (weewx_conf l) [].

Definition no_slash_extension : installer :=
  Installer (Some "ext") (Some [SourceTuple true "bin" ["bin/user/ext.py"]]) None [].

Definition no_slash_world : state :=
  world {[ "/home/me/ext/install.py" := Manifest no_slash_extension;
                  "/home/me/ext/bin/user/ext.py" := Data "import weewx" ]}
               ∅ {[ "/home/me/ext" ]} (VList []).

(** An archive whose members share no leading character, and one whose
    members all lie under "pmon/". *)
Definition scattered : tarball :=
  [("readme.txt", Some (Data "read me")); ("pmon/install.py", Some (Data "..."))].

Definition pmon_tar : tarball :=
  [("pmon/install.py", Some (Data "...")); ("pmon/index.html", Some (Data "<html/>"))].

Definition tar_world (t : tarball) : state :=
  world {[ "/home/me/notes.txt" := Data "not an archive" ]}
        {[ "/home/me/ext.tgz" := t ]} ∅ (VList []).

(** An extension that declares its one service as a single identifier. *)
Definition pmon_single : installer :=
  Installer (Some "pmon") (Some []) None
            [("report_services", VStr "user.pmon.ProcessMonitor")].

Definition pmon_live : list string :=
  ["weewx.engine.StdPrint"; "user.pmon"; "user.pmon.ProcessMonitor"].

(** The configuration fragment of the process monitor. *)
Definition pmon_fragment : list (string * pydict) :=
  [("ProcessMonitor",
    PDict [("data_binding", PScalar (VStr "pmon_binding"));
           ("process", PScalar (VStr "weewxd"))])].

(** A manifest fragment with a skin section and a database, as objects:
    the fragment is the dictionary at address 0. *)
Definition pmon_objects : Heap.heap :=
  {[ 0%nat := [("ProcessMonitor", Heap.PRef 1); ("Databases", Heap.PRef 2)];
     1%nat := [("HTML_ROOT", Heap.PVal (VStr "pmon"))];
     2%nat := [("pmon_sqlite", Heap.PRef 3)];
     3%nat := [("driver", Heap.PVal (VStr "weedb.sqlite"));
               ("database_name", Heap.PVal (VStr "pmon.sdb"))] ]}.

Definition pmon_objects_fragment : list (string * pydict) :=
  [("ProcessMonitor", PDict [("HTML_ROOT", PScalar (VStr "pmon"))]);
   ("Databases",
    PDict [("pmon_sqlite",
            PDict [("driver", PScalar (VStr "weedb.sqlite"));
                   ("database_name", PScalar (VStr "pmon.sdb"))])])].

(** A live configuration with an SQLite archive database. *)
Definition sqlite_conf : section :=
  [("StdReport", ([], Section [("HTML_ROOT", ([], Scalar (VStr "public_html")))]));
   ("Databases",
    ([], Section
           [("archive_sqlite",
             ([], Section [("root", ([], Scalar (VStr "/home/weewx")));
                           ("database_name", ([], Scalar (VStr "archive/weewx.sdb")));
                           ("driver", ([], Scalar (VStr "weedb.sqlite")))]))]))].

(** A skin extension that names its service twice, the directory it is
    installed from, and the installation after it was installed. *)
Definition skin_extension : installer :=
  Installer (Some "pmon")
            (Some [SourceTuple true "skins/pmon" ["skins/pmon/index.html.tmpl"]])
            None
            [("report_services",
              VList ["user.pmon.ProcessMonitor"; "user.pmon.ProcessMonitor"])].

Definition skin_source_world : state :=
  world {[ "/home/me/pmon/install.py" := Manifest skin_extension;
           "/home/me/pmon/skins/pmon/index.html.tmpl" := Data "<html/>" ]}
        ∅ {[ "/home/me/pmon"; "/home/me/pmon/skins"; "/home/me/pmon/skins/pmon" ]}
        (VList ["weewx.engine.StdPrint"]).

Definition skin_installed_world : state :=
  world {[ "/home/weewx/bin/user/installer/pmon/install.py" := Manifest skin_extension;
           "/home/weewx/skins/pmon/index.html.tmpl" := Data "<html/>" ]}
        ∅ {[ "/home/weewx/bin/user/installer"; "/home/weewx/bin/user/installer/pmon";
             "/home/weewx/skins/pmon" ]}
        (VList ["weewx.engine.StdPrint"; "user.pmon.ProcessMonitor"]).

Definition installed_world (i : installer) (l : value) : state :=
  world {[ "/home/weewx/bin/user/installer/pmon/install.py" := Manifest i ]} ∅
        {[ "/home/weewx/bin/user/installer"; "/home/weewx/bin/user/installer/pmon" ]} l.

(** The process monitor with a module, a skin, a configuration fragment
    and a service; the directory it is installed from. *)
Definition pmon_extension : installer :=
  Installer (Some "pmon")
            (Some [SourceTuple true "bin" ["bin/user/pmon/monitor.py"];
                   SourceTuple true "skins/pmon" ["skins/pmon/index.html.tmpl"]])
            (Some pmon_fragment)
            [("report_services", VList ["user.pmon.ProcessMonitor"])].

Definition pmon_source_world (l : value) : state :=
  world {[ "/home/me/pmon/install.py" := Manifest pmon_extension;
           "/home/me/pmon/bin/user/pmon/monitor.py" := Data "import weewx";
           "/home/me/pmon/skins/pmon/index.html.tmpl" := Data "<html/>" ]}
        ∅ {[ "/home/me/pmon" ]} l.

(** The process monitor as an archive, every member under "pmon/". *)
Definition pmon_archive : tarball :=
  [("pmon/install.py", Some (Manifest pmon_extension));
   ("pmon/bin/user/pmon/monitor.py", Some (Data "import weewx"));
   ("pmon/skins/pmon/index.html.tmpl", Some (Data "<html/>"))].

(** The directory of the process monitor next to an installation whose
    skin directory for it is there already and holds a style sheet of the
    user's. *)
Definition pmon_customised_world (l : value) : state :=
  world {[ "/home/me/pmon/install.py" := Manifest pmon_extension;
           "/home/me/pmon/bin/user/pmon/monitor.py" := Data "import weewx";
           "/home/me/pmon/skins/pmon/index.html.tmpl" := Data "<html/>";
           "/home/weewx/skins/pmon/user.css" := Data "body {}" ]}
        ∅ {[ "/home/me/pmon"; "/home/weewx/skins/pmon" ]} l.

(** An archive next to a temporary directory that holds a directory of
    the user's with a file in it. *)
Definition staged_world (t : tarball) : state :=
  world {[ "/var/tmp/pmon/keep.txt" := Data "keep me" ]}
        {[ "/home/me/ext.tgz" := t ]} {[ "/var/tmp/pmon" ]} (VList []).

(** A configuration without the section of the reports. *)
Definition bare_conf : section := [("Engine", ([], services (VList [])))].

End Sample.

(** * Properties *)

Import ExtensionEngine.

Ltac monad_unfold :=
  unfold mbind, M_bind, mret, M_ret, raise, get, put, try_except, try_finally,
    modify_config, logger_log in *.

(** ** Strings *)









(** ** C10: [_strip_leading_dir] and the paths it is applied to *)




Example commonprefix_pmon :
OsPath.commonprefix ["pmon/install.py"; "pmon/bin/user/pmon.py"] = "pmon/".
Proof. reflexivity. Qed.

Example abspath_example :
OsPath.abspath "/home/weewx" "/home/weewx/bin/../bin/./user//pmon.py"
= "/home/weewx/bin/user/pmon.py".
Proof. reflexivity. Qed.

Example dirname_example : OsPath.dirname "/home/weewx/bin/user/pmon.py" = "/home/weewx/bin/user".
Proof. reflexivity. Qed.

Example replace_example : PyStr.replace ".py" ".pyc" "/a/x.py" = "/a/x.pyc".
Proof. reflexivity. Qed.

(** ** C6: classification of a source-prefix *)

Lemma for_target_dirs_sbin {A} (order : list string) (st : source_tuple)
    (body : string -> M A) :
  order = ["bin"; "skins"] \/ order = ["skins"; "bin"] ->
  st_prefix st = "sbin" ->
  for_target_dirs order st body = raise (KeyError "s").
Proof. intros [-> | ->] Hp; simpl; rewrite Hp; reflexivity. Qed.

Lemma for_target_dirs_unmatched {A} (order : list string) (st : source_tuple)
    (body : string -> M A) :
  order = ["bin"; "skins"] \/ order = ["skins"; "bin"] ->
  st_prefix st = "util" ->
  for_target_dirs order st body = raise (unknown_destination st).
Proof. intros [-> | ->] Hp; simpl; rewrite Hp; reflexivity. Qed.

(** C6, on the code: a source-prefix that shares only its first characters
    with a key of [target_dirs] ("sbin" shares "s" with "skins") makes both
    phases look up [target_dirs['s']], an unhandled [KeyError], in either
    iteration order of the dictionary; and a prefix that matches nothing,
    given as a tuple, ends in the [TypeError] of the message's formatting
    instead of the exit with the message. *)
Theorem C6_unknown_prefix_is_not_always_fatal_exit :
  forall (e : engine) (dir : string) (s : state) (n : option string)
         (c : option (list (string * pydict))) (g : list (string * value))
         (is_tuple : bool) (fs : list string),
    target_order e = ["bin"; "skins"] \/ target_order e = ["skins"; "bin"] ->
    fst (copy_files e dir (Installer n (Some [SourceTuple is_tuple "sbin" fs]) c g) s)
    = Raise (KeyError "s")
    /\ fst (uninstall_files e (Installer n (Some [SourceTuple is_tuple "sbin" fs]) c g) s)
       = Raise (KeyError "s")
    /\ fst (copy_files e dir (Installer n (Some [SourceTuple true "util" fs]) c g) s)
       = Raise (TypeError "not all arguments converted during string formatting")
    /\ fst (copy_files e dir (Installer n (Some [SourceTuple false "util" ["util/x"]]) c g) s)
       = Raise (SystemExit "Unknown destination for file ['util', ['util/x']]").
Proof.
  intros e dir s n c g is_tuple fs Ho.
  unfold copy_files, uninstall_files, installer_files.
  destruct Ho as [Ho | Ho]; rewrite Ho; repeat split; reflexivity.
Qed.

Lemma C6_unknown_prefix_witness :
  fst (copy_files (Sample.weewx_engine false ["skins"; "bin"]) "/home/me/ext"
         (Installer (Some "ext") (Some [SourceTuple true "sbin" ["sbin/tool"]]) None [])
         Sample.no_slash_world)
  = Raise (KeyError "s").
Proof.
  apply (C6_unknown_prefix_is_not_always_fatal_exit
           (Sample.weewx_engine false ["skins"; "bin"])).
  right; reflexivity.
Defined.

(** ** C7 and C5: staging an archive *)

Lemma install_extension_unstaged (e : engine) (path : string) (s s1 : state) (ex : exn) :
  Fs.is_file s (Fs.resolve e path) = true ->
  stage_tarball e path
    (State (files s) (tarballs s) (dirs s) (config_dict s)
           (log s ++ [(0%nat, "Request to install '" ++ path ++ "'")]))
  = (Raise ex, s1) ->
  install_extension e path s
  = (Raise (UnboundLocalError
              "local variable 'extension_dir' referenced before assignment"), s1).
Proof.
  intros Hf Hs. unfold install_extension, Fs.isfile, install_from_tarball.
  monad_unfold. simpl.
  unfold Fs.is_file in *. simpl. rewrite Hf.
  rewrite Hs. reflexivity.
Qed.

Lemma stage_no_common_prefix (e : engine) (path : string) (s : state) (members : tarball) :
  tarballs s !! Fs.resolve e path = Some members ->
  OsPath.commonprefix (map fst members) = "" ->
  stage_tarball e path s
  = (Raise (InstallError ("No common path in tarfile '" ++ path ++ "'. Unable to install.")),
     fold_left (fun s' m => Weecfg.write_member e (tmpdir e) m s') members s).
Proof.
  intros Ht Hc. unfold stage_tarball, Weecfg.extract_tarball. monad_unfold.
  cbv beta. rewrite Ht. cbv beta iota. rewrite Hc. reflexivity.
Qed.

Lemma stage_not_a_tarball (e : engine) (path : string) (s : state) :
  tarballs s !! Fs.resolve e path = None ->
  stage_tarball e path s = (Raise (ExtractError ("Unable to extract " ++ path)), s).
Proof.
  intros Ht. unfold stage_tarball, Weecfg.extract_tarball. monad_unfold.
  cbv beta. rewrite Ht. reflexivity.
Qed.

Lemma is_file_tarball (s : state) (q : string) (members : tarball) :
  tarballs s !! q = Some members -> Fs.is_file s q = true.
Proof.
  intros H. unfold Fs.is_file. rewrite H.
  rewrite (bool_decide_true (is_Some (Some members))) by eauto.
  apply orb_true_r.
Qed.

Lemma is_file_regular (s : state) (q : string) (c : content) :
  files s !! q = Some c -> Fs.is_file s q = true.
Proof.
  intros H. unfold Fs.is_file. rewrite H.
  rewrite (bool_decide_true (is_Some (Some c))) by eauto.
  reflexivity.
Qed.

(** C7, on the code: for an archive whose member paths share no leading
    character the [InstallError] is raised inside the [try] block, but the
    [finally] clause then reads [extension_dir], which was never assigned,
    and what leaves [install_extension] is an [UnboundLocalError].  And the
    common prefix is taken character by character: for the members
    "pmon/install.py" and "pmon/index.html" the extension directory is
    "/var/tmp/pmon/in", not the "pmon" subdirectory. *)
Theorem C7_no_common_prefix_leaves_as_UnboundLocalError :
  (forall (e : engine) (path : string) (s : state) (members : tarball),
     tarballs s !! Fs.resolve e path = Some members ->
     OsPath.commonprefix (map fst members) = "" ->
     fst (install_extension e path s)
     = Raise (UnboundLocalError
                "local variable 'extension_dir' referenced before assignment"))
  /\ fst (stage_tarball (Sample.weewx_engine false ["bin"; "skins"])
            "/home/me/ext.tgz" (Sample.tar_world Sample.pmon_tar))
     = Ok "/var/tmp/pmon/in".
Proof.
  split; [|reflexivity].
  intros e path s members Ht Hc.
  erewrite install_extension_unstaged; [reflexivity| |].
  - exact (is_file_tarball s _ members Ht).
  - apply stage_no_common_prefix; [exact Ht|exact Hc].
Qed.

Lemma C7_no_common_prefix_witness :
  fst (install_extension (Sample.weewx_engine false ["bin"; "skins"])
         "/home/me/ext.tgz" (Sample.tar_world Sample.scattered))
  = Raise (UnboundLocalError
             "local variable 'extension_dir' referenced before assignment").
Proof.
  apply (proj1 C7_no_common_prefix_leaves_as_UnboundLocalError
           _ _ _ Sample.scattered); reflexivity.
Defined.

(** C5, on the code: on the two exit paths on which staging fails, the
    [finally] clause removes nothing.  After an archive without common
    prefix the state is exactly the state after extraction, with every
    extracted member still in the temporary area; after a file that cannot
    be extracted nothing but the log has changed; both calls end in the
    [UnboundLocalError] of the [finally] clause. *)
Theorem C5_scratch_area_left_behind_when_staging_fails :
  (forall (e : engine) (path : string) (s : state) (members : tarball),
     tarballs s !! Fs.resolve e path = Some members ->
     OsPath.commonprefix (map fst members) = "" ->
     snd (install_extension e path s)
     = fold_left (fun s' m => Weecfg.write_member e (tmpdir e) m s') members
         (snd (logger_log ("Request to install '" ++ path ++ "'") 0 s)))
  /\ (forall (e : engine) (path : string) (s : state) (c : content),
        files s !! Fs.resolve e path = Some c ->
        tarballs s !! Fs.resolve e path = None ->
        install_extension e path s
        = (Raise (UnboundLocalError
                    "local variable 'extension_dir' referenced before assignment"),
           snd (logger_log ("Request to install '" ++ path ++ "'") 0 s)))
  /\ files (snd (install_extension (Sample.weewx_engine false ["bin"; "skins"])
                   "/home/me/ext.tgz" (Sample.tar_world Sample.scattered)))
       !! "/var/tmp/pmon/install.py" = Some (Data "...").
Proof.
  split; [|split; [|reflexivity]].
  - intros e path s members Ht Hc.
    erewrite install_extension_unstaged; [reflexivity| |].
    + exact (is_file_tarball s _ members Ht).
    + apply stage_no_common_prefix; [exact Ht|exact Hc].
  - intros e path s c Hf Ht.
    erewrite install_extension_unstaged; [reflexivity| |].
    + exact (is_file_regular s _ c Hf).
    + apply stage_not_a_tarball. exact Ht.
Qed.

Lemma C5_scratch_area_witness :
  install_extension (Sample.weewx_engine false ["bin"; "skins"])
    "/home/me/notes.txt" (Sample.tar_world Sample.scattered)
  = (Raise (UnboundLocalError
              "local variable 'extension_dir' referenced before assignment"),
     snd (logger_log "Request to install '/home/me/notes.txt'" 0
            (Sample.tar_world Sample.scattered))).
Proof.
  exact (proj1 (proj2 C5_scratch_area_left_behind_when_staging_fails)
           (Sample.weewx_engine false ["bin"; "skins"]) "/home/me/notes.txt"
           (Sample.tar_world Sample.scattered) (Data "not an archive")
           eq_refl eq_refl).
Defined.

(** ** C8 and C9: service groups *)

Lemma index_state (c : cfg) (k : string) (s : state) : snd (index c k s) = s.
Proof.
  destruct c as [[?|?]|b]; simpl; try reflexivity.
  destruct (Sec.get k b); reflexivity.
Qed.

Lemma read_service_group_state (group : string) (s : state) :
  snd (read_service_group group s) = s.
Proof.
  unfold read_service_group. monad_unfold.
  destruct (index (Section (config_dict s)) "Engine" s) as [[c1|ex] s1] eqn:E1;
    pose proof (index_state (Section (config_dict s)) "Engine" s) as H1;
    rewrite E1 in H1; simpl in H1; subst s1; [|reflexivity].
  destruct (index c1 "Services" s) as [[c2|ex] s2] eqn:E2;
    pose proof (index_state c1 "Services" s) as H2;
    rewrite E2 in H2; simpl in H2; subst s2; [|reflexivity].
  apply index_state.
Qed.

Lemma svc_in_list (svc : string) (l : list string) :
  svc_in svc (AsList l) = true <-> In svc l.
Proof.
  simpl. rewrite existsb_exists. split.
  - intros (x & Hx & Heq). apply String.eqb_eq in Heq. now subst.
  - intros H. exists svc. split; [exact H|apply String.eqb_refl].
Qed.

Lemma register_service_present (e : engine) (group : string)
    (locals : svc_container * bool) (svc : string) (s : state) :
  svc_in svc (fst locals) = true ->
  register_service e group locals svc s = (Ok locals, s).
Proof. intros H. unfold register_service. now rewrite H. Qed.

Lemma register_all_present (e : engine) (group : string) (svcs : list string)
    (locals : svc_container * bool) (s : state) :
  (forall svc, In svc svcs -> svc_in svc (fst locals) = true) ->
  for_fold svcs locals (register_service e group) s = (Ok locals, s).
Proof.
  induction svcs as [|svc r IH]; intros H; [reflexivity|].
  simpl. unfold mbind, M_bind.
  rewrite register_service_present by (apply H; now left).
  apply IH. intros x Hx. apply H. now right.
Qed.

(** C8: a declared identifier that is already in the group's list leaves the
    locals [svc_list] and [save_config] and the whole state (configuration
    and log) as they were; and when every declared identifier of a group is
    already registered, the group's turn of the loop changes nothing and
    hands back the flag it was given. *)
Theorem C8_registering_a_present_service_changes_nothing :
  (forall (e : engine) (group : string) (svc_list : list string)
          (save_config : bool) (svc : string) (s : state),
     In svc svc_list ->
     register_service e group (AsList svc_list, save_config) svc s
     = (Ok (AsList svc_list, save_config), s))
  /\ (forall (e : engine) (i : installer) (save_config : bool) (group : string)
             (declared live : value) (s : state),
        Sec.lookup group (i_groups i) = Some declared ->
        fst (read_service_group group s) = Ok (Scalar live) ->
        (forall svc, In svc (Weeutil.option_as_list declared) ->
                     In svc (Weeutil.option_as_list live)) ->
        register_group e i save_config group s = (Ok save_config, s)).
Proof.
  split.
  - intros e group svc_list save_config svc s H.
    apply register_service_present. now apply svc_in_list.
  - intros e i save_config group declared live s Hl Hr Hall.
    unfold register_group. rewrite Hl. unfold mbind, M_bind.
    pose proof (read_service_group_state group s) as Hs.
    destruct (read_service_group group s) as [r s1]. simpl in Hr, Hs. subst r s1.
    simpl live_as_list.
    rewrite register_all_present; [reflexivity|].
    intros svc Hsvc. apply svc_in_list. now apply Hall.
Qed.

Lemma C8_present_service_witness :
  register_group (Sample.weewx_engine false ["bin"; "skins"]) Sample.pmon_single false
    "report_services" (Sample.installed_world Sample.pmon_single (VList Sample.pmon_live))
  = (Ok false, Sample.installed_world Sample.pmon_single (VList Sample.pmon_live)).
Proof.
  apply (proj2 C8_registering_a_present_service_changes_nothing
           _ _ _ _ (VStr "user.pmon.ProcessMonitor") (VList Sample.pmon_live));
    [reflexivity|reflexivity|].
  simpl. intros svc [<-|[]]. right. right. now left.
Defined.

(** C9, on the code: when the manifest gives the group as a single
    identifier, [x not in installer[service_group]] is Python's substring
    test on that string.  Uninstalling an extension that declared
    "user.pmon.ProcessMonitor" takes "user.pmon" out of the live list as
    well, although it is not among the declared identifiers. *)
Theorem C9_single_identifier_removes_substrings :
  config_dict (snd (uninstall_extension (Sample.weewx_engine false ["bin"; "skins"]) "pmon"
                      (Sample.installed_world Sample.pmon_single (VList Sample.pmon_live))))
  = Sample.weewx_conf (VList ["weewx.engine.StdPrint"])
  /\ In "user.pmon" Sample.pmon_live
  /\ ~ In "user.pmon" (Weeutil.option_as_list (VStr "user.pmon.ProcessMonitor"))
  /\ (forall (declared : string) (l : list string),
        py_filter (not_in_declared (VStr declared)) (Scalar (VList l))
        = VList (List.filter (fun x => negb (PyStr.contains x declared)) l))
  /\ (forall (declared l : list string),
        py_filter (not_in_declared (VList declared)) (Scalar (VList l))
        = VList (List.filter (fun x => negb (existsb (String.eqb x) declared)) l)).
Proof.
  split; [vm_compute; reflexivity|].
  split; [simpl; tauto|].
  split; [simpl; intros [H|[]]; discriminate|].
  split; reflexivity.
Qed.

(** ** C2: the conditional merge *)

Lemma pydict_rect' (P : pydict -> Prop)
    (Hs : forall v, P (PScalar v))
    (Hd : forall b, Forall (fun kx => P (snd kx)) b -> P (PDict b)) :
  forall x, P x.
Proof.
  fix IH 1. intros [v|b]; [apply Hs|]. apply Hd.
  induction b as [|[k x] r IHr]; constructor; [apply IH|exact IHr].
Qed.

Lemma cfg_ind' (P : cfg -> Prop)
    (Hs : forall v, P (Scalar v))
    (Hd : forall b, Forall (fun kx => P (snd (snd kx))) b -> P (Section b)) :
  forall x, P x.
Proof.
  fix IH 1. intros [v|b]; [apply Hs|]. apply Hd.
  induction b as [|[k [cm x]] r IHr]; constructor; [apply IH|exact IHr].
Qed.

Lemma get_set (k k' : string) (c : cfg) (a : section) :
  Sec.get k' (Sec.set k c a) = if String.eqb k k' then Some c else Sec.get k' a.
Proof.
  unfold Sec.get. induction a as [|[k1 [cm y]] r IH]; simpl.
  - destruct (String.eqb k k'); reflexivity.
  - destruct (String.eqb k1 k) eqn:E1; simpl.
    + apply String.eqb_eq in E1. subst k1.
      destruct (String.eqb k k'); reflexivity.
    + destruct (String.eqb k1 k') eqn:E2; simpl.
      * apply String.eqb_eq in E2. subst k1. rewrite String.eqb_sym in E1. now rewrite E1.
      * exact IH.
Qed.

Lemma preserved_refl c : preserved c c.
Proof. split; eauto. Qed.

Lemma preserved_trans a b c : preserved a b -> preserved b c -> preserved a c.
Proof.
  intros [H1 H2] [H3 H4]. split.
  - eauto.
  - intros p x Hx. destruct (H2 p x Hx) as [b' Hb']. eauto.
Qed.

Lemma preserved_set (k : string) (c : cfg) (a : section) :
  (forall old, Sec.get k a = Some old -> preserved old c) ->
  preserved (Section a) (Section (Sec.set k c a)).
Proof.
  intros H. split.
  - intros [|k' r] v; simpl; [discriminate|].
    rewrite get_set. destruct (String.eqb k k') eqn:E.
    + apply String.eqb_eq in E. subst k'.
      destruct (Sec.get k a) as [old|] eqn:Eo; [|discriminate].
      apply (proj1 (H old eq_refl)).
    + tauto.
  - intros [|k' r] b; simpl.
    + intros _. eauto.
    + rewrite get_set. destruct (String.eqb k k') eqn:E.
      * apply String.eqb_eq in E. subst k'.
        destruct (Sec.get k a) as [old|] eqn:Eo; [|discriminate].
        apply (proj2 (H old eq_refl)).
      * eauto.
Qed.

Lemma merge_value_section (fb : list (string * pydict)) (body : section) :
  Merge.merge_value (PDict fb) (Some (Section body))
  = Section (Merge.conditional_merge body fb).
Proof. reflexivity. Qed.

Lemma merge_value_new (fb : list (string * pydict)) :
  Merge.merge_value (PDict fb) None = Section (Merge.conditional_merge [] fb).
Proof. reflexivity. Qed.

Lemma preserved_fold (fb : list (string * pydict)) :
  Forall (fun kx => forall old, preserved old (Merge.merge_value (snd kx) (Some old))) fb ->
  forall body, preserved (Section body) (Section (Merge.conditional_merge body fb)).
Proof.
  unfold Merge.conditional_merge.
  induction 1 as [|[k x] r Hx Hr IH]; intros body; simpl; [apply preserved_refl|].
  eapply preserved_trans; [|apply IH].
  unfold Merge.merge_key; simpl. apply preserved_set.
  intros old Ho. rewrite Ho. apply Hx.
Qed.

Lemma merge_value_preserved (x : pydict) (old : cfg) :
  preserved old (Merge.merge_value x (Some old)).
Proof.
  revert old. induction x as [v|fb IH] using pydict_rect'; intros old.
  - apply preserved_refl.
  - destruct old as [v|body]; [apply preserved_refl|].
    rewrite merge_value_section. now apply preserved_fold.
Qed.

Lemma conditional_merge_preserved (C : section) (F : list (string * pydict)) :
  preserved (Section C) (Section (Merge.conditional_merge C F)).
Proof.
  apply preserved_fold. apply Forall_forall. intros kx _ old.
  apply merge_value_preserved.
Qed.

Lemma lookup_not_in {A} (k : string) (b : list (string * A)) :
  k ∉ map fst b -> Sec.lookup k b = None.
Proof.
  rewrite list_elem_of_In.
  induction b as [|[k1 x] r IH]; simpl; [reflexivity|].
  intros H. destruct (String.eqb k1 k) eqn:E.
  - apply String.eqb_eq in E. tauto.
  - apply IH. tauto.
Qed.

Lemma lookup_in {A} (k : string) (x : A) (b : list (string * A)) :
  Sec.lookup k b = Some x -> (k, x) ∈ b.
Proof.
  rewrite list_elem_of_In.
  induction b as [|[k1 y] r IH]; simpl; [discriminate|].
  destruct (String.eqb k1 k) eqn:E.
  - apply String.eqb_eq in E. intros [= ->]. subst. now left.
  - intros H. right. now apply IH.
Qed.

Lemma get_conditional_merge (fb : list (string * pydict)) (body : section) (k : string) :
  NoDup (map fst fb) ->
  Sec.get k (Merge.conditional_merge body fb)
  = match Sec.lookup k fb with
    | Some x => Some (Merge.merge_value x (Sec.get k body))
    | None => Sec.get k body
    end.
Proof.
  unfold Merge.conditional_merge. revert body.
  induction fb as [|[k1 x1] r IH]; intros body Hnd; simpl; [reflexivity|].
  inversion Hnd as [|? ? Hni Hnd']; subst.
  rewrite IH by exact Hnd'. unfold Merge.merge_key; simpl.
  rewrite get_set. destruct (String.eqb k1 k) eqn:E.
  - apply String.eqb_eq in E. subst k1.
    rewrite (lookup_not_in k r Hni). reflexivity.
  - reflexivity.
Qed.

Lemma wf_pydict_forall (b : list (string * pydict)) :
  wf_pydict (PDict b) -> Forall (fun kx => wf_pydict (snd kx)) b.
Proof.
  intros [_ H]. induction b as [|kx r IH]; constructor; simpl in H; [tauto|].
  apply IH. tauto.
Qed.

Lemma get_of_pydict (k : string) (b : list (string * pydict)) :
  Sec.get k (map (fun kx => (fst kx, ([] : list string, of_pydict (snd kx)))) b)
  = option_map of_pydict (Sec.lookup k b).
Proof.
  unfold Sec.get. induction b as [|[k1 x] r IH]; simpl; [reflexivity|].
  destruct (String.eqb k1 k); [reflexivity|exact IH].
Qed.

Lemma merge_value_introduces_from_fragment (x : pydict) :
  wf_pydict x ->
  forall (old : option cfg) (r : list string) (y : cfg),
    lookup_path r (Merge.merge_value x old) = Some y ->
    match old with Some o => lookup_path r o | None => None end = None ->
    exists z, lookup_path r (of_pydict x) = Some z.
Proof.
  induction x as [v|fb IH] using pydict_rect'; intros Hwf old r y Hy Hold.
  - destruct old as [c|]; simpl in Hy; [congruence|eauto].
  - assert (Hcase : exists body,
               Merge.merge_value (PDict fb) old = Section (Merge.conditional_merge body fb)
               /\ match old with Some o => lookup_path r o | None => None end
                  = match old with Some _ => lookup_path r (Section body) | None => None end
               /\ (old = None -> body = [])).
    { destruct old as [[v|body]|].
      - simpl in Hy. congruence.
      - exists body. repeat split. discriminate.
      - exists []. repeat split. }
    destruct Hcase as (body & Hm & Ho & Hnone). rewrite Hm in Hy. rewrite Ho in Hold.
    destruct r as [|k r'].
    + destruct old; [discriminate|]. simpl. eauto.
    + simpl in Hy. rewrite get_conditional_merge in Hy by apply Hwf.
      assert (Hb : match Sec.get k body with Some o => lookup_path r' o | None => None end = None).
      { destruct old; [exact Hold|]. rewrite (Hnone eq_refl). reflexivity. }
      destruct (Sec.lookup k fb) as [x'|] eqn:El.
      * pose proof (lookup_in _ _ _ El) as Hin.
        pose proof (wf_pydict_forall fb Hwf) as Hwfs.
        rewrite Forall_forall in IH, Hwfs.
        destruct (IH _ Hin (Hwfs _ Hin) (Sec.get k body) r' y Hy Hb) as [z Hz].
        exists z. simpl. rewrite get_of_pydict, El. simpl. exact Hz.
      * destruct (Sec.get k body); congruence.
Qed.

Section Respects.
Variable R : state -> state -> Prop.
Hypothesis R_refl : forall s, R s s.
Hypothesis R_trans : forall a b c, R a b -> R b c -> R a c.
Hypothesis R_log : forall s msg lvl, R s (snd (logger_log msg lvl s)).

Lemma respects_ret {A} (a : A) : respects R (mret a).
Proof. intros s. apply R_refl. Qed.

Lemma respects_raise {A} (ex : exn) : respects R (@raise A ex).
Proof. intros s. apply R_refl. Qed.

Lemma respects_get : respects R get.
Proof. intros s. apply R_refl. Qed.

Lemma respects_log (msg : string) (lvl : nat) : respects R (logger_log msg lvl).
Proof. intros s. apply R_log. Qed.

Lemma respects_bind {A B} (m : M A) (f : A -> M B) :
  respects R m -> (forall a, respects R (f a)) -> respects R (m ≫= f).
Proof.
  intros Hm Hf s. unfold mbind, M_bind. specialize (Hm s).
  destruct (m s) as [[a|ex] s1]; simpl in *; [|exact Hm].
  eapply R_trans; [exact Hm|apply Hf].
Qed.

Lemma respects_try_except {A} (body : M A) (handles : exn -> bool) (handler : exn -> M A) :
  respects R body -> (forall ex, respects R (handler ex)) ->
  respects R (try_except body handles handler).
Proof.
  intros Hb Hh s. unfold try_except. specialize (Hb s).
  destruct (body s) as [[a|ex] s1]; simpl in *; [exact Hb|].
  destruct (handles ex); [|exact Hb].
  eapply R_trans; [exact Hb|apply Hh].
Qed.

Lemma respects_try_finally {A} (body : M A) (final : M unit) :
  respects R body -> respects R final -> respects R (try_finally body final).
Proof.
  intros Hb Hf s. unfold try_finally. specialize (Hb s).
  destruct (body s) as [r s1]; simpl in *. specialize (Hf s1).
  destruct (final s1) as [[[]|ex] s2]; simpl in *; eapply R_trans; eauto.
Qed.

Lemma respects_for_each {A} (l : list A) (body : A -> M unit) :
  (forall x, respects R (body x)) -> respects R (for_each l body).
Proof.
  intros Hb. induction l as [|x r IH]; simpl; [apply respects_ret|].
  apply respects_bind; [apply Hb|intros _; exact IH].
Qed.

Lemma respects_for_fold {A B} (l : list A) (acc : B) (body : B -> A -> M B) :
  (forall acc x, respects R (body acc x)) -> respects R (for_fold l acc body).
Proof.
  intros Hb. revert acc. induction l as [|x r IH]; intros acc; simpl; [apply respects_ret|].
  apply respects_bind; [apply Hb|intros acc'; apply IH].
Qed.

Lemma respects_index (c : cfg) (k : string) : respects R (index c k).
Proof.
  intros s. destruct c as [[?|?]|b]; simpl; try apply R_refl.
  destruct (Sec.get k b); apply R_refl.
Qed.

End Respects.

Lemma get_set_comment (k k' : string) (lines : list string) (a : section) :
  Sec.get k' (Sec.set_comment k lines a) = Sec.get k' a.
Proof.
  unfold Sec.get. induction a as [|[k1 [cm y]] r IH]; simpl; [reflexivity|].
  destruct (String.eqb k1 k) eqn:E1; simpl.
  - destruct (String.eqb k1 k'); reflexivity.
  - destruct (String.eqb k1 k'); [reflexivity|exact IH].
Qed.

Lemma preserved_set_comment (k : string) (lines : list string) (a : section) :
  preserved (Section a) (Section (Sec.set_comment k lines a)).
Proof.
  split.
  - intros [|k' r] v; simpl; [discriminate|]. now rewrite get_set_comment.
  - intros [|k' r] b; simpl; [eauto|]. rewrite get_set_comment. eauto.
Qed.

Lemma config_preserved_refl (s : state) : config_preserved s s.
Proof. apply preserved_refl. Qed.

Lemma config_preserved_trans (a b c : state) :
  config_preserved a b -> config_preserved b c -> config_preserved a c.
Proof. apply preserved_trans. Qed.

Lemma config_preserved_log (s : state) (msg : string) (lvl : nat) :
  config_preserved s (snd (logger_log msg lvl s)).
Proof. apply preserved_refl. Qed.

Ltac respects_with Hrefl Htrans Hlog :=
  repeat first
    [ apply (respects_ret _ Hrefl)
    | apply (respects_raise _ Hrefl)
    | apply (respects_get _ Hrefl)
    | apply (respects_log _ Hlog)
    | apply (respects_index _ Hrefl)
    | apply (respects_bind _ Htrans); [|intros ?]
    | apply (respects_try_except _ Htrans); [|intros ?]
    | apply (respects_try_finally _ Htrans)
    | apply (respects_for_each _ Hrefl Htrans); intros ?
    | apply (respects_for_fold _ Hrefl Htrans); intros ? ?
    | progress cbv zeta
    | match goal with
      | |- respects _ (if ?b then _ else _) => destruct b
      | |- respects _ (match ?x with _ => _ end) => destruct x
      end ].

Lemma merge_config_preserves (e : engine) (i : installer) (extension_name : string) :
  respects config_preserved (merge_config e i extension_name).
Proof.
  unfold merge_config.
  respects_with config_preserved_refl config_preserved_trans config_preserved_log.
  - intros s. apply conditional_merge_preserved.
  - intros s. apply preserved_set_comment.
Qed.

(** C2: the conditional merge never overwrites.  Whatever value the live
    tree holds under a path of keys it holds afterwards, and a section stays
    a section; this holds for the merge itself and for the whole
    configuration block of [install_from_dir], which merges the working
    copy and then attaches the comments.  What the merge introduces comes
    from the fragment: a path that was absent before is a path of the
    fragment. *)
Theorem C2_conditional_merge_never_overwrites :
  (forall (C : section) (F : list (string * pydict)),
     preserved (Section C) (Section (Merge.conditional_merge C F)))
  /\ (forall (e : engine) (i : installer) (extension_name : string) (s : state),
        preserved (Section (config_dict s))
                  (Section (config_dict (snd (merge_config e i extension_name s)))))
  /\ (forall (C : section) (F : list (string * pydict)) (p : list string) (y : cfg),
        wf_pydict (PDict F) ->
        lookup_path p (Section (Merge.conditional_merge C F)) = Some y ->
        lookup_path p (Section C) = None ->
        exists z, lookup_path p (of_pydict (PDict F)) = Some z).
Proof.
  split; [exact conditional_merge_preserved|].
  split; [intros e i n s; apply merge_config_preserves|].
  intros C F p y Hwf Hy Hc.
  apply (merge_value_introduces_from_fragment (PDict F) Hwf (Some (Section C)) p y);
    [exact Hy|exact Hc].
Qed.

Lemma C2_conditional_merge_witness :
  exists z, lookup_path ["ProcessMonitor"; "process"]
              (of_pydict (PDict Sample.pmon_fragment)) = Some z.
Proof.
  apply (proj2 (proj2 C2_conditional_merge_never_overwrites)
           (Sample.weewx_conf (VList [])) Sample.pmon_fragment
           ["ProcessMonitor"; "process"] (Scalar (VStr "weewxd"))).
  - simpl. repeat constructor; set_solver.
  - reflexivity.
  - reflexivity.
Defined.

(** ** C4: the working copy of the manifest's fragment *)

Lemma fresh_not_in (h : Heap.heap) (a : nat) : is_Some (h !! a) -> a <> Heap.fresh h.
Proof.
  intros Ha Heq. unfold Heap.fresh in Heq.
  assert (Hin : In a (elements (dom h))).
  { apply list_elem_of_In, elem_of_elements, elem_of_dom. exact Ha. }
  pose proof (proj1 (List.list_max_le (elements (dom h)) (list_max (elements (dom h))))
                (Nat.le_refl _)) as Hall.
  rewrite List.Forall_forall in Hall. specialize (Hall a Hin). lia.
Qed.

Lemma read_nonempty (h : Heap.heap) (a : nat) (k : string) (v : Heap.pyval) :
  Sec.lookup k (Heap.read h a) = Some v -> is_Some (h !! a).
Proof.
  unfold Heap.read. destruct (h !! a); [eauto|discriminate].
Qed.

(** C4, on the code: [dict(installer['config'])] is a copy of the top level
    only.  Under every key that holds a dictionary the copy holds that very
    dictionary, and the assignments of the HTML-path rewriting and of the
    database massaging are made in it.  For a fragment with a skin section
    and an SQLite database the manifest's own fragment reads differently
    after the block: the HTML path and the database name are rewritten and
    the key [root] has appeared. *)
Theorem C4_working_copy_shares_the_nested_dictionaries :
  (forall (h : Heap.heap) (a b : nat) (k : string),
     Sec.lookup k (Heap.read h a) = Some (Heap.PRef b) ->
     fst (Heap.dict_copy a h) <> a
     /\ Sec.lookup k (Heap.read (snd (Heap.dict_copy a h)) (fst (Heap.dict_copy a h)))
        = Some (Heap.PRef b)
     /\ Sec.lookup k (Heap.read (snd (Heap.dict_copy a h)) a) = Some (Heap.PRef b))
  /\ Heap.reify 5 Sample.pmon_objects (Heap.PRef 0) = PDict Sample.pmon_objects_fragment
  /\ fst (Heap.working_copy Sample.sqlite_conf 0 Sample.pmon_objects) = Ok 4%nat
  /\ Heap.reify 5 (snd (Heap.working_copy Sample.sqlite_conf 0 Sample.pmon_objects))
       (Heap.PRef 0)
     = PDict
         [("ProcessMonitor", PDict [("HTML_ROOT", PScalar (VStr "public_html/pmon"))]);
          ("Databases",
           PDict [("pmon_sqlite",
                   PDict [("driver", PScalar (VStr "weedb.sqlite"));
                          ("database_name", PScalar (VStr "archive/pmon.sdb"));
                          ("root", PScalar (VStr "/home/weewx"))])])].
Proof.
  split; [|repeat split; vm_compute; reflexivity].
  intros h a b k Hk. pose proof (fresh_not_in h a (read_nonempty h a k _ Hk)) as Hne.
  unfold Heap.dict_copy; simpl. split; [congruence|]. split.
  - unfold Heap.read at 1. rewrite lookup_insert_eq. exact Hk.
  - unfold Heap.read at 1. rewrite lookup_insert_ne by congruence. exact Hk.
Qed.

Lemma C4_working_copy_witness :
  Sec.lookup "Databases" (Heap.read Sample.pmon_objects 0) = Some (Heap.PRef 2)
  /\ Sec.lookup "Databases"
       (Heap.read (snd (Heap.dict_copy 0 Sample.pmon_objects))
                  (fst (Heap.dict_copy 0 Sample.pmon_objects)))
     = Some (Heap.PRef 2).
Proof.
  split; [reflexivity|].
  apply (proj1 C4_working_copy_shares_the_nested_dictionaries
           Sample.pmon_objects 0%nat 2%nat "Databases").
  reflexivity.
Defined.

(** The working copy read back from the store is the fragment that
    [merge_config] merges. *)
Example working_copy_is_what_is_merged :
  Heap.reify 5 (snd (Heap.working_copy Sample.sqlite_conf 0 Sample.pmon_objects))
    (Heap.PRef 4)
  = PDict (massage_databases Sample.sqlite_conf
             (default [] (Merge.prepend_path Sample.pmon_objects_fragment "HTML_ROOT"
                            (Scalar (VStr "public_html"))))).
Proof. vm_compute. reflexivity. Qed.

(** ** C3: the dry run *)

Section RespectsEngine.
Variable R : state -> state -> Prop.
Hypothesis R_refl : forall s, R s s.
Hypothesis R_trans : forall a b c, R a b -> R b c -> R a c.
Hypothesis R_log : forall s msg lvl, R s (snd (logger_log msg lvl s)).

Lemma respects_root (e : engine) (root_type : string) : respects R (root e root_type).
Proof. unfold root. respects_with R_refl R_trans R_log. Qed.

Lemma respects_destination (e : engine) (root_type : string) (dst : option string) :
  respects R (destination e root_type dst).
Proof.
  unfold destination.
  apply (respects_bind _ R_trans); [apply respects_root|intros r].
  respects_with R_refl R_trans R_log.
Qed.

Lemma respects_installer_files (i : installer) : respects R (installer_files i).
Proof. unfold installer_files. respects_with R_refl R_trans R_log. Qed.

Lemma respects_for_target_dirs {A} (ks : list string) (st : source_tuple)
    (body : string -> M A) :
  (forall root_type, respects R (body root_type)) ->
  respects R (for_target_dirs ks st body).
Proof.
  intros Hb. induction ks as [|d r IH]; simpl; [apply (respects_raise _ R_refl)|].
  destruct (negb _); [|exact IH].
  destruct (target_dirs !! _); [apply Hb|apply (respects_raise _ R_refl)].
Qed.

Lemma respects_get_extension_installer (e : engine) (dir : string) :
  respects R (Weecfg.get_extension_installer e dir).
Proof.
  unfold Weecfg.get_extension_installer.
  apply (respects_bind _ R_trans); [apply (respects_get _ R_refl)|intros s].
  destruct (files s !! _) as [[| |]|]; respects_with R_refl R_trans R_log.
Qed.

Lemma respects_read_service_group (group : string) : respects R (read_service_group group).
Proof. unfold read_service_group. respects_with R_refl R_trans R_log. Qed.

Lemma respects_listdir_nonempty (e : engine) (d : string) :
  respects R (Fs.listdir_nonempty e d).
Proof.
  unfold Fs.listdir_nonempty.
  apply (respects_bind _ R_trans); [apply (respects_get _ R_refl)|intros s].
  respects_with R_refl R_trans R_log.
Qed.

End RespectsEngine.

Lemma same_world_refl (s : state) : same_world s s.
Proof. repeat split. Qed.

Lemma same_world_trans (a b c : state) : same_world a b -> same_world b c -> same_world a c.
Proof. unfold same_world. intuition congruence. Qed.

Lemma same_world_log (s : state) (msg : string) (lvl : nat) :
  same_world s (snd (logger_log msg lvl s)).
Proof. repeat split. Qed.

Ltac same_world_tac :=
  repeat first
    [ apply (respects_destination _ same_world_refl same_world_trans)
    | apply (respects_root _ same_world_refl)
    | apply (respects_installer_files _ same_world_refl)
    | apply (respects_for_target_dirs _ same_world_refl); intros ?
    | apply (respects_get_extension_installer _ same_world_refl same_world_trans)
    | apply (respects_read_service_group _ same_world_refl same_world_trans)
    | apply (respects_listdir_nonempty _ same_world_refl same_world_trans)
    | progress respects_with same_world_refl same_world_trans same_world_log ].

Lemma dry_copy_files (e : engine) (dir : string) (i : installer) :
  dry_run e = true -> respects same_world (copy_files e dir i).
Proof.
  intros Hdry. unfold copy_files, install_file_step. rewrite Hdry. same_world_tac.
Qed.

Lemma dry_merge_config (e : engine) (i : installer) (n : string) :
  dry_run e = true -> respects same_world (merge_config e i n).
Proof.
  intros Hdry. unfold merge_config. rewrite Hdry. same_world_tac.
Qed.

Lemma dry_register_group (e : engine) (i : installer) (b : bool) (g : string) :
  dry_run e = true -> respects same_world (register_group e i b g).
Proof.
  intros Hdry. unfold register_group, register_service. rewrite Hdry. same_world_tac.
Qed.


Lemma returns_ret {A} (P : A -> Prop) (a : A) : P a -> returns P (mret a).
Proof. intros H s a' s' [= <- _]. exact H. Qed.

Lemma returns_raise {A} (P : A -> Prop) (ex : exn) : returns P (@raise A ex).
Proof. intros s a s' [=]. Qed.

Lemma returns_bind {A B} (Q : A -> Prop) (P : B -> Prop) (m : M A) (f : A -> M B) :
  returns Q m -> (forall a, Q a -> returns P (f a)) -> returns P (m ≫= f).
Proof.
  intros Hm Hf s b s'. unfold mbind, M_bind.
  destruct (m s) as [[a|ex] s1] eqn:E; [|discriminate].
  intros H. exact (Hf a (Hm _ _ _ E) _ _ _ H).
Qed.

Lemma returns_any {A} (m : M A) : returns (fun _ => True) m.
Proof. intros s a s' _. exact I. Qed.

Lemma returns_for_fold {A B} (P : B -> Prop) (l : list A) (acc : B) (body : B -> A -> M B) :
  (forall acc x, P acc -> returns P (body acc x)) -> P acc ->
  returns P (for_fold l acc body).
Proof.
  intros Hb. revert acc. induction l as [|x r IH]; intros acc Hacc; simpl.
  - now apply returns_ret.
  - apply (returns_bind P); [now apply Hb|]. intros acc' Hacc'. now apply IH.
Qed.

Lemma respects_bind_val {A B} (R : state -> state -> Prop)
    (R_trans : forall a b c, R a b -> R b c -> R a c)
    (Q : A -> Prop) (m : M A) (f : A -> M B) :
  respects R m -> returns Q m -> (forall a, Q a -> respects R (f a)) ->
  respects R (m ≫= f).
Proof.
  intros Hm Hq Hf s. unfold mbind, M_bind. specialize (Hm s).
  destruct (m s) as [[a|ex] s1] eqn:E; simpl in *; [|exact Hm].
  eapply R_trans; [exact Hm|]. apply Hf. exact (Hq _ _ _ E).
Qed.

Lemma merge_config_dry_result (e : engine) (i : installer) (n : string) :
  dry_run e = true -> returns (fun save_config => save_config = false) (merge_config e i n).
Proof.
  intros Hdry. unfold merge_config. rewrite Hdry.
  destruct (i_config i); [|now apply returns_ret].
  apply (returns_bind (fun _ => True)); [apply returns_any|intros _ _].
  apply (returns_bind (fun _ => True)); [apply returns_any|intros s _].
  apply (returns_bind (fun _ => True)); [apply returns_any|intros sr _].
  apply (returns_bind (fun _ => True)); [apply returns_any|intros hr _].
  apply (returns_bind (fun _ => True)); [apply returns_any|intros cfg1 _].
  cbv zeta.
  apply (returns_bind (fun _ => True)); [apply returns_any|intros _ _].
  apply (returns_bind (fun b => b = false)); [now apply returns_ret|intros b ->].
  apply (returns_bind (fun _ => True)); [apply returns_any|intros _ _].
  now apply returns_ret.
Qed.

Lemma register_group_dry_result (e : engine) (i : installer) (b : bool) (g : string) :
  dry_run e = true -> returns (fun save_config => save_config = b) (register_group e i b g).
Proof.
  intros Hdry. unfold register_group.
  destruct (Sec.lookup g (i_groups i)); [|now apply returns_ret].
  apply (returns_bind (fun _ => True)); [apply returns_any|intros live _].
  cbv zeta.
  apply (returns_bind (fun locals => snd locals = b)); [|intros locals <-; now apply returns_ret].
  apply (returns_for_fold (fun locals : svc_container * bool => snd locals = b)); [|reflexivity].
  intros acc svc Hacc. unfold register_service. rewrite Hdry.
  destruct (svc_in svc acc.1); [now apply returns_ret|].
  apply (returns_bind (fun locals : svc_container * bool => snd locals = b));
    [now apply returns_ret|intros l Hl].
  apply (returns_bind (fun _ => True)); [apply returns_any|intros _ _].
  now apply returns_ret.
Qed.

Lemma dry_install_from_dir (e : engine) (dir : string) :
  dry_run e = true -> respects same_world (install_from_dir e dir).
Proof.
  intros Hdry. unfold install_from_dir. 
  apply (respects_bind _ same_world_trans); [same_world_tac|intros _].
  apply (respects_bind _ same_world_trans); [same_world_tac|intros found].
  cbv zeta.
  apply (respects_bind _ same_world_trans); [same_world_tac|intros _].
  apply (respects_bind _ same_world_trans); [same_world_tac|intros _].
  apply (respects_bind _ same_world_trans); [now apply dry_copy_files|intros N].
  apply (respects_bind _ same_world_trans); [same_world_tac|intros _].
  apply (respects_bind_val _ same_world_trans (fun b => b = false));
    [now apply dry_merge_config|now apply merge_config_dry_result|intros sc ->].
  apply (respects_bind _ same_world_trans); [same_world_tac|intros _].
  apply (respects_bind_val _ same_world_trans (fun b => b = false)).
  { apply (respects_for_fold _ same_world_refl same_world_trans). intros acc g.
    now apply dry_register_group. }
  { apply returns_for_fold; [|reflexivity]. intros acc g ->.
    now apply register_group_dry_result. }
  intros sc' ->.
  apply (respects_bind _ same_world_trans); [same_world_tac|intros ext_root].
  rewrite Hdry. same_world_tac.
Qed.

Lemma dry_delete_file (e : engine) (f : string) (r : bool) :
  dry_run e = true -> respects same_world (delete_file e f r).
Proof. intros Hdry. unfold delete_file. rewrite Hdry. same_world_tac. Qed.

Lemma dry_delete_directory (e : engine) (d : string) (r : bool) :
  dry_run e = true -> respects same_world (delete_directory e d r).
Proof. intros Hdry. unfold delete_directory. rewrite Hdry. same_world_tac. Qed.

Lemma dry_uninstall_files (e : engine) (i : installer) :
  dry_run e = true -> respects same_world (uninstall_files e i).
Proof.
  intros Hdry. unfold uninstall_files, uninstall_file_step.
  apply (respects_bind _ same_world_trans); [same_world_tac|intros _].
  apply (respects_bind _ same_world_trans); [same_world_tac|intros l].
  apply (respects_bind _ same_world_trans); [|intros N; same_world_tac].
  apply (respects_for_fold _ same_world_refl same_world_trans). intros acc st.
  apply (respects_for_target_dirs _ same_world_refl). intros rt.
  apply (respects_bind _ same_world_trans).
  { apply (respects_for_fold _ same_world_refl same_world_trans). intros acc' f.
    apply (respects_bind _ same_world_trans); [same_world_tac|intros d].
    apply (respects_bind _ same_world_trans); [now apply dry_delete_file|intros n1].
    destruct (PyStr.endswith _ _); [|same_world_tac].
    apply (respects_bind _ same_world_trans); [now apply dry_delete_file|intros n2].
    apply (respects_bind _ same_world_trans); [now apply dry_delete_file|intros n3].
    same_world_tac. }
  intros N'.
  apply (respects_bind _ same_world_trans); [|intros _; same_world_tac].
  destruct (String.eqb rt "SKIN_ROOT"); [|same_world_tac].
  cbv zeta.
  apply (respects_bind _ same_world_trans); [same_world_tac|intros d].
  now apply dry_delete_directory.
Qed.

Lemma unregister_group_dry (e : engine) (i : installer) (b : bool) (g : string) :
  dry_run e = true ->
  respects same_world (unregister_group e i b g)
  /\ returns (fun save_config => save_config = b) (unregister_group e i b g).
Proof.
  intros Hdry. unfold unregister_group. rewrite Hdry. split.
  - same_world_tac.
  - destruct (Sec.lookup g (i_groups i)); [|now apply returns_ret].
    apply (returns_bind (fun _ => True)); [apply returns_any|intros live _].
    now apply returns_ret.
Qed.

Lemma dry_uninstall_extension (e : engine) (name : string) :
  dry_run e = true -> respects same_world (uninstall_extension e name).
Proof.
  intros Hdry. unfold uninstall_extension.
  apply (respects_bind _ same_world_trans); [same_world_tac|intros _].
  apply (respects_bind _ same_world_trans); [same_world_tac|intros ext_root].
  cbv zeta.
  apply (respects_bind _ same_world_trans); [same_world_tac|intros found].
  apply (respects_bind _ same_world_trans); [now apply dry_uninstall_files|intros _].
  apply (respects_bind_val _ same_world_trans (fun b => b = false)).
  { apply (respects_for_fold _ same_world_refl same_world_trans). intros acc g.
    now apply unregister_group_dry. }
  { apply returns_for_fold; [|reflexivity]. intros acc g ->.
    now apply unregister_group_dry. }
  intros sc ->. rewrite Hdry.
  apply (respects_bind_val _ same_world_trans (fun b => b = false)).
  { destruct (i_config found.2); same_world_tac. }
  { destruct (i_config found.2); now apply returns_ret. }
  intros sc' ->. same_world_tac.
Qed.

(** *** What a dry run logs *)

Lemma bind_ok {A B} (m : M A) (f : A -> M B) (s s2 : state) (b : B) :
  (m ≫= f) s = (Ok b, s2) -> exists a s1, m s = (Ok a, s1) /\ f a s1 = (Ok b, s2).
Proof.
  unfold mbind, M_bind. destruct (m s) as [[a|ex] s1]; [eauto|discriminate].
Qed.

Section Simulation.
Variable L : list (nat * string) -> list (nat * string) -> Prop.

Lemma simulates_ret {A B} (Q : A -> B -> Prop) (a : A) (b : B) :
  Q a b -> simulates L Q (mret a) (mret b).
Proof. intros H s s' a' s1 [= <- <-] Hl. exists b, s'. auto. Qed.

Lemma simulates_bind {A A' B B'} (Q : A -> A' -> Prop) (Q' : B -> B' -> Prop)
    (m : M A) (m' : M A') (f : A -> M B) (f' : A' -> M B') :
  simulates L Q m m' -> (forall a a', Q a a' -> simulates L Q' (f a) (f' a')) ->
  simulates L Q' (m ≫= f) (m' ≫= f').
Proof.
  intros Hm Hf s s' b s2 H Hl.
  destruct (bind_ok _ _ _ _ _ H) as (a & s1 & Ha & Hb).
  destruct (Hm _ _ _ _ Ha Hl) as (a' & s1' & Ha' & Hl1 & Hq).
  destruct (Hf _ _ Hq _ _ _ _ Hb Hl1) as (b' & s2' & Hb' & Hl2 & Hq').
  exists b', s2'. unfold mbind, M_bind. rewrite Ha'. auto.
Qed.

Lemma simulates_for_fold {A B B'} (Q : B -> B' -> Prop) (l : list A)
    (body : B -> A -> M B) (body' : B' -> A -> M B') :
  (forall acc acc' x, Q acc acc' -> simulates L Q (body acc x) (body' acc' x)) ->
  forall acc acc', Q acc acc' ->
    simulates L Q (for_fold l acc body) (for_fold l acc' body').
Proof.
  intros Hb. induction l as [|x r IH]; intros acc acc' Hq; simpl.
  - now apply simulates_ret.
  - eapply simulates_bind; [now apply Hb|]. intros a a' Ha. now apply IH.
Qed.

Lemma simulates_for_target_dirs {A B} (Q : A -> B -> Prop) (ks : list string)
    (st : source_tuple) (body : string -> M A) (body' : string -> M B) :
  (forall root_type, simulates L Q (body root_type) (body' root_type)) ->
  simulates L Q (for_target_dirs ks st body) (for_target_dirs ks st body').
Proof.
  intros Hb. induction ks as [|d r IH]; simpl.
  - intros s s' a s1 H. discriminate.
  - destruct (negb _); [|exact IH].
    destruct (target_dirs !! _); [apply Hb|].
    intros s s' a s1 H. discriminate.
Qed.

End Simulation.

Lemma destination_pure (e : engine) (root_type : string) (dst : option string) :
  exists r, forall s, destination e root_type dst s = (r, s).
Proof.
  unfold destination, root. monad_unfold.
  destruct (root_dict e !! root_type); [destruct dst|]; eauto.
Qed.

(** *** Regular files: reading, writing, copying, removing *)

Lemma read_is_file (s : state) (q : string) :
  Fs.is_file s q = true <-> is_Some (Fs.read s q).
Proof.
  unfold Fs.is_file, Fs.read. rewrite orb_true_iff, !bool_decide_eq_true.
  destruct (files s !! q), (tarballs s !! q); simpl; unfold is_Some; naive_solver.
Qed.

Lemma read_absent (s : state) (q : string) :
  Fs.read s q = None <-> files s !! q = None /\ tarballs s !! q = None.
Proof.
  unfold Fs.read. destruct (files s !! q), (tarballs s !! q); simpl; naive_solver.
Qed.

Lemma is_file_absent (s : state) (q : string) :
  Fs.is_file s q = false <-> files s !! q = None /\ tarballs s !! q = None.
Proof.
  rewrite <- read_absent. pose proof (read_is_file s q) as H.
  destruct (Fs.is_file s q), (Fs.read s q); unfold is_Some in H; naive_solver.
Qed.

Lemma read_same (s s' : state) (q : string) :
  files s' !! q = files s !! q -> tarballs s' !! q = tarballs s !! q ->
  Fs.read s' q = Fs.read s q.
Proof. unfold Fs.read. now intros -> ->. Qed.

Lemma write_other (q p : string) (x : content + tarball) (s : state) :
  p <> q ->
  files (Fs.write q x s) !! p = files s !! p
  /\ tarballs (Fs.write q x s) !! p = tarballs s !! p.
Proof.
  intros Hne. destruct x; simpl;
    rewrite ?lookup_insert_ne, ?fin_maps.lookup_delete_ne by congruence; split; reflexivity.
Qed.

Lemma write_read (q : string) (x : content + tarball) (s : state) :
  Fs.read (Fs.write q x s) q = Some x.
Proof.
  unfold Fs.read. destruct x; simpl.
  - now rewrite lookup_insert_eq.
  - now rewrite lookup_delete_eq, lookup_insert_eq.
Qed.

Lemma write_rest (q : string) (x : content + tarball) (s : state) :
  dirs (Fs.write q x s) = dirs s /\ config_dict (Fs.write q x s) = config_dict s
  /\ log (Fs.write q x s) = log s.
Proof. destruct x; repeat split. Qed.

(** What [shutil.copy] does: it raises and leaves the state alone, or it
    writes what the source holds to the destination, which is another
    path and no directory. *)
Lemma copy_cases (e : engine) (src dst : string) (s : state) :
  (exists ex, Fs.copy e src dst s = (Raise ex, s))
  \/ (exists x,
        Fs.copy e src dst s
        = (Ok tt, Fs.write (if Fs.is_dir s (Fs.resolve e dst)
                            then OsPath.join (Fs.resolve e dst)
                                             (Fs.basename (Fs.resolve e src))
                            else Fs.resolve e dst) x s)
        /\ Fs.read s (Fs.resolve e src) = Some x
        /\ Fs.resolve e src
           <> (if Fs.is_dir s (Fs.resolve e dst)
               then OsPath.join (Fs.resolve e dst) (Fs.basename (Fs.resolve e src))
               else Fs.resolve e dst)
        /\ Fs.is_dir s (if Fs.is_dir s (Fs.resolve e dst)
                        then OsPath.join (Fs.resolve e dst)
                                         (Fs.basename (Fs.resolve e src))
                        else Fs.resolve e dst) = false).
Proof.
  unfold Fs.copy. unfold mbind, M_bind, get, put, raise.
  set (qd := if Fs.is_dir s (Fs.resolve e dst)
             then OsPath.join (Fs.resolve e dst) (Fs.basename (Fs.resolve e src))
             else Fs.resolve e dst).
  destruct (String.eqb (Fs.resolve e src) qd && Fs.is_file s (Fs.resolve e src)) eqn:Esame;
    [left; eauto|].
  destruct (Fs.read s (Fs.resolve e src)) as [x|] eqn:Er; [|left; eauto].
  destruct (Fs.is_dir s (OsPath.dirname qd) && negb (Fs.is_dir s qd)) eqn:Ed; [|left; eauto].
  right. exists x. split; [reflexivity|]. split; [reflexivity|].
  apply andb_true_iff in Ed as [_ Ed]. apply negb_true_iff in Ed. split; [|exact Ed].
  intros Heq. apply andb_false_iff in Esame as [Hn|Hn].
  - rewrite Heq, String.eqb_refl in Hn. discriminate.
  - assert (Hf : Fs.is_file s (Fs.resolve e src) = true) by (apply read_is_file; eauto).
    congruence.
Qed.

(** What [os.remove] does: it raises and leaves the state alone when there
    is no regular file, and removes the file when there is one. *)
Lemma remove_cases (e : engine) (p : string) (s : state) :
  (Fs.is_file s (Fs.resolve e p) = false
   /\ exists msg, Fs.remove e p s = (Raise (OSError msg), s))
  \/ (Fs.is_file s (Fs.resolve e p) = true
      /\ Fs.remove e p s
         = (Ok tt, State (delete (Fs.resolve e p) (files s))
                         (delete (Fs.resolve e p) (tarballs s))
                         (dirs s) (config_dict s) (log s))).
Proof.
  unfold Fs.remove. unfold mbind, M_bind, get, put, raise.
  destruct (Fs.is_file s (Fs.resolve e p)); [right|left]; eauto.
Qed.

Lemma makedirs_log (e : engine) (p : string) (s : state) :
  log (snd (Fs.makedirs e p s)) = log s.
Proof.
  unfold Fs.makedirs. monad_unfold.
  destruct (_ || _); [reflexivity|]. destruct (existsb _ _); reflexivity.
Qed.

Lemma copy_log (e : engine) (src dst : string) (s : state) :
  log (snd (Fs.copy e src dst s)) = log s.
Proof.
  destruct (copy_cases e src dst s) as [[ex ->]|(x & -> & _)]; [reflexivity|].
  apply write_rest.
Qed.

Lemma install_file_step_simulated (e : engine) (dir root_type : string)
    (N N' : nat) (f : string) :
  simulates eq (fun _ _ => True)
    (install_file_step e dir root_type N f)
    (install_file_step (set_dry_run true e) dir root_type N' f).
Proof.
  intros s s' a s1 H Hl. unfold install_file_step in *.
  destruct (destination_pure e root_type (_strip_leading_dir f)) as [r Hr].
  change (destination (set_dry_run true e)) with (destination e).
  unfold mbind, M_bind in *. rewrite Hr in *.
  destruct r as [d|ex]; [|discriminate].
  simpl. eexists _, _. split; [reflexivity|]. split; [|exact I].
  simpl. destruct (dry_run e).
  - injection H as _ <-. simpl. now rewrite Hl.
  - unfold try_except, mret, M_ret, logger_log in H.
    set (s0 := State _ _ _ _ _) in H.
    pose proof (makedirs_log e (OsPath.dirname d) s0) as Hm.
    destruct (Fs.makedirs e (OsPath.dirname d) s0) as [[[]|ex] sm]; simpl in Hm.
    + pose proof (copy_log e (OsPath.join dir f) d sm) as Hc.
      destruct (Fs.copy e (OsPath.join dir f) d sm) as [[[]|ex] sc]; [|discriminate].
      injection H as _ <-. simpl in Hc. rewrite Hc, Hm. subst s0. simpl. now rewrite Hl.
    + destruct (is_OSError ex); [|discriminate].
      pose proof (copy_log e (OsPath.join dir f) d sm) as Hc.
      destruct (Fs.copy e (OsPath.join dir f) d sm) as [[[]|ex'] sc]; [|discriminate].
      injection H as _ <-. simpl in Hc. rewrite Hc, Hm. subst s0. simpl. now rewrite Hl.
Qed.

Lemma copy_files_simulated (e : engine) (dir : string) (i : installer) :
  simulates eq (fun _ _ => True)
    (copy_files e dir i) (copy_files (set_dry_run true e) dir i).
Proof.
  unfold copy_files.
  apply (simulates_bind _ eq).
  - intros s s' a s1 H Hl. unfold installer_files in *.
    destruct (i_files i); [|discriminate]. injection H as <- <-.
    eexists _, _. repeat split. exact Hl.
  - intros l ? <-.
    apply (simulates_for_fold _ (fun _ _ => True)); [|exact I].
    intros acc acc' st _.
    apply simulates_for_target_dirs. intros rt.
    apply (simulates_for_fold _ (fun _ _ => True)); [|exact I].
    intros N N' f _. apply install_file_step_simulated.
Qed.

Lemma delete_file_lines (e : engine) (f : string) (r : bool) (s : state) :
  exists n s1, delete_file e f r s = (Ok n, s1)
    /\ List.filter is_deleting_file (log s1)
       = (List.filter is_deleting_file (log s) ++ [deleting f])%list.
Proof.
  unfold delete_file, Fs.remove, Fs.is_file. monad_unfold. simpl.
  destruct (dry_run e); simpl.
  - eexists _, _. split; [reflexivity|]. simpl. now rewrite List.filter_app.
  - destruct (_ || _); simpl.
    + eexists _, _. split; [reflexivity|]. simpl. now rewrite List.filter_app.
    + destruct r; simpl; eexists _, _; (split; [reflexivity|]); simpl;
        rewrite ?List.filter_app; simpl; now rewrite ?app_nil_r.
Qed.

Lemma rmtree_log (e : engine) (d : string) (b : bool) (s : state) :
  log (snd (Fs.rmtree e d b s)) = log s.
Proof.
  unfold Fs.rmtree. monad_unfold. destruct (Fs.is_dir s _); [reflexivity|].
  destruct b; reflexivity.
Qed.

Lemma delete_directory_lines (e : engine) (d : string) (r : bool) (s : state) :
  exists s1, delete_directory e d r s = (Ok tt, s1)
    /\ List.filter is_deleting_file (log s1) = List.filter is_deleting_file (log s).
Proof.
  unfold delete_directory, Fs.listdir_nonempty. monad_unfold. simpl.
  destruct (Fs.is_dir s (Fs.resolve e d)) eqn:Ed; simpl.
  - destruct (existsb _ _); simpl.
    + eexists. split; [reflexivity|]. simpl. rewrite List.filter_app. simpl.
      now rewrite app_nil_r.
    + destruct (dry_run e); simpl.
      * eexists. split; [reflexivity|]. simpl. rewrite List.filter_app. simpl.
        now rewrite app_nil_r.
      * set (s0 := State _ _ _ _ _).
        pose proof (rmtree_log e d false s0) as Hl.
        unfold Fs.rmtree, mbind, M_bind, get, put, mret, M_ret, raise in *.
        destruct (Fs.is_dir s0 (Fs.resolve e d)); simpl in *.
        -- eexists. split; [reflexivity|]. simpl. rewrite List.filter_app. simpl.
           now rewrite app_nil_r.
        -- destruct r; simpl; eexists; (split; [reflexivity|]); simpl;
             rewrite ?List.filter_app; simpl; now rewrite ?app_nil_r.
  - destruct r; simpl; eexists; (split; [reflexivity|]); simpl;
      rewrite ?List.filter_app; simpl; now rewrite ?app_nil_r.
Qed.

Lemma delete_file_simulated (e e' : engine) (f : string) (r : bool) :
  simulates same_deletions (fun _ _ => True) (delete_file e f r) (delete_file e' f r).
Proof.
  intros s s' a s1 H Hl.
  destruct (delete_file_lines e f r s) as (n & t & Ht & Hf). rewrite Ht in H.
  injection H as <- <-.
  destruct (delete_file_lines e' f r s') as (n' & t' & Ht' & Hf').
  exists n', t'. split; [exact Ht'|]. split; [|exact I].
  unfold same_deletions in *. now rewrite Hf, Hf', Hl.
Qed.

Lemma delete_directory_simulated (e e' : engine) (d : string) (r : bool) :
  simulates same_deletions (fun _ _ => True) (delete_directory e d r) (delete_directory e' d r).
Proof.
  intros s s' a s1 H Hl.
  destruct (delete_directory_lines e d r s) as (t & Ht & Hf). rewrite Ht in H.
  injection H as <- <-.
  destruct (delete_directory_lines e' d r s') as (t' & Ht' & Hf').
  exists tt, t'. split; [exact Ht'|]. split; [|exact I].
  unfold same_deletions in *. now rewrite Hf, Hf', Hl.
Qed.

Lemma destination_simulated (L : list (nat * string) -> list (nat * string) -> Prop)
    (e : engine) (dry : bool) (root_type : string) (dst : option string) :
  simulates L eq (destination e root_type dst)
    (destination (set_dry_run dry e) root_type dst).
Proof.
  intros s s' a s1 H Hl.
  change (destination (set_dry_run dry e)) with (destination e).
  destruct (destination_pure e root_type dst) as [r Hr].
  rewrite Hr in H. injection H as -> <-. exists a, s'. rewrite Hr. auto.
Qed.

Lemma logger_log_simulated (msg msg' : string) (lvl lvl' : nat) :
  is_deleting_file (lvl, msg) = is_deleting_file (lvl', msg') ->
  is_deleting_file (lvl, msg) = false ->
  simulates same_deletions (fun _ _ => True) (logger_log msg lvl) (logger_log msg' lvl').
Proof.
  intros He Hf s s' a s1 [= <- <-] Hl. eexists _, _. split; [reflexivity|].
  split; [|exact I]. unfold same_deletions in *. simpl.
  rewrite !List.filter_app. simpl. rewrite <- He, Hf. now rewrite Hl.
Qed.

Lemma uninstall_files_simulated (e : engine) (dry : bool) (i : installer) :
  simulates same_deletions (fun _ _ => True)
    (uninstall_files e i) (uninstall_files (set_dry_run dry e) i).
Proof.
  unfold uninstall_files.
  apply (simulates_bind _ (fun _ _ => True)); [now apply logger_log_simulated|intros _ _ _].
  apply (simulates_bind _ eq).
  { intros s s' a s1 H Hl. unfold installer_files in *.
    destruct (i_files i); [|discriminate]. injection H as <- <-.
    eexists _, _. repeat split. exact Hl. }
  intros l ? <-.
  apply (simulates_bind _ (fun _ _ => True)).
  2:{ intros N N' _. intros s s' a s1 [= <- <-] Hl. eexists _, _.
      split; [reflexivity|]. split; [|exact I]. unfold same_deletions in *. simpl.
      rewrite !List.filter_app. simpl. now rewrite Hl. }
  apply (simulates_for_fold _ (fun _ _ => True)); [|exact I].
  intros acc acc' st _.
  apply simulates_for_target_dirs. intros rt.
  apply (simulates_bind _ (fun _ _ => True)).
  { apply (simulates_for_fold _ (fun _ _ => True)); [|exact I].
    intros N N' f _. unfold uninstall_file_step.
    apply (simulates_bind _ eq); [apply destination_simulated|intros d ? <-].
    apply (simulates_bind _ (fun _ _ => True)); [apply delete_file_simulated|intros n1 n1' _].
    destruct (PyStr.endswith ".py" d); [|now apply simulates_ret].
    apply (simulates_bind _ (fun _ _ => True)); [apply delete_file_simulated|intros n2 n2' _].
    apply (simulates_bind _ (fun _ _ => True)); [apply delete_file_simulated|intros n3 n3' _].
    now apply simulates_ret. }
  intros N N' _.
  apply (simulates_bind _ (fun _ _ => True)); [|intros; now apply simulates_ret].
  destruct (String.eqb rt "SKIN_ROOT"); [|now apply simulates_ret].
  cbv zeta.
  apply (simulates_bind _ eq); [apply destination_simulated|intros d ? <-].
  apply delete_directory_simulated.
Qed.

(** X17: With the dry-run flag set, [install_from_dir] and
    [uninstall_extension] leave the files, the archives, the directories
    and the configuration dictionary as they were, whatever the outcome.
    The copy phase logs in a dry run exactly the lines of a run that
    copies and completes, and the removal phase announces the same
    deletions of files.  Lines that are computed from what only the real
    run changes are not covered, and neither is [install_extension] on an
    archive. *)
Theorem dry_run_changes_nothing_and_plans_the_same_copies_and_deletions :
  (forall (e : engine) (dir : string) (s : state),
     dry_run e = true -> same_world s (snd (install_from_dir e dir s)))
  /\ (forall (e : engine) (name : string) (s : state),
        dry_run e = true -> same_world s (snd (uninstall_extension e name s)))
  /\ (forall (e : engine) (dir : string) (i : installer) (s s1 : state) (N : nat),
        copy_files e dir i s = (Ok N, s1) ->
        exists N' s1', copy_files (set_dry_run true e) dir i s = (Ok N', s1')
                       /\ log s1' = log s1)
  /\ (forall (e : engine) (i : installer) (s s1 : state),
        uninstall_files e i s = (Ok tt, s1) ->
        exists s1', uninstall_files (set_dry_run true e) i s = (Ok tt, s1')
                    /\ same_deletions (log s1) (log s1')).
Proof.
  split; [intros e dir s H; now apply dry_install_from_dir|].
  split; [intros e name s H; now apply dry_uninstall_extension|].
  split.
  - intros e dir i s s1 N H.
    destruct (copy_files_simulated e dir i s s N s1 H eq_refl) as (N' & s1' & H' & Hl & _).
    exists N', s1'. split; [exact H'|now symmetry].
  - intros e i s s1 H.
    destruct (uninstall_files_simulated e true i s s tt s1 H eq_refl)
      as ([] & s1' & H' & Hl & _).
    exists s1'. split; [exact H'|exact Hl].
Qed.

Lemma dry_run_changes_nothing_witness :
  same_world Sample.skin_source_world
    (snd (install_from_dir (Sample.weewx_engine true ["bin"; "skins"]) "/home/me/pmon"
            Sample.skin_source_world)).
Proof.
  apply (proj1 dry_run_changes_nothing_and_plans_the_same_copies_and_deletions).
  reflexivity.
Defined.

(** X18: The dry run does not log the lines of the real run.  Uninstalling
    the skin, the real run finds the skin's directory empty after its
    deletions and logs that it deletes it, where the dry run logs that the
    directory is not empty; installing an extension that names a new
    service twice, the real run logs the addition once and the dry run
    twice. *)
Theorem dry_run_logs_differ :
  In (2%nat, "Deleting directory /home/weewx/skins/pmon")
     (log (snd (uninstall_extension (Sample.weewx_engine false ["bin"; "skins"]) "pmon"
                  Sample.skin_installed_world)))
  /\ ~ In (2%nat, "Deleting directory /home/weewx/skins/pmon")
       (log (snd (uninstall_extension (Sample.weewx_engine true ["bin"; "skins"]) "pmon"
                    Sample.skin_installed_world)))
  /\ List.length
       (List.filter
          (fun line => String.eqb (snd line)
                         "Added new service user.pmon.ProcessMonitor to report_services")
          (log (snd (install_from_dir (Sample.weewx_engine false ["bin"; "skins"])
                       "/home/me/pmon" Sample.skin_source_world)))) = 1%nat
  /\ List.length
       (List.filter
          (fun line => String.eqb (snd line)
                         "Added new service user.pmon.ProcessMonitor to report_services")
          (log (snd (install_from_dir (Sample.weewx_engine true ["bin"; "skins"])
                       "/home/me/pmon" Sample.skin_source_world)))) = 2%nat.
Proof.
  split; [vm_compute; tauto|].
  split; [vm_compute; intuition discriminate|].
  split; vm_compute; reflexivity.
Qed.

(** C3, on the code: the [try] and [finally] of [install_extension] do not
    consult the dry-run flag.  In a dry run on an archive the archive is
    extracted into the temporary directory and the directory of its common
    prefix is removed afterwards, with whatever it held before: here the
    call returns, and the user's directory "/var/tmp/pmon" is gone with
    the file in it.  When the members of the archive share no prefix the
    dry run ends in the [UnboundLocalError] of the [finally] clause and
    the extracted members stay behind.  The staging of the archive is the
    same computation whatever the flag says. *)
Theorem C3_dry_run_install_extension_changes_the_file_system :
  let e := Sample.weewx_engine true ["bin"; "skins"] in
  let s := Sample.staged_world Sample.pmon_archive in
  let t := Sample.staged_world Sample.scattered in
  dry_run e = true
  /\ fst (install_extension e "/home/me/ext.tgz" s) = Ok tt
  /\ files s !! "/var/tmp/pmon/keep.txt" = Some (Data "keep me")
  /\ files (snd (install_extension e "/home/me/ext.tgz" s)) !! "/var/tmp/pmon/keep.txt" = None
  /\ "/var/tmp/pmon" ∈ dirs s
  /\ ("/var/tmp/pmon" ∉ dirs (snd (install_extension e "/home/me/ext.tgz" s)))
  /\ fst (install_extension e "/home/me/ext.tgz" t)
     = Raise (UnboundLocalError
                "local variable 'extension_dir' referenced before assignment")
  /\ files t !! "/var/tmp/readme.txt" = None
  /\ files (snd (install_extension e "/home/me/ext.tgz" t)) !! "/var/tmp/readme.txt"
     = Some (Data "read me")
  /\ (forall (e' : engine) (path : string) (s' : state),
        stage_tarball (set_dry_run true e') path s' = stage_tarball e' path s').
Proof.
  intros e s t.
  split; [reflexivity|].
  split; [vm_compute; reflexivity|].
  split; [vm_compute; reflexivity|].
  split; [vm_compute; reflexivity|].
  split; [apply (bool_decide_unpack _); vm_compute; exact I|].
  split; [intros Hin; apply (bool_decide_pack _) in Hin; vm_compute in Hin; exact Hin|].
  split; [vm_compute; reflexivity|].
  split; [vm_compute; reflexivity|].
  split; [vm_compute; reflexivity|].
  reflexivity.
Qed.

(** ** C1: install, then uninstall *)

(** *** The merge and its inverse *)

Lemma same_shape_dict (b b' : list (string * pydict)) :
  same_shape (PDict b) (PDict b')
  <-> Forall2 (fun kx ky => fst kx = fst ky /\ same_shape (snd kx) (snd ky)) b b'.
Proof.
  revert b'. induction b as [|kx r IH]; intros [|ky r']; simpl.
  - split; [constructor|trivial].
  - split; [tauto|inversion 1].
  - split; [tauto|inversion 1].
  - split.
    + intros (H1 & H2 & H3). constructor; [tauto|]. apply IH. exact H3.
    + inversion 1; subst. split; [tauto|]. split; [tauto|]. apply IH. assumption.
Qed.

Lemma mem_get_none (k : string) (a : section) : Sec.mem k a = false -> Sec.get k a = None.
Proof. unfold Sec.mem, Sec.get. destruct (Sec.lookup k a); [discriminate|reflexivity]. Qed.

Lemma set_fresh (k : string) (c : cfg) (a : section) :
  Sec.mem k a = false -> Sec.set k c a = (a ++ [(k, ([], c))])%list.
Proof.
  unfold Sec.mem. induction a as [|[k1 [cm y]] r IH]; simpl; [reflexivity|].
  destruct (String.eqb k1 k); [discriminate|]. intros H. now rewrite IH.
Qed.

Lemma mem_app {A} (k : string) (a b : list (string * A)) :
  Sec.mem k (a ++ b) = Sec.mem k a || Sec.mem k b.
Proof.
  unfold Sec.mem. induction a as [|[k1 y] r IH]; simpl; [reflexivity|].
  destruct (String.eqb k1 k); [reflexivity|exact IH].
Qed.

Lemma mem_in {A} (k : string) (a : list (string * A)) :
  Sec.mem k a = true <-> k ∈ map fst a.
Proof.
  unfold Sec.mem. induction a as [|[k1 y] r IH]; simpl.
  - split; [discriminate|]. intros H. inversion H.
  - destruct (String.eqb k1 k) eqn:E.
    + apply String.eqb_eq in E. subst. split; [constructor|reflexivity].
    + rewrite IH. split; [now constructor|].
      inversion 1; subst; [rewrite String.eqb_refl in E; discriminate|assumption].
Qed.

Lemma mem_not_in {A} (k : string) (a : list (string * A)) :
  Sec.mem k a = false <-> k ∉ map fst a.
Proof.
  rewrite <- mem_in. destruct (Sec.mem k a); split; intros; congruence.
Qed.

Lemma merge_fresh (cfg : list (string * pydict)) (C : section) :
  NoDup (map fst cfg) ->
  (forall k, k ∈ map fst cfg -> Sec.mem k C = false) ->
  Merge.conditional_merge C cfg = (C ++ map fresh_entry cfg)%list.
Proof.
  unfold Merge.conditional_merge. revert C.
  induction cfg as [|[k x] r IH]; intros C Hnd Hk; simpl; [now rewrite app_nil_r|].
  inversion Hnd as [|? ? Hni Hnd']; subst.
  unfold Merge.merge_key at 2; simpl.
  assert (Hm : Sec.mem k C = false) by (apply Hk; simpl; constructor).
  rewrite (mem_get_none k C Hm), (set_fresh k _ C Hm).
  rewrite IH; [now rewrite <- app_assoc| exact Hnd'|].
  intros k' Hk'. rewrite mem_app. rewrite (Hk k') by (simpl; now constructor).
  simpl. unfold Sec.mem; simpl. destruct (String.eqb k k') eqn:E; [|reflexivity].
  apply String.eqb_eq in E. subst. contradiction.
Qed.

Lemma lookup_app_r {A} (k : string) (a b : list (string * A)) :
  Sec.mem k a = false -> Sec.lookup k (a ++ b) = Sec.lookup k b.
Proof.
  unfold Sec.mem. induction a as [|[k1 y] r IH]; simpl; [reflexivity|].
  destruct (String.eqb k1 k); [discriminate|exact IH].
Qed.

Lemma lookup_app_l {A} (k : string) (a b : list (string * A)) :
  Sec.mem k a = true -> Sec.lookup k (a ++ b) = Sec.lookup k a.
Proof.
  unfold Sec.mem. induction a as [|[k1 y] r IH]; simpl; [discriminate|].
  destruct (String.eqb k1 k); [reflexivity|exact IH].
Qed.

Lemma delete_not_mem {A} (k : string) (a : list (string * A)) :
  Sec.mem k a = false -> Sec.delete k a = a.
Proof.
  unfold Sec.mem. induction a as [|[k1 y] r IH]; simpl; [reflexivity|].
  destruct (String.eqb k1 k); [discriminate|]. intros H. now rewrite IH.
Qed.

Lemma delete_app {A} (k : string) (a b : list (string * A)) :
  Sec.delete k (a ++ b) = (Sec.delete k a ++ Sec.delete k b)%list.
Proof.
  induction a as [|[k1 y] r IH]; simpl; [reflexivity|].
  destruct (String.eqb k1 k); [exact IH|]. simpl. now rewrite IH.
Qed.

(** Removing the fragment's keys from a section that holds them after the
    entries of [C], each with a value that the fragment's value removes
    whole, leaves [C]. *)
Lemma remove_appended (F : list (string * pydict)) (N C : section) :
  NoDup (map fst F) ->
  (forall k, k ∈ map fst F -> Sec.mem k C = false) ->
  Forall2 (fun en kx => fst en = fst kx /\ Merge.remove_value (snd kx) (snd (snd en)) = None)
          N F ->
  Merge.remove_and_prune (C ++ N) F = C.
Proof.
  unfold Merge.remove_and_prune. intros Hnd Hk HF. revert Hnd Hk.
  induction HF as [|[k' [cm c]] [k x] N' F' [Hkk Hrm] HF IH]; intros Hnd Hk; simpl.
  - now rewrite app_nil_r.
  - simpl in Hkk, Hrm. subst k'.
    inversion Hnd as [|? ? Hni Hnd']; subst.
    assert (Hm : Sec.mem k C = false) by (apply Hk; simpl; constructor).
    unfold Merge.remove_key at 2; simpl.
    rewrite (lookup_app_r k C _ Hm). simpl. rewrite String.eqb_refl. rewrite Hrm.
    rewrite delete_app, (delete_not_mem k C Hm). simpl. rewrite String.eqb_refl.
    assert (Hn : Sec.mem k N' = false).
    { apply mem_not_in. intros Hin. apply Hni.
      clear -HF Hin. induction HF as [|en kx ? ? [He _] ? IH]; simpl in *; [inversion Hin|].
      rewrite <- He. inversion Hin; subst; [constructor|constructor; now apply IH]. }
    rewrite (delete_not_mem k N' Hn).
    apply IH; [exact Hnd'|]. intros k' Hk'. apply Hk. simpl. now constructor.
Qed.

Lemma remove_value_dict (fb : list (string * pydict)) (body : section) :
  Merge.remove_value (PDict fb) (Section body)
  = match Merge.remove_and_prune body fb with
    | [] => None
    | body' => Some (Section body')
    end.
Proof. reflexivity. Qed.

Lemma remove_merged (x : pydict) :
  wf_pydict x -> forall y, same_shape x y ->
  Merge.remove_value x (Merge.merge_value y None) = None.
Proof.
  induction x as [v|fb IH] using pydict_rect'; intros Hwf y Hs.
  - reflexivity.
  - destruct y as [v|fb']; [contradiction|].
    apply same_shape_dict in Hs.
    assert (Hkeys : map fst fb' = map fst fb).
    { clear -Hs. induction Hs as [|? ? ? ? [H _] ? IHs]; simpl; [reflexivity|].
      now rewrite H, IHs. }
    rewrite merge_value_new, merge_fresh;
      [|rewrite Hkeys; apply Hwf|intros; reflexivity].
    rewrite remove_value_dict.
    rewrite (remove_appended fb (map fresh_entry fb') []); [reflexivity|apply Hwf| |].
    + intros; reflexivity.
    + pose proof (wf_pydict_forall fb Hwf) as Hwfs.
      clear -Hs IH Hwfs. induction Hs as [|kx ky r r' [Hk Hsh] Hs IHs]; simpl; constructor.
      * split; [simpl; now symmetry|]. simpl.
        inversion IH; subst. inversion Hwfs; subst. auto.
      * inversion IH; subst. inversion Hwfs; subst. auto.
Qed.

Lemma prepend_value_shape (label : string) (value : cfg) (x : pydict) :
  forall k y, Merge.prepend_value label value k x = Some y -> same_shape x y.
Proof.
  induction x as [v|fb IH] using pydict_rect'; intros k y H; simpl in H.
  - destruct (String.eqb k label); [|injection H as <-; exact I].
    destruct value as [[root|]|]; try discriminate.
    destruct v; [|discriminate]. injection H as <-. exact I.
  - destruct (fold_right _ _ fb) as [fb'|] eqn:E; [|discriminate].
    injection H as <-. apply same_shape_dict.
    revert fb' E. induction fb as [|[k1 x1] r IHr]; intros fb' E; simpl in E.
    + injection E as <-. constructor.
    + inversion IH as [|? ? Hx Hr]; subst.
      destruct (Merge.prepend_value label value k1 x1) as [y1|] eqn:E1; [|discriminate].
      destruct (fold_right _ _ r) as [r'|] eqn:E2; [|discriminate].
      injection E as <-. constructor; [split; [reflexivity|]; eapply Hx; exact E1|].
      apply IHr; [exact Hr|reflexivity].
Qed.

Lemma prepend_path_shape (label : string) (value : cfg) (F cfg1 : list (string * pydict)) :
  Merge.prepend_path F label value = Some cfg1 ->
  Forall2 (fun kx ky => fst kx = fst ky /\ same_shape (snd kx) (snd ky)) F cfg1.
Proof.
  unfold Merge.prepend_path. revert cfg1.
  induction F as [|[k1 x1] r IHr]; intros cfg1 E; simpl in E.
  - injection E as <-. constructor.
  - destruct (Merge.prepend_value label value k1 x1) as [y1|] eqn:E1; [|discriminate].
    destruct (fold_right _ _ r) as [r'|] eqn:E2; [|discriminate].
    injection E as <-. constructor.
    + split; [reflexivity|]. eapply prepend_value_shape. exact E1.
    + now apply IHr.
Qed.

Lemma shape_keys (F cfg1 : list (string * pydict)) :
  Forall2 (fun kx ky => fst kx = fst ky /\ same_shape (snd kx) (snd ky)) F cfg1 ->
  map fst cfg1 = map fst F.
Proof. induction 1 as [|? ? ? ? [H _] ? IH]; simpl; [reflexivity|]. now rewrite H, IH. Qed.

Lemma massage_databases_fresh (C : section) (cfg : list (string * pydict)) :
  (forall k, k ∈ map fst cfg -> Sec.mem k C = false) ->
  massage_databases C cfg = cfg.
Proof.
  intros Hk. unfold massage_databases.
  destruct (Sec.get "Databases" C) as [[v|dbcfg]|] eqn:E; try reflexivity.
  assert (Hm : Sec.mem "Databases" C = true).
  { unfold Sec.mem, Sec.get in *. destruct (Sec.lookup "Databases" C); [reflexivity|discriminate]. }
  assert (Hn : Sec.lookup "Databases" cfg = None).
  { apply lookup_not_in. intros Hin. rewrite (Hk _ Hin) in Hm. discriminate. }
  now rewrite Hn.
Qed.

Lemma set_comment_app (k : string) (lines : list string) (C N : section) :
  Sec.mem k C = false ->
  Sec.set_comment k lines (C ++ N) = (C ++ Sec.set_comment k lines N)%list.
Proof.
  unfold Sec.mem. induction C as [|[k1 [cm y]] r IH]; simpl; [reflexivity|].
  destruct (String.eqb k1 k); [discriminate|]. intros H. now rewrite IH.
Qed.

Lemma Forall2_set_comment {B} (P : string -> cfg -> B -> Prop) (k : string)
    (lines : list string) (N : section) (F : list B) :
  Forall2 (fun en kx => P (fst en) (snd (snd en)) kx) N F ->
  Forall2 (fun en kx => P (fst en) (snd (snd en)) kx) (Sec.set_comment k lines N) F.
Proof.
  induction 1 as [|[k1 [cm y]] kx N' F' H HF IH]; simpl; [constructor|].
  destruct (String.eqb k1 k); constructor; assumption.
Qed.

Lemma for_each_modify {A} (l : list A) (f : A -> section -> section) (s : state) :
  for_each l (fun x => modify_config (f x)) s
  = (Ok tt, with_config (fold_left (fun c x => f x c) l (config_dict s)) s).
Proof.
  revert s. induction l as [|x r IH]; intros s; simpl.
  - destruct s; reflexivity.
  - unfold mbind, M_bind, modify_config. rewrite IH. reflexivity.
Qed.

Lemma for_each_log {A} (l : list A) (msg : A -> string) (lvl : nat) (s : state) :
  for_each l (fun x => logger_log (msg x) lvl) s
  = (Ok tt, State (files s) (tarballs s) (dirs s) (config_dict s)
                  (log s ++ map (fun x => (lvl, msg x)) l)).
Proof.
  revert s. induction l as [|x r IH]; intros s; simpl.
  - rewrite app_nil_r. destruct s; reflexivity.
  - unfold mbind, M_bind, logger_log. rewrite IH. simpl. now rewrite <- app_assoc.
Qed.

Lemma comments_keep_appended (C : section) (F : list (string * pydict)) (lines : list string)
    (ks : list string) (N : section) :
  (forall k, k ∈ ks -> Sec.mem k C = false) ->
  Forall2 removable N F ->
  exists N', fold_left (fun c k => Sec.set_comment k lines c) ks (C ++ N)%list = (C ++ N')%list
             /\ Forall2 removable N' F.
Proof.
  revert N. induction ks as [|k r IH]; intros N Hk HN; simpl; [eauto|].
  rewrite set_comment_app by (apply Hk; constructor).
  apply IH; [intros; apply Hk; now constructor|].
  exact (Forall2_set_comment (fun k c kx => k = fst kx /\ Merge.remove_value (snd kx) c = None)
           k lines N F HN).
Qed.

Lemma index_ok (c : cfg) (k : string) (s s1 : state) (x : cfg) :
  index c k s = (Ok x, s1) -> s1 = s /\ lookup_path [k] c = Some x.
Proof.
  intros H. pose proof (index_state c k s) as Hs. rewrite H in Hs. simpl in Hs.
  split; [exact Hs|]. destruct c as [[?|?]|b]; simpl in *; try discriminate.
  destruct (Sec.get k b); [|discriminate]. now injection H as -> _.
Qed.

Lemma merge_config_fresh (e : engine) (i : installer) (n : string)
    (F : list (string * pydict)) (s s' : state) (b : bool) :
  dry_run e = false ->
  i_config i = Some F ->
  wf_pydict (PDict F) ->
  (forall k, k ∈ map fst F -> Sec.mem k (config_dict s) = false) ->
  merge_config e i n s = (Ok b, s') ->
  files s' = files s /\ tarballs s' = tarballs s /\ dirs s' = dirs s
  /\ exists N, config_dict s' = (config_dict s ++ N)%list /\ Forall2 removable N F.
Proof.
  intros Hdry Hc Hwf Hk H. unfold merge_config in H. rewrite Hc, Hdry in H.
  apply bind_ok in H as ([] & sa & Ha & H). injection Ha as <-.
  apply bind_ok in H as (s_ & sb & Hb & H). injection Hb as <- <-.
  apply bind_ok in H as (sr & sc & Hsr & H). apply index_ok in Hsr as [-> _].
  apply bind_ok in H as (hr & sc & Hhr & H). apply index_ok in Hhr as [-> _].
  apply bind_ok in H as (cfg1 & sc & Hp & H).
  destruct (Merge.prepend_path F "HTML_ROOT" hr) as [c1|] eqn:E3; [|discriminate].
  injection Hp as -> <-.
  pose proof (prepend_path_shape _ _ _ _ E3) as Hshape.
  pose proof (shape_keys _ _ Hshape) as Hkeys.
  cbv zeta in H. simpl config_dict in H.
  rewrite massage_databases_fresh in H by (rewrite Hkeys; exact Hk).
  apply bind_ok in H as ([] & sc & Hl & H). rewrite for_each_log in Hl. injection Hl as <-.
  apply bind_ok in H as (b' & sd & Hm & H).
  apply bind_ok in Hm as ([] & se & Hm1 & Hm). injection Hm1 as <-.
  apply bind_ok in Hm as ([] & sf & Hm2 & Hm). rewrite for_each_modify in Hm2.
  injection Hm2 as <-. injection Hm as <- <-.
  apply bind_ok in H as ([] & sg & Hl & H). injection Hl as <-. injection H as _ <-.
  simpl. repeat split.
  rewrite merge_fresh; [|rewrite Hkeys; apply Hwf|rewrite Hkeys; exact Hk].
  apply comments_keep_appended.
  - intros k Hin. apply list_elem_of_In, List.filter_In in Hin. destruct Hin as [_ Hin].
    now apply negb_true_iff in Hin.
  - pose proof (wf_pydict_forall F Hwf) as Hwfs.
    clear -Hshape Hwfs. induction Hshape as [|kx ky r r' [Hkk Hsh] Hs IH]; simpl; constructor.
    + split; [simpl; now symmetry|]. simpl. inversion Hwfs; subst. now apply remove_merged.
    + inversion Hwfs; subst. now apply IH.
Qed.

(** *** The service groups *)

Lemma set_set (k : string) (c c' : cfg) (a : section) :
  Sec.set k c (Sec.set k c' a) = Sec.set k c a.
Proof.
  induction a as [|[k1 [cm y]] r IH]; simpl.
  - now rewrite String.eqb_refl.
  - destruct (String.eqb k1 k) eqn:E; simpl; rewrite E; [reflexivity|now rewrite IH].
Qed.

Lemma set_same (k : string) (c : cfg) (a : section) :
  Sec.get k a = Some c -> Sec.set k c a = a.
Proof.
  unfold Sec.get. induction a as [|[k1 [cm y]] r IH]; simpl; [discriminate|].
  destruct (String.eqb k1 k); simpl.
  - now intros [= ->].
  - intros H. now rewrite IH.
Qed.

Lemma set_comm (k k' : string) (c c' : cfg) (a : section) :
  k <> k' -> Sec.mem k a = true -> Sec.mem k' a = true ->
  Sec.set k c (Sec.set k' c' a) = Sec.set k' c' (Sec.set k c a).
Proof.
  intros Hne. unfold Sec.mem.
  induction a as [|[k1 [cm y]] r IH]; simpl; [discriminate|].
  destruct (String.eqb k1 k) eqn:E1, (String.eqb k1 k') eqn:E2; simpl;
    rewrite ?E1, ?E2; try reflexivity.
  - apply String.eqb_eq in E1, E2. congruence.
  - intros H1 H2. now rewrite IH.
Qed.

Lemma mem_set (k k' : string) (c : cfg) (a : section) :
  Sec.mem k' a = true -> Sec.mem k' (Sec.set k c a) = true.
Proof.
  unfold Sec.mem. induction a as [|[k1 [cm y]] r IH]; simpl; [discriminate|].
  destruct (String.eqb k1 k) eqn:E1; simpl; destruct (String.eqb k1 k'); auto.
Qed.

Lemma get_mem (k : string) (c : cfg) (a : section) :
  Sec.get k a = Some c -> Sec.mem k a = true.
Proof. unfold Sec.get, Sec.mem. destruct (Sec.lookup k a); [reflexivity|discriminate]. Qed.

Lemma mem_assigned (ovs : list (string * cfg)) (a : section) (k : string) :
  Sec.mem k a = true -> Sec.mem k (assigned ovs a) = true.
Proof. induction ovs as [|[g c] r IH]; simpl; [trivial|]. intros H. apply mem_set. auto. Qed.

Lemma get_assigned (ovs : list (string * cfg)) (a : section) (k : string) :
  Sec.get k (assigned ovs a)
  = match Sec.lookup k ovs with Some c => Some c | None => Sec.get k a end.
Proof.
  induction ovs as [|[g c] r IH]; simpl; [reflexivity|].
  rewrite get_set. destruct (String.eqb g k); [reflexivity|exact IH].
Qed.

Lemma set_assigned_delete (g : string) (c : cfg) (ovs : list (string * cfg)) (a : section) :
  Sec.mem g a = true ->
  (forall k, k ∈ map fst ovs -> Sec.mem k a = true) ->
  Sec.set g c (assigned ovs a) = Sec.set g c (assigned (Sec.delete g ovs) a).
Proof.
  intros Hg. induction ovs as [|[g1 c1] r IH]; intros Hk; simpl; [reflexivity|].
  assert (Hr : forall k, k ∈ map fst r -> Sec.mem k a = true).
  { intros k Hin. apply Hk. simpl. now constructor. }
  destruct (String.eqb g1 g) eqn:E.
  - apply String.eqb_eq in E. subst g1. rewrite set_set. now apply IH.
  - simpl. rewrite set_comm.
    + rewrite IH by exact Hr. rewrite (set_comm g g1).
      * reflexivity.
      * intros ->. rewrite String.eqb_refl in E. discriminate.
      * now apply mem_assigned.
      * apply mem_assigned. apply Hk. simpl. constructor.
    + intros ->. rewrite String.eqb_refl in E. discriminate.
    + now apply mem_assigned.
    + apply mem_assigned. apply Hk. simpl. constructor.
Qed.

Lemma lookup_delete_ne {A} (g k : string) (ovs : list (string * A)) :
  g <> k -> Sec.lookup k (Sec.delete g ovs) = Sec.lookup k ovs.
Proof.
  intros Hne. induction ovs as [|[g1 c1] r IH]; simpl; [reflexivity|].
  destruct (String.eqb g1 g) eqn:E.
  - apply String.eqb_eq in E. subst.
    destruct (String.eqb g k) eqn:E2; [apply String.eqb_eq in E2; contradiction|exact IH].
  - simpl. destruct (String.eqb g1 k); [reflexivity|exact IH].
Qed.

Lemma delete_length {A} (g : string) (ovs : list (string * A)) :
  (List.length (Sec.delete g ovs) <= List.length ovs)%nat.
Proof.
  induction ovs as [|[g1 c1] r IH]; simpl; [lia|].
  destruct (String.eqb g1 g); simpl; lia.
Qed.

Lemma lookup_some_in {A} (k : string) (ovs : list (string * A)) :
  k ∈ map fst ovs -> exists c, Sec.lookup k ovs = Some c.
Proof.
  intros H. apply mem_in in H. unfold Sec.mem in H.
  destruct (Sec.lookup k ovs); [eauto|discriminate].
Qed.

(** Assignments that give every key they mention, in the end, the value it
    had, change nothing. *)
Lemma assigned_restored (n : nat) :
  forall (ovs : list (string * cfg)) (a : section),
    (List.length ovs <= n)%nat ->
    (forall k c, Sec.lookup k ovs = Some c -> Sec.get k a = Some c) ->
    assigned ovs a = a.
Proof.
  induction n as [|n IH]; intros ovs a Hlen Hk.
  - destruct ovs; [reflexivity|simpl in Hlen; lia].
  - destruct ovs as [|[g c] r]; [reflexivity|]. simpl in *.
    assert (Hg : Sec.get g a = Some c) by (apply Hk; now rewrite String.eqb_refl).
    assert (Hmem : forall k, k ∈ map fst r -> Sec.mem k a = true).
    { intros k Hin. destruct (String.eqb g k) eqn:E.
      - apply String.eqb_eq in E. subst. eapply get_mem; eauto.
      - destruct (lookup_some_in k r Hin) as [c' Hc'].
        eapply get_mem. apply Hk. rewrite E. exact Hc'. }
    rewrite set_assigned_delete; [|eapply get_mem; eauto|exact Hmem].
    rewrite IH.
    + now apply set_same.
    + pose proof (delete_length g r). lia.
    + intros k c' Hl. destruct (String.eqb g k) eqn:E.
      * apply String.eqb_eq in E. subst.
        exfalso. clear -Hl. induction r as [|[g1 c1] r IHr]; simpl in Hl; [discriminate|].
        destruct (String.eqb g1 k) eqn:E; [auto|]. simpl in Hl. rewrite E in Hl. auto.
      * apply Hk. rewrite E. rewrite lookup_delete_ne in Hl; [exact Hl|].
        intros ->. rewrite String.eqb_refl in E. discriminate.
Qed.


Lemma lookup_services (c0 : section) (g : string) (c : cfg) :
  lookup_path ["Engine"; "Services"; g] (Section c0) = Some c
  <-> exists eb sb0, services_of c0 = Some (eb, sb0) /\ Sec.get g sb0 = Some c.
Proof.
  unfold services_of. simpl.
  destruct (Sec.get "Engine" c0) as [[v|eb]|]; simpl;
    try (split; [discriminate|intros (? & ? & [=] & _)]).
  destruct (Sec.get "Services" eb) as [[v|sb]|]; simpl;
    try (split; [discriminate|intros (? & ? & [=] & _)]).
  destruct (Sec.get g sb) as [x|] eqn:E.
  - split; [intros [= <-]; eauto|]. intros (? & ? & [= <- <-] & H). congruence.
  - split; [discriminate|]. intros (? & ? & [= <- <-] & H). congruence.
Qed.

Lemma with_services_same (c eb sb : section) :
  services_of c = Some (eb, sb) -> with_services eb sb c = c.
Proof.
  unfold services_of, with_services.
  destruct (Sec.get "Engine" c) as [[v|eb']|] eqn:E1; try discriminate.
  destruct (Sec.get "Services" eb') as [[v|sb']|] eqn:E2; try discriminate.
  intros [= <- <-]. rewrite (set_same "Services" _ _ E2). now apply set_same.
Qed.

Lemma services_of_with (c eb sb0 sb : section) :
  services_of c = Some (eb, sb0) ->
  services_of (with_services eb sb c) = Some (Sec.set "Services" (Section sb) eb, sb).
Proof.
  intros _. unfold services_of, with_services.
  rewrite get_set, String.eqb_refl. rewrite get_set, String.eqb_refl. reflexivity.
Qed.

Lemma write_with_services (c eb sb0 sb : section) (g : string) (v : value) :
  services_of c = Some (eb, sb0) ->
  write_service_group g v (with_services eb sb c)
  = with_services eb (Sec.set g (Scalar v) sb) c.
Proof.
  intros H. unfold write_service_group.
  pose proof (services_of_with c eb sb0 sb H) as Hs. unfold services_of in Hs.
  destruct (Sec.get "Engine" (with_services eb sb c)) as [[?|eb']|]; try discriminate.
  destruct (Sec.get "Services" eb') as [[?|sb']|]; try discriminate.
  injection Hs as -> ->. unfold with_services. now rewrite !set_set.
Qed.

Lemma read_service_group_ok (g : string) (s s1 : state) (x : cfg) :
  read_service_group g s = (Ok x, s1) ->
  s1 = s /\ lookup_path ["Engine"; "Services"; g] (Section (config_dict s)) = Some x.
Proof.
  intros H. unfold read_service_group in H.
  apply bind_ok in H as (s_ & sa & Ha & H). injection Ha as <- <-.
  apply bind_ok in H as (c1 & sa & Ha & H). apply index_ok in Ha as [-> H1].
  apply bind_ok in H as (c2 & sa & Ha & H). apply index_ok in Ha as [-> H2].
  apply index_ok in H as [-> H3]. split; [reflexivity|].
  simpl in *. destruct (Sec.get "Engine" (config_dict s)); [|discriminate].
  injection H1 as ->. destruct c1 as [?|eb]; [discriminate|].
  destruct (Sec.get "Services" eb); [|discriminate]. injection H2 as ->. exact H3.
Qed.

Lemma read_assigned (c0 c : section) (ovs : list (string * cfg)) (g : string) (x : cfg) :
  services_assigned c0 ovs c ->
  lookup_path ["Engine"; "Services"; g] (Section c) = Some x ->
  exists eb sb0, services_of c0 = Some (eb, sb0)
    /\ c = with_services eb (assigned ovs sb0) c0
    /\ match Sec.lookup g ovs with Some y => Some y | None => Sec.get g sb0 end = Some x.
Proof.
  unfold services_assigned. intros Hinv Hx.
  destruct (services_of c0) as [[eb sb0]|] eqn:E.
  - exists eb, sb0. split; [reflexivity|]. split; [exact Hinv|].
    subst c. apply lookup_services in Hx as (eb' & sb' & Hs & Hg).
    rewrite (services_of_with c0 eb sb0 _ E) in Hs. injection Hs as <- <-.
    now rewrite get_assigned in Hg.
  - destruct Hinv as [-> ->]. apply lookup_services in Hx as (? & ? & Hs & _).
    congruence.
Qed.

Lemma startswith_refl (s : string) : PyStr.startswith s s = true.
Proof. induction s as [|x r IH]; simpl; [reflexivity|]. now rewrite Ascii.eqb_refl. Qed.

Lemma contains_refl (s : string) : PyStr.contains s s = true.
Proof. destruct s; simpl; [reflexivity|]. rewrite Ascii.eqb_refl, startswith_refl. reflexivity. Qed.

Lemma declared_is_removed (declared : value) (x : string) :
  In x (Weeutil.option_as_list declared) -> not_in_declared declared x = false.
Proof.
  destruct declared as [d|d]; simpl.
  - intros [<-|[]]. now rewrite contains_refl.
  - intros H. apply negb_false_iff, existsb_exists. exists x. split; [exact H|apply String.eqb_refl].
Qed.

Lemma filter_extended (declared : value) (l a : list string) :
  (forall x, In x l -> not_in_declared declared x = true) ->
  (forall x, In x a -> In x (Weeutil.option_as_list declared)) ->
  List.filter (not_in_declared declared) (l ++ a) = l.
Proof.
  intros Hl Ha. rewrite List.filter_app.
  replace (List.filter (not_in_declared declared) a) with (@nil string).
  - rewrite app_nil_r. induction l as [|x r IH]; simpl; [reflexivity|].
    rewrite Hl by now left. f_equal. apply IH. intros y Hy. apply Hl. now right.
  - symmetry. induction a as [|x r IH]; simpl; [reflexivity|].
    rewrite declared_is_removed by (apply Ha; now left). apply IH.
    intros y Hy. apply Ha. now right.
Qed.


Lemma same_fs_refl (s : state) : same_fs s s.
Proof. repeat split. Qed.

Lemma same_fs_trans (a b c : state) : same_fs a b -> same_fs b c -> same_fs a c.
Proof. unfold same_fs. intuition congruence. Qed.

Lemma register_services_effect (G : list string) (e : engine) (i : installer)
    (c0 : section) (g : string) (declared : value) (l : list string) :
  dry_run e = false -> In g G ->
  Sec.lookup g (i_groups i) = Some declared ->
  lookup_path ["Engine"; "Services"; g] (Section c0) = Some (Scalar (VList l)) ->
  forall (svcs a : list string) (sv : bool) (ovs : list (string * cfg))
         (s s' : state) (locals' : svc_container * bool),
    (forall x, In x svcs -> In x (Weeutil.option_as_list declared)) ->
    (forall x, In x a -> In x (Weeutil.option_as_list declared)) ->
    services_assigned c0 ovs (config_dict s) ->
    assignments_extend G i c0 ovs ->
    for_fold svcs (AsList (l ++ a), sv) (register_service e g) s = (Ok locals', s') ->
    same_fs s s'
    /\ exists ovs', services_assigned c0 ovs' (config_dict s')
                    /\ assignments_extend G i c0 ovs'.
Proof.
  intros Hdry HG Hd Hl. induction svcs as [|svc r IH];
    intros a sv ovs s s' locals' Hsv Ha Hinv Hgood H; simpl in H.
  - injection H as _ <-. split; [apply same_fs_refl|eauto].
  - apply bind_ok in H as (locals1 & s1 & H1 & H).
    unfold register_service in H1. cbn [fst] in H1.
    destruct (svc_in svc (AsList (l ++ a))).
    + injection H1 as <- <-. eapply IH; eauto. intros x Hx. apply Hsv. now right.
    + rewrite Hdry in H1.
      apply bind_ok in H1 as (loc & s2 & H2 & H1).
      apply bind_ok in H2 as ([] & s3 & H3 & H2). injection H3 as <-.
      injection H2 as <- <-.
      apply bind_ok in H1 as ([] & s4 & H4 & H1). injection H4 as <-.
      injection H1 as <- <-.
      rewrite <- app_assoc in H.
      eapply IH in H.
      * destruct H as [Hfs Hex]. split; [|exact Hex].
        eapply same_fs_trans; [|exact Hfs]. repeat split.
      * intros x Hx. apply Hsv. now right.
      * intros x Hx. apply in_app_or in Hx as [Hx|[<-|[]]]; [auto|]. apply Hsv. now left.
      * simpl. apply lookup_services in Hl as (eb & sb0 & Hs & Hg).
        unfold services_assigned in *. rewrite Hs in *. rewrite Hinv.
        erewrite write_with_services by exact Hs.
        instantiate (1 := (g, Scalar (VList (l ++ a ++ [svc]))) :: ovs). reflexivity.
      * intros g' c' [[= <- <-]|Hin]; [|now apply Hgood].
        split; [exact HG|]. exists declared, l, (a ++ [svc])%list.
        repeat split; try assumption.
        intros x Hx. apply in_app_or in Hx as [Hx|[<-|[]]]; [auto|]. apply Hsv. now left.
Qed.

Lemma register_group_effect (G : list string) (e : engine) (i : installer)
    (c0 : section) (g : string) (sv b : bool) (ovs : list (string * cfg)) (s s' : state) :
  dry_run e = false -> In g G ->
  services_untouched G i c0 ->
  services_assigned c0 ovs (config_dict s) ->
  assignments_extend G i c0 ovs ->
  register_group e i sv g s = (Ok b, s') ->
  same_fs s s'
  /\ exists ovs', services_assigned c0 ovs' (config_dict s')
                  /\ assignments_extend G i c0 ovs'.
Proof.
  intros Hdry HG Hs Hinv Hgood H. unfold register_group in H.
  destruct (Sec.lookup g (i_groups i)) as [declared|] eqn:Ed.
  2:{ injection H as _ <-. split; [apply same_fs_refl|eauto]. }
  destruct (Hs g declared HG Ed) as (l & Hl & Hnid).
  apply bind_ok in H as (live & s1 & Hr & H).
  apply read_service_group_ok in Hr as [-> Hlive].
  apply bind_ok in H as (locals & s2 & Hf & H). injection H as _ <-.
  destruct (read_assigned _ _ _ _ _ Hinv Hlive) as (eb & sb0 & Hso & Hc & Hval).
  assert (Hcur : exists a, live = Scalar (VList (l ++ a))
                           /\ forall x, In x a -> In x (Weeutil.option_as_list declared)).
  { destruct (Sec.lookup g ovs) as [y|] eqn:Eo.
    - injection Hval as ->. apply lookup_in, list_elem_of_In in Eo.
      destruct (Hgood _ _ Eo) as [_ (d' & l' & a & Hd' & Hl' & -> & Ha)].
      rewrite Hl in Hl'. injection Hl' as <-. rewrite Ed in Hd'. injection Hd' as <-.
      eauto.
    - exists []. rewrite app_nil_r. split; [|intros x []].
      apply lookup_services in Hl as (eb' & sb0' & Hso' & Hg).
      rewrite Hso in Hso'. injection Hso' as <- <-. congruence. }
  destruct Hcur as (a & -> & Ha). simpl live_as_list in Hf.
  exact (register_services_effect G e i c0 g declared l Hdry HG Ed Hl
           (Weeutil.option_as_list declared) a sv ovs s s2 locals
           (fun x H => H) Ha Hinv Hgood Hf).
Qed.

Lemma register_pass_effect (G : list string) (e : engine) (i : installer) (c0 : section) :
  dry_run e = false -> services_untouched G i c0 ->
  forall (gs : list string) (sv b : bool) (ovs : list (string * cfg)) (s s' : state),
    (forall g, In g gs -> In g G) ->
    services_assigned c0 ovs (config_dict s) ->
    assignments_extend G i c0 ovs ->
    for_fold gs sv (register_group e i) s = (Ok b, s') ->
    same_fs s s'
    /\ exists ovs', services_assigned c0 ovs' (config_dict s')
                    /\ assignments_extend G i c0 ovs'.
Proof.
  intros Hdry Hs. induction gs as [|g r IH]; intros sv b ovs s s' Hin Hinv Hgood H; simpl in H.
  - injection H as _ <-. split; [apply same_fs_refl|eauto].
  - apply bind_ok in H as (sv1 & s1 & H1 & H).
    eapply register_group_effect in H1 as [Hfs (ovs1 & Hinv1 & Hgood1)]; eauto;
      [|apply Hin; now left].
    eapply IH in H as [Hfs' Hex]; eauto; [|intros; apply Hin; now right].
    split; [eapply same_fs_trans; eauto|exact Hex].
Qed.

Lemma unregister_group_effect (e : engine) (i : installer) (c0 : section)
    (G R : list string) (g : string) (sv b : bool) (ovs : list (string * cfg)) (s s' : state) :
  dry_run e = false -> In g G ->
  services_untouched G i c0 ->
  services_assigned c0 ovs (config_dict s) ->
  assignments_restore (g :: R) i c0 ovs ->
  unregister_group e i sv g s = (Ok b, s') ->
  same_fs s s'
  /\ exists ovs', services_assigned c0 ovs' (config_dict s')
                  /\ assignments_restore R i c0 ovs'.
Proof.
  intros Hdry HG Hs Hinv Hgood H. unfold unregister_group in H.
  destruct (Sec.lookup g (i_groups i)) as [declared|] eqn:Ed.
  2:{ injection H as _ <-. split; [apply same_fs_refl|]. exists ovs. split; [exact Hinv|].
      intros k c Hk. destruct (Hgood k c Hk) as [H1|[[<-|Hin] H2]]; auto.
      destruct H2 as (d & ? & ? & Hd & _). congruence. }
  destruct (Hs g declared HG Ed) as (l & Hl & Hnid).
  apply bind_ok in H as (live & s1 & Hr & H).
  apply read_service_group_ok in Hr as [-> Hlive]. rewrite Hdry in H.
  apply bind_ok in H as ([] & s2 & Hm & H). injection Hm as <-. injection H as _ <-.
  destruct (read_assigned _ _ _ _ _ Hinv Hlive) as (eb & sb0 & Hso & Hc & Hval).
  assert (Hcur : exists a, live = Scalar (VList (l ++ a))
                           /\ forall x, In x a -> In x (Weeutil.option_as_list declared)).
  { destruct (Sec.lookup g ovs) as [y|] eqn:Eo.
    - injection Hval as ->.
      destruct (Hgood _ _ Eo) as [H1|[_ (d' & l' & a & Hd' & Hl' & -> & Ha)]].
      + rewrite Hl in H1. injection H1 as <-. exists []. rewrite app_nil_r.
        split; [reflexivity|intros x []].
      + rewrite Hl in Hl'. injection Hl' as <-. rewrite Ed in Hd'. injection Hd' as <-.
        eauto.
    - exists []. rewrite app_nil_r. split; [|intros x []].
      apply lookup_services in Hl as (eb' & sb0' & Hso' & Hg).
      rewrite Hso in Hso'. injection Hso' as <- <-. congruence. }
  destruct Hcur as (a & -> & Ha).
  split; [repeat split|].
  exists ((g, Scalar (VList l)) :: ovs). split.
  - simpl. unfold services_assigned in *. rewrite Hso in *. rewrite Hc.
    erewrite write_with_services by exact Hso. simpl.
    now rewrite (filter_extended declared l a Hnid Ha).
  - intros k c Hk. simpl in Hk. destruct (String.eqb g k) eqn:E.
    + apply String.eqb_eq in E. subst k. injection Hk as <-. now left.
    + destruct (Hgood k c Hk) as [H1|[[<-|Hin] H2]]; auto.
      rewrite String.eqb_refl in E. discriminate.
Qed.

Lemma unregister_pass_effect (G : list string) (e : engine) (i : installer) (c0 : section) :
  dry_run e = false -> services_untouched G i c0 ->
  forall (gs : list string) (sv b : bool) (ovs : list (string * cfg)) (s s' : state),
    (forall g, In g gs -> In g G) ->
    services_assigned c0 ovs (config_dict s) ->
    assignments_restore gs i c0 ovs ->
    for_fold gs sv (unregister_group e i) s = (Ok b, s') ->
    same_fs s s' /\ config_dict s' = c0.
Proof.
  intros Hdry Hs. induction gs as [|g r IH]; intros sv b ovs s s' Hin Hinv Hgood H; simpl in H.
  - injection H as _ <-. split; [apply same_fs_refl|].
    unfold services_assigned in Hinv.
    destruct (services_of c0) as [[eb sb0]|] eqn:E; [|tauto].
    rewrite Hinv. rewrite (assigned_restored (List.length ovs)); [|lia|].
    + now apply with_services_same.
    + intros k c Hk. destruct (Hgood k c Hk) as [H1|[[] _]].
      apply lookup_services in H1 as (? & ? & Hso & Hg). congruence.
  - apply bind_ok in H as (sv1 & s1 & H1 & H).
    eapply unregister_group_effect in H1 as [Hfs (ovs1 & Hinv1 & Hgood1)]; eauto;
      [|apply Hin; now left].
    eapply IH in H as [Hfs' Hc]; eauto; [|intros; apply Hin; now right].
    split; [eapply same_fs_trans; eauto|exact Hc].
Qed.

(** The two passes over the service groups, one after the other, give the
    configuration back. *)
Lemma services_round_trip (e : engine) (i : installer) (c0 : section)
    (sv sv' b b' : bool) (s s1 s1' s2 : state) :
  dry_run e = false ->
  services_untouched (all_service_groups e) i c0 ->
  config_dict s = c0 ->
  for_fold (all_service_groups e) sv (register_group e i) s = (Ok b, s1) ->
  config_dict s1' = config_dict s1 ->
  for_fold (all_service_groups e) sv' (unregister_group e i) s1' = (Ok b', s2) ->
  same_fs s s1 /\ same_fs s1' s2 /\ config_dict s2 = c0.
Proof.
  intros Hdry Hs Hc H1 Hc1 H2.
  eapply (register_pass_effect (all_service_groups e) e i c0 Hdry Hs) with (ovs := [])
    in H1 as [Hfs (ovs & Hinv & Hgood)]; auto.
  - eapply (unregister_pass_effect (all_service_groups e) e i c0 Hdry Hs) with (ovs := ovs)
      in H2 as [Hfs2 Hc2]; auto.
    + now rewrite Hc1.
    + intros k c Hk. right. apply lookup_in, list_elem_of_In in Hk. now apply Hgood.
  - unfold services_assigned. rewrite Hc.
    destruct (services_of c0) as [[eb sb0]|] eqn:E; [|auto].
    simpl. symmetry. now apply with_services_same.
  - intros g c [].
Qed.

(** *** The files *)

Lemma for_target_dirs_classify {A} (ks : list string) (st : source_tuple)
    (body : string -> M A) (s : state) :
  match classify ks (st_prefix st) with
  | Some root_type => for_target_dirs ks st body s = body root_type s
  | None => exists ex, for_target_dirs ks st body s = (Raise ex, s)
  end.
Proof.
  induction ks as [|d r IH]; simpl; [eauto|].
  destruct (negb _); [|exact IH].
  destruct (target_dirs !! _); [reflexivity|eauto].
Qed.

Lemma destination_dest_path (e : engine) (root_type f : string) (s : state) :
  match dest_path e root_type f with
  | Some d => destination e root_type (_strip_leading_dir f) s = (Ok d, s)
  | None => exists ex, destination e root_type (_strip_leading_dir f) s = (Raise ex, s)
  end.
Proof.
  unfold dest_path, destination, root. monad_unfold.
  destruct (root_dict e !! root_type); [|eauto].
  destruct (_strip_leading_dir f); eauto.
Qed.

Lemma in_destinations (e : engine) (i : installer) (l : list source_tuple)
    (st : source_tuple) (root_type f d : string) :
  i_files i = Some l -> In st l ->
  classify (target_order e) (st_prefix st) = Some root_type ->
  In f (st_files st) -> dest_path e root_type f = Some d ->
  In d (destinations e i).
Proof.
  intros Hl Hst Hc Hf Hd. unfold destinations. rewrite Hl. simpl.
  apply in_flat_map. exists st. split; [exact Hst|].
  unfold tuple_destinations. rewrite Hc.
  apply list_elem_of_In, list_elem_of_omap. exists f. split; [now apply list_elem_of_In|exact Hd].
Qed.

Lemma same_at_refl (s : state) (p : string) : same_at s s p.
Proof. split; reflexivity. Qed.

Lemma same_at_trans (a b c : state) (p : string) :
  same_at a b p -> same_at b c p -> same_at a c p.
Proof. unfold same_at. intros [? ?] [? ?]. split; congruence. Qed.

Lemma same_at_is_file (s s' : state) (p : string) :
  same_at s s' p -> Fs.is_file s' p = Fs.is_file s p.
Proof. intros [H1 H2]. unfold Fs.is_file. now rewrite H1, H2. Qed.

Lemma same_at_absent (s s' : state) (p : string) :
  Fs.is_file s p = false -> Fs.is_file s' p = false -> same_at s s' p.
Proof.
  intros H1 H2. apply is_file_absent in H1 as [? ?], H2 as [? ?]. split; congruence.
Qed.

Lemma copied_into_refl (e : engine) (K : list string) (s : state) : copied_into e K s s.
Proof. repeat split; [set_solver|]. left. intros p. left. apply same_at_refl. Qed.

Lemma copied_into_trans (e : engine) (K : list string) (a b c : state) :
  copied_into e K a b -> copied_into e K b c -> copied_into e K a c.
Proof.
  intros (H1 & H3 & H4) (G1 & G3 & G4).
  split; [congruence|]. split; [set_solver|].
  destruct G4 as [G4|G4]; [|now right].
  destruct H4 as [H4|(d & Hd & Hin)]; [|right; exists d; split; [exact Hd|set_solver]].
  left. intros p. destruct (G4 p) as [Hg|?]; [|now right].
  destruct (H4 p) as [Hh|?]; [left; eapply same_at_trans; eauto|now right].
Qed.

Lemma copied_into_log (e : engine) (K : list string) (s : state) (msg : string) (lvl : nat) :
  copied_into e K s (snd (logger_log msg lvl s)).
Proof. repeat split; [set_solver|]. left. intros p. left. split; reflexivity. Qed.

Lemma makedirs_copied (e : engine) (K : list string) (p : string) :
  respects (copied_into e K) (Fs.makedirs e p).
Proof.
  intros s. unfold Fs.makedirs. monad_unfold.
  destruct (_ || _); [apply copied_into_refl|].
  destruct (existsb _ _); [apply copied_into_refl|].
  simpl. repeat split; [set_solver|]. left. intros q. left. split; reflexivity.
Qed.

Lemma copy_copied (e : engine) (K : list string) (src d : string) :
  In d K -> respects (copied_into e K) (Fs.copy e src d).
Proof.
  intros Hd s. destruct (copy_cases e src d s) as [[ex ->]|(x & -> & _ & _ & _)];
    [apply copied_into_refl|].
  cbn [snd]. destruct (write_rest (if Fs.is_dir s (Fs.resolve e d)
                                   then OsPath.join (Fs.resolve e d)
                                          (Fs.basename (Fs.resolve e src))
                                   else Fs.resolve e d) x s) as (Wd & Wc & _).
  split; [exact Wc|]. split; [rewrite Wd; set_solver|].
  destruct (Fs.is_dir s (Fs.resolve e d)) eqn:E.
  - right. exists d. split; [exact Hd|]. rewrite Wd. unfold Fs.is_dir in E.
    now apply bool_decide_eq_true in E.
  - left. intros p. destruct (decide (p = Fs.resolve e d)) as [->|Hne].
    + right. eauto.
    + left. now apply write_other.
Qed.

Lemma respects_for_fold_in {A B} (R : state -> state -> Prop)
    (R_refl : forall s, R s s) (R_trans : forall a b c, R a b -> R b c -> R a c)
    (l : list A) (acc : B) (body : B -> A -> M B) :
  (forall acc x, In x l -> respects R (body acc x)) -> respects R (for_fold l acc body).
Proof.
  revert acc. induction l as [|x r IH]; intros acc Hb; simpl; [now apply respects_ret|].
  apply (respects_bind _ R_trans); [apply Hb; now left|].
  intros acc'. apply IH. intros a y Hy. apply Hb. now right.
Qed.

Lemma install_file_step_copied (e : engine) (K : list string) (dir root_type : string)
    (N : nat) (f : string) :
  (forall d, dest_path e root_type f = Some d -> In d K) ->
  respects (copied_into e K) (install_file_step e dir root_type N f).
Proof.
  intros HK. unfold install_file_step.
  intros s. unfold mbind at 1, M_bind at 1.
  pose proof (destination_dest_path e root_type f s) as Hd.
  destruct (dest_path e root_type f) as [d|].
  - rewrite Hd. specialize (HK d eq_refl).
    assert (Hr : respects (copied_into e K)
              (logger_log ("Copying from '" ++ OsPath.join dir f ++ "' to '" ++ d ++ "'") 3 ;;
               (if dry_run e then mret N
                else try_except (Fs.makedirs e (OsPath.dirname d)) is_OSError
                       (fun _ => mret tt) ;; Fs.copy e (OsPath.join dir f) d ;; mret (S N)))).
    { apply (respects_bind _ (copied_into_trans e K));
        [apply (respects_log _ (copied_into_log e K))|intros _].
      destruct (dry_run e); [apply (respects_ret _ (copied_into_refl e K))|].
      apply (respects_bind _ (copied_into_trans e K)).
      - apply (respects_try_except _ (copied_into_trans e K)); [apply makedirs_copied|].
        intros ?. apply (respects_ret _ (copied_into_refl e K)).
      - intros _. apply (respects_bind _ (copied_into_trans e K)); [now apply copy_copied|].
        intros _. apply (respects_ret _ (copied_into_refl e K)). }
    apply Hr.
  - destruct Hd as [ex ->]. apply copied_into_refl.
Qed.

Lemma respects_for_target_dirs_classified {A} (R : state -> state -> Prop)
    (R_refl : forall s, R s s) (ks : list string) (st : source_tuple) (body : string -> M A) :
  (forall root_type, classify ks (st_prefix st) = Some root_type -> respects R (body root_type)) ->
  respects R (for_target_dirs ks st body).
Proof.
  intros Hb s. pose proof (for_target_dirs_classify ks st body s) as H.
  destruct (classify ks (st_prefix st)) as [rt|].
  - rewrite H. now apply Hb.
  - destruct H as [ex ->]. apply R_refl.
Qed.

Lemma copy_files_copied (e : engine) (dir : string) (i : installer) :
  respects (copied_into e (destinations e i)) (copy_files e dir i).
Proof.
  unfold copy_files. intros s. unfold mbind, M_bind, installer_files.
  destruct (i_files i) as [l|] eqn:El; [|apply copied_into_refl].
  simpl.
  apply (respects_for_fold_in _ (copied_into_refl e _) (copied_into_trans e _)).
  intros N st Hst.
  apply (respects_for_target_dirs_classified _ (copied_into_refl e _)). intros rt Hc.
  apply (respects_for_fold_in _ (copied_into_refl e _) (copied_into_trans e _)).
  intros N' f Hf. apply install_file_step_copied.
  intros d Hd. eapply in_destinations; eauto.
Qed.

Lemma deleted_within_refl (W D : string -> Prop) (s : state) : deleted_within W D s s.
Proof.
  split; [reflexivity|]. split; [intros p; left; apply same_at_refl|]. split; auto.
Qed.

Lemma deleted_within_trans (W D : string -> Prop) (a b c : state) :
  deleted_within W D a b -> deleted_within W D b c -> deleted_within W D a c.
Proof.
  intros (H1 & H2 & H3 & H4) (G1 & G2 & G3 & G4).
  split; [congruence|]. split; [|split].
  - intros p. destruct (G2 p) as [Hg|Hg]; [|now right].
    destruct (H2 p) as [Hh|[Hh Hw]]; [left; eapply same_at_trans; eauto|].
    right. split; [|exact Hw]. now rewrite (same_at_is_file _ _ _ Hg).
  - auto.
  - intros x Hx. destruct (H4 x Hx) as [Hb|?]; [|now right]. now apply G4.
Qed.

Lemma deleted_within_weaken (W W' D D' : string -> Prop) (s s' : state) :
  (forall p, W p -> W' p) -> (forall c, D c -> D' c) ->
  deleted_within W D s s' -> deleted_within W' D' s s'.
Proof.
  intros HW HD (H1 & H2 & H3 & H4). split; [exact H1|]. split; [|split; [exact H3|]].
  - intros p. destruct (H2 p) as [?|[? ?]]; auto.
  - intros c Hc. destruct (H4 c Hc); auto.
Qed.

(** A real [delete_file] returns, with the regular file at the path gone
    and nothing else touched; it counts the file when there was one. *)
Lemma delete_file_effect (e : engine) (f : string) (r : bool) (s : state) :
  dry_run e = false ->
  exists s', delete_file e f r s
             = (Ok (if Fs.is_file s (Fs.resolve e f) then 1%nat else 0%nat), s')
    /\ files s' = delete (Fs.resolve e f) (files s)
    /\ tarballs s' = delete (Fs.resolve e f) (tarballs s)
    /\ dirs s' = dirs s /\ config_dict s' = config_dict s.
Proof.
  intros Hdry. unfold delete_file. rewrite Hdry.
  unfold try_except, mbind, M_bind. unfold logger_log at 1.
  set (s1 := State _ _ _ _ _).
  assert (Hf : Fs.is_file s1 (Fs.resolve e f) = Fs.is_file s (Fs.resolve e f)) by reflexivity.
  destruct (remove_cases e f s1) as [[Hn (msg & ->)]|[Hy ->]]; rewrite <- Hf.
  - rewrite Hn. apply is_file_absent in Hn as [F T]. cbn [is_OSError].
    destruct r; unfold logger_log, mret, M_ret; cbn;
      (eexists; split; [reflexivity|]); cbn;
      (split; [now rewrite delete_id|split; [now rewrite delete_id|split; reflexivity]]).
  - rewrite Hy. unfold mret, M_ret. cbn. eexists. split; [reflexivity|]. repeat split.
Qed.


Lemma filter_under_lookup {A} (m : gmap string A) (q p : string) :
  filter (fun kv => ¬ Is_true (Fs.under q kv.1)) m !! p
  = if Fs.under q p then None else m !! p.
Proof.
  destruct (Fs.under q p) eqn:Eu.
  - apply map_lookup_filter_None. right. intros x _ Hn. apply Hn. cbn. rewrite Eu. exact I.
  - rewrite map_lookup_filter. destruct (m !! p) as [c|]; [|reflexivity].
    cbn. rewrite option_guard_True; [reflexivity|]. cbn. rewrite Eu. auto.
Qed.

Lemma filter_under_dirs (d : gset string) (q p : string) :
  p ∈ filter (fun p => ¬ Is_true (Fs.under q p)) d <-> p ∈ d /\ Fs.under q p = false.
Proof.
  rewrite elem_of_filter. destruct (Fs.under q p); simpl; split.
  - intros [H _]. exfalso. apply H. exact I.
  - intros [_ H]. discriminate.
  - intros [_ H]. auto.
  - intros [H _]. split; [intros []|exact H].
Qed.

(** What [shutil.rmtree] does when it is given a directory. *)
Lemma rmtree_dir (e : engine) (d : string) (ig : bool) (s : state) :
  Fs.is_dir s (Fs.resolve e d) = true ->
  exists s', Fs.rmtree e d ig s = (Ok tt, s')
    /\ config_dict s' = config_dict s /\ log s' = log s
    /\ (forall p, if Fs.under (Fs.resolve e d) p
                  then Fs.is_file s' p = false else same_at s s' p)
    /\ (forall c, c ∈ dirs s' <-> c ∈ dirs s /\ Fs.under (Fs.resolve e d) c = false).
Proof.
  intros Hd. unfold Fs.rmtree. unfold mbind, M_bind, get, put. rewrite Hd.
  eexists. split; [reflexivity|]. split; [reflexivity|]. split; [reflexivity|]. split.
  - intros p. cbn [files tarballs].
    destruct (Fs.under (Fs.resolve e d) p) eqn:Eu.
    + apply is_file_absent. cbn [files tarballs]. rewrite !filter_under_lookup, Eu. auto.
    + split; cbn [files tarballs]; now rewrite filter_under_lookup, Eu.
  - intros c. cbn [dirs]. apply filter_under_dirs.
Qed.

(** The two ways of [delete_directory]: nothing but the log changes, or
    the directory had no entry and is removed with what lies under it. *)
Lemma delete_directory_cases (e : engine) (d : string) (r : bool) (s : state) :
  exists s', delete_directory e d r s = (Ok tt, s')
    /\ config_dict s' = config_dict s
    /\ (same_fs s s'
        \/ (existsb (Fs.child_of (Fs.resolve e d))
                    (elements (dom (files s) ∪ dom (tarballs s) ∪ dirs s)) = false
            /\ (forall p, if Fs.under (Fs.resolve e d) p
                          then Fs.is_file s' p = false else same_at s s' p)
            /\ (forall c, c ∈ dirs s' <-> c ∈ dirs s /\ Fs.under (Fs.resolve e d) c = false))).
Proof.
  unfold delete_directory, Fs.listdir_nonempty. unfold try_except, mbind, M_bind, get.
  destruct (Fs.is_dir s (Fs.resolve e d)) eqn:Ed.
  - unfold mret at 1, M_ret at 1.
    destruct (existsb _ _) eqn:Ex.
    + eexists. split; [reflexivity|]. split; [reflexivity|]. left. repeat split.
    + unfold logger_log at 1. destruct (dry_run e).
      * eexists. split; [reflexivity|]. split; [reflexivity|]. left. repeat split.
      * set (s1 := State _ _ _ _ _).
        destruct (rmtree_dir e d false s1 Ed) as (s' & -> & Hc & _ & Hf & Hdr).
        exists s'. split; [reflexivity|]. split; [exact Hc|]. right.
        split; [reflexivity|]. split; [exact Hf|exact Hdr].
  - unfold raise. cbn [is_OSError].
    destruct r; (eexists; split; [reflexivity|]); (split; [reflexivity|]); left; repeat split.
Qed.

Lemma for_fold_all {A B} (R : state -> state -> Prop) (Good : A -> state -> Prop)
    (R_refl : forall s, R s s) (R_trans : forall a b c, R a b -> R b c -> R a c)
    (l : list A) (body : B -> A -> M B) :
  (forall acc x s acc' s', In x l -> body acc x s = (Ok acc', s') -> R s s' /\ Good x s') ->
  (forall x s s', Good x s -> R s s' -> Good x s') ->
  forall acc s acc' s', for_fold l acc body s = (Ok acc', s') ->
    R s s' /\ forall x, In x l -> Good x s'.
Proof.
  intros Hb Hst. induction l as [|x r IH]; intros acc s acc' s' H; simpl in H.
  - injection H as <- <-. split; [apply R_refl|intros ? []].
  - apply bind_ok in H as (a & s1 & H1 & H2).
    apply Hb in H1 as [HR HG]; [|now left].
    apply IH in H2 as [HR2 HG2]; [|intros; eapply Hb; eauto; now right].
    split; [eapply R_trans; eauto|].
    intros y [<-|Hy]; [eapply Hst; eauto|now apply HG2].
Qed.

Lemma for_fold_inv {A B} (I : state -> Prop) (l : list A) (body : B -> A -> M B) :
  (forall acc x s acc' s', In x l -> body acc x s = (Ok acc', s') -> I s -> I s') ->
  forall acc s acc' s', for_fold l acc body s = (Ok acc', s') -> I s -> I s'.
Proof.
  intros Hb. induction l as [|x r IH]; intros acc s acc' s' H Hi; simpl in H.
  - now injection H as _ <-.
  - apply bind_ok in H as (a & s1 & H1 & H2).
    eapply IH; [intros; eapply Hb; eauto; now right|exact H2|].
    eapply Hb; eauto. now left.
Qed.

Lemma delete_file_deleted (e : engine) (f : string) (r : bool) (n : nat) (s s' : state)
    (W D : string -> Prop) :
  dry_run e = false -> W (Fs.resolve e f) ->
  delete_file e f r s = (Ok n, s') ->
  deleted_within W D s s' /\ Fs.is_file s' (Fs.resolve e f) = false.
Proof.
  intros Hdry HW H. destruct (delete_file_effect e f r s Hdry) as (s1 & E & F & T & Dr & C).
  rewrite E in H. injection H as _ <-.
  assert (Hgone : Fs.is_file s1 (Fs.resolve e f) = false).
  { apply is_file_absent. rewrite F, T. split; apply lookup_delete_eq. }
  split; [|exact Hgone].
  split; [exact C|]. split; [|rewrite Dr; split; auto].
  intros p. destruct (decide (p = Fs.resolve e f)) as [->|Hne]; [right; auto|left].
  split; [rewrite F|rewrite T]; now apply fin_maps.lookup_delete_ne.
Qed.

Lemma uninstall_file_step_effect (e : engine) (root_type : string) (N N' : nat)
    (f : string) (s s' : state) :
  dry_run e = false ->
  uninstall_file_step e root_type N f s = (Ok N', s') ->
  exists d, dest_path e root_type f = Some d
    /\ Fs.is_file s' (Fs.resolve e d) = false
    /\ deleted_within (fun p => exists x, In x (deletions_of d) /\ p = Fs.resolve e x)
                      (fun _ => False) s s'.
Proof.
  intros Hdry H. unfold uninstall_file_step in H.
  apply bind_ok in H as (d & s1 & Hd & H).
  pose proof (destination_dest_path e root_type f s) as Hp.
  destruct (dest_path e root_type f) as [d'|]; [|destruct Hp as [ex Hp]; congruence].
  rewrite Hp in Hd. injection Hd as <- <-. exists d'. split; [reflexivity|].
  set (W := fun p => exists x, In x (deletions_of d') /\ p = Fs.resolve e x).
  apply bind_ok in H as (n1 & s2 & H1 & H).
  apply (delete_file_deleted e d' true n1 s s2 W (fun _ => False) Hdry) in H1 as [R1 A1];
    [|exists d'; split; [now left|reflexivity]].
  unfold deletions_of in W.
  destruct (PyStr.endswith ".py" d') eqn:Epy.
  - apply bind_ok in H as (n2 & s3 & H2 & H).
    apply (delete_file_deleted e _ false n2 s2 s3 W (fun _ => False) Hdry) in H2 as [R2 _];
      [|eexists; split; [right; left; reflexivity|reflexivity]].
    apply bind_ok in H as (n3 & s4 & H3 & H).
    apply (delete_file_deleted e _ false n3 s3 s4 W (fun _ => False) Hdry) in H3 as [R3 _];
      [|eexists; split; [right; right; left; reflexivity|reflexivity]].
    injection H as _ <-.
    assert (R : deleted_within W (fun _ => False) s2 s4)
      by (eapply deleted_within_trans; eassumption).
    split.
    + destruct R as (_ & R & _). destruct (R (Fs.resolve e d')) as [Hq|[Hq _]]; [|exact Hq].
      now rewrite (same_at_is_file _ _ _ Hq).
    + eapply deleted_within_trans; [exact R1|exact R].
  - injection H as _ <-. split; [exact A1|exact R1].
Qed.

Lemma in_skin_directories (e : engine) (i : installer) (l : list source_tuple)
    (st : source_tuple) (d : string) :
  i_files i = Some l -> In st l ->
  classify (target_order e) (st_prefix st) = Some "SKIN_ROOT" ->
  dest_path e "SKIN_ROOT" (st_prefix st) = Some d ->
  In d (skin_directories e i).
Proof.
  intros Hl Hst Hc Hd. unfold skin_directories. rewrite Hl. simpl.
  apply in_flat_map. exists st. split; [exact Hst|].
  rewrite Hc. simpl. rewrite Hd. now left.
Qed.

Lemma deleted_keeps_gone (W D : string -> Prop) (s s' : state) (p : string) :
  deleted_within W D s s' -> Fs.is_file s p = false -> Fs.is_file s' p = false.
Proof.
  intros (_ & H & _) Hp. destruct (H p) as [Hq|[Hq _]]; [|exact Hq].
  now rewrite (same_at_is_file _ _ _ Hq).
Qed.

(** The turn of [uninstall_files] for one source tuple, as the loop over
    [target_dirs] leaves it. *)
Lemma uninstall_tuple (e : engine) (st : source_tuple) (N N' : nat) (t t' : state) :
  for_target_dirs (target_order e) st (fun root_type =>
    N' ← for_fold (st_files st) N (uninstall_file_step e root_type);
    (if String.eqb root_type "SKIN_ROOT"
     then directory ← destination e root_type (_strip_leading_dir (st_prefix st));
          delete_directory e directory true
     else mret tt) ;; mret N') t = (Ok N', t') ->
  exists rt N1 t1,
    classify (target_order e) (st_prefix st) = Some rt
    /\ for_fold (st_files st) N (uninstall_file_step e rt) t = (Ok N1, t1)
    /\ ((rt <> "SKIN_ROOT" /\ t' = t1)
        \/ (rt = "SKIN_ROOT"
            /\ exists q, dest_path e "SKIN_ROOT" (st_prefix st) = Some q
                         /\ delete_directory e q true t1 = (Ok tt, t'))).
Proof.
  intros H.
  pose proof (for_target_dirs_classify (target_order e) st
                (fun root_type =>
                   N' ← for_fold (st_files st) N (uninstall_file_step e root_type);
                   (if String.eqb root_type "SKIN_ROOT"
                    then directory ← destination e root_type (_strip_leading_dir (st_prefix st));
                         delete_directory e directory true
                    else mret tt) ;; mret N') t) as Hc.
  destruct (classify (target_order e) (st_prefix st)) as [rt|];
    [|destruct Hc as [ex Hc]; congruence].
  rewrite Hc in H. clear Hc.
  apply bind_ok in H as (N1 & t1 & Hf & H).
  apply bind_ok in H as ([] & t2 & Hd & H). injection H as _ <-.
  exists rt, N1, t1. split; [reflexivity|]. split; [exact Hf|].
  destruct (String.eqb rt "SKIN_ROOT") eqn:Es.
  - apply String.eqb_eq in Es. subst rt. right. split; [reflexivity|].
    apply bind_ok in Hd as (q & t1' & Hq & Hd).
    pose proof (destination_dest_path e "SKIN_ROOT" (st_prefix st) t1) as Hp.
    destruct (dest_path e "SKIN_ROOT" (st_prefix st)) as [q'|];
      [|destruct Hp as [ex Hp]; congruence].
    rewrite Hp in Hq. injection Hq as <- <-. eauto.
  - left. split; [intros ->; discriminate|]. now injection Hd as <-.
Qed.

(** A real [uninstall_files] that returns has deleted every destination of
    the manifest's files, has removed no regular file outside [may_delete]
    and no directory outside the directories of the manifest's skins, and
    has left the configuration alone. *)
Lemma uninstall_files_effect (e : engine) (i : installer) (s s' : state) :
  dry_run e = false ->
  uninstall_files e i s = (Ok tt, s') ->
  deleted_within (may_delete e i) (in_skin_directory e i) s s'
  /\ forall d, In d (destinations e i) -> Fs.is_file s' (Fs.resolve e d) = false.
Proof.
  intros Hdry H. unfold uninstall_files in H.
  apply bind_ok in H as ([] & s1 & H1 & H).
  apply bind_ok in H as (l & s2 & H2 & H).
  unfold installer_files in H2. destruct (i_files i) as [l'|] eqn:El; [|discriminate].
  injection H2 as <- <-.
  apply bind_ok in H as (N & s3 & H3 & H).
  set (R := deleted_within (may_delete e i) (in_skin_directory e i)).
  assert (HR1 : R s s1).
  { injection H1 as <-. split; [reflexivity|]. split; [intros p; left; split; reflexivity|].
    split; auto. }
  assert (HR3 : R s3 s').
  { injection H as <-. split; [reflexivity|]. split; [intros p; left; split; reflexivity|].
    split; auto. }
  pose (Good := fun (st : source_tuple) (t : state) =>
                  forall d, In d (tuple_destinations e st) ->
                            Fs.is_file t (Fs.resolve e d) = false).
  apply (for_fold_all R Good (deleted_within_refl _ _) (deleted_within_trans _ _)) in H3
    as [HR2 HG].
  - split.
    + eapply deleted_within_trans; [exact HR1|]. eapply deleted_within_trans; eassumption.
    + intros d Hd. unfold destinations in Hd. rewrite El in Hd. simpl in Hd.
      apply in_flat_map in Hd as (st & Hst & Hd).
      specialize (HG st Hst d Hd). eapply deleted_keeps_gone; eauto.
  - clear H H3 HR3 s3 N. intros N st t N' t' Hst Hb.
    apply uninstall_tuple in Hb as (rt & N1 & t1 & Ec & Hf & Hd).
    unfold Good, tuple_destinations. rewrite Ec.
    apply (for_fold_all R
             (fun f u => forall d, dest_path e rt f = Some d ->
                                   Fs.is_file u (Fs.resolve e d) = false)
             (deleted_within_refl _ _) (deleted_within_trans _ _)) in Hf as [HRf HGf].
    + assert (HRd : R t1 t').
      { destruct Hd as [[_ ->]|(-> & q & Eq & Hd)]; [apply deleted_within_refl|].
        destruct (delete_directory_cases e q true t1) as (t2 & E & C & Hcase).
        rewrite E in Hd. injection Hd as <-.
        assert (Hq : In q (skin_directories e i)) by (eapply in_skin_directories; eauto).
        split; [exact C|].
        destruct Hcase as [(F1 & F2 & F3)|(_ & Hfl & Hdr)].
        - split; [intros p; left; split; congruence|]. rewrite F3. split; auto.
        - split; [|split].
          + intros p. specialize (Hfl p).
            destruct (Fs.under (Fs.resolve e q) p) eqn:Eu; [right|now left].
            split; [exact Hfl|]. right. exists q. split; [exact Hq|exact Eu].
          + intros c Hc. now apply Hdr in Hc as [? _].
          + intros c Hc. destruct (Fs.under (Fs.resolve e q) c) eqn:Eu.
            * right. exists q. split; [exact Hq|exact Eu].
            * left. apply Hdr. split; [exact Hc|exact Eu]. }
      split; [eapply deleted_within_trans; eassumption|].
      intros d Hd'. apply list_elem_of_In, list_elem_of_omap in Hd' as (f & Hf & Hd').
      apply list_elem_of_In in Hf.
      specialize (HGf f Hf d Hd'). eapply deleted_keeps_gone; eauto.
    + intros acc f u acc' u' Hf' Hstep.
      apply (uninstall_file_step_effect e rt _ _ _ _ _ Hdry) in Hstep as (d & Hd' & Habs & Hdel).
      split.
      * eapply deleted_within_weaken; [| |exact Hdel]; [|intros ? []].
        intros p (x & Hx & ->). left. exists d, x. split; [|now split].
        eapply in_destinations; eauto.
      * intros d' Hd''. rewrite Hd' in Hd''. now injection Hd'' as <-.
    + intros f u u' HG HRu d Hd'. eapply deleted_keeps_gone; eauto.
  - intros st u u' HG HRu d Hd. eapply deleted_keeps_gone; eauto.
Qed.

(** *** What a removal keeps *)

Lemma startswith_append (a r : string) : PyStr.startswith a (a ++ r) = true.
Proof.
  induction a as [|x a IH]; [reflexivity|].
  change (String x a ++ r) with (String x (a ++ r)). simpl. now rewrite Ascii.eqb_refl.
Qed.

Lemma startswith_split (a p : string) :
  PyStr.startswith a p = true -> exists r, p = a ++ r.
Proof.
  revert p. induction a as [|x a IH]; intros p H; [exists p; reflexivity|].
  destruct p as [|y p]; [discriminate|]. simpl in H.
  apply andb_true_iff in H as [Hxy H]. apply Ascii.eqb_eq in Hxy. subst y.
  destruct (IH p H) as [r ->]. exists r. reflexivity.
Qed.

Lemma append_cons (x : ascii) (a b : string) : String x a ++ b = String x (a ++ b).
Proof. reflexivity. Qed.

Lemma append_assoc (a b c : string) : (a ++ b) ++ c = a ++ (b ++ c).
Proof.
  induction a as [|x a IH]; [reflexivity|]. now rewrite !append_cons, IH.
Qed.

Lemma under_trans (a b c : string) :
  Fs.under a b = true -> Fs.under b c = true -> Fs.under a c = true.
Proof.
  unfold Fs.under. intros Hab Hbc.
  apply orb_true_iff in Hab as [Hab|Hab]; [apply String.eqb_eq in Hab; now subst|].
  apply orb_true_iff in Hbc as [Hbc|Hbc];
    [apply String.eqb_eq in Hbc; subst; rewrite Hab; apply orb_true_r|].
  apply orb_true_iff. right.
  apply startswith_split in Hab as [r ->]. apply startswith_split in Hbc as [r' ->].
  rewrite !append_assoc. rewrite <- (append_assoc a "/"). apply startswith_append.
Qed.

Lemma has_child (q c : string) (s : state) :
  Fs.child_of q c = true ->
  Fs.is_file s c = true \/ c ∈ dirs s ->
  existsb (Fs.child_of q) (elements (dom (files s) ∪ dom (tarballs s) ∪ dirs s)) = true.
Proof.
  intros Hc Hk. apply existsb_exists. exists c. split; [|exact Hc].
  apply list_elem_of_In, elem_of_elements. destruct Hk as [Hf|Hd]; [|set_solver].
  unfold Fs.is_file in Hf. apply orb_true_iff in Hf as [Hf|Hf];
    apply bool_decide_eq_true in Hf; apply elem_of_dom in Hf; set_solver.
Qed.

Lemma kept_delete_file (e : engine) (Keep : string -> Prop) (s0 : state)
    (f : string) (r : bool) (n : nat) (t t' : state) :
  dry_run e = false ->
  (forall p, Keep p -> p <> Fs.resolve e f) ->
  delete_file e f r t = (Ok n, t') -> kept Keep s0 t -> kept Keep s0 t'.
Proof.
  intros Hdry Hne H [K1 K2].
  destruct (delete_file_effect e f r t Hdry) as (t1 & E & F & T & D & _).
  rewrite E in H. injection H as _ <-. split.
  - intros p Hp. specialize (Hne p Hp). destruct (K1 p Hp) as [A B].
    split; [rewrite F|rewrite T]; rewrite fin_maps.lookup_delete_ne by congruence; assumption.
  - intros c p Hc Hp Hu. rewrite D. eauto.
Qed.

Lemma kept_delete_directory (e : engine) (Keep : string -> Prop) (s0 : state)
    (q : string) (r : bool) (t t' : state) :
  (forall p, Keep p -> Fs.is_file s0 p = true) ->
  anchored Keep s0 (Fs.resolve e q) ->
  delete_directory e q r t = (Ok tt, t') -> kept Keep s0 t -> kept Keep s0 t'.
Proof.
  intros Hfile Hanch H [K1 K2].
  destruct (delete_directory_cases e q r t) as (t1 & E & _ & Hcase).
  rewrite E in H. injection H as <-.
  destruct Hcase as [(F1 & F2 & F3)|(Hempty & Hfl & Hdr)].
  - split.
    + intros p Hp. destruct (K1 p Hp). split; congruence.
    + intros c p Hc Hp Hu. rewrite F3. eauto.
  - assert (Hout : forall p, Keep p -> Fs.under (Fs.resolve e q) p = false).
    { intros p Hp. destruct (Fs.under (Fs.resolve e q) p) eqn:Eu; [exfalso|reflexivity].
      assert (Hex : existsb (Fs.child_of (Fs.resolve e q))
                      (elements (dom (files t) ∪ dom (tarballs t) ∪ dirs t)) = true);
        [|congruence].
      destruct (Hanch p Hp Eu) as [Hc|(c & Hc & Hd & Hcu)].
      - apply (has_child _ p); [exact Hc|]. left.
        rewrite (same_at_is_file _ _ _ (K1 p Hp)). now apply Hfile.
      - apply (has_child _ c); [exact Hc|]. right. eapply K2; eauto. }
    split.
    + intros p Hp. specialize (Hfl p). rewrite (Hout p Hp) in Hfl.
      eapply same_at_trans; [apply K1; exact Hp|exact Hfl].
    + intros c p Hc Hp Hu. apply Hdr. split; [eauto|].
      destruct (Fs.under (Fs.resolve e q) c) eqn:Eu; [|reflexivity].
      rewrite <- (Hout p Hp). symmetry. eapply under_trans; eauto.
Qed.

(** A real [uninstall_files] keeps what lies outside its deletions: the
    regular files of [Keep], none of which is a path the removal deletes,
    and the directories above them, provided that every directory of the
    manifest's skins holds what it has of [Keep] as a file system does. *)
Lemma uninstall_files_keeps (e : engine) (i : installer) (Keep : string -> Prop)
    (s0 t t' : state) :
  dry_run e = false ->
  (forall p, Keep p -> Fs.is_file s0 p = true) ->
  (forall p d x, Keep p -> In d (destinations e i) -> In x (deletions_of d) ->
                 p <> Fs.resolve e x) ->
  (forall q, In q (skin_directories e i) -> anchored Keep s0 (Fs.resolve e q)) ->
  kept Keep s0 t ->
  uninstall_files e i t = (Ok tt, t') ->
  kept Keep s0 t'.
Proof.
  intros Hdry Hfile Hdel Hanch Hk H. unfold uninstall_files in H.
  apply bind_ok in H as ([] & s1 & H1 & H).
  apply bind_ok in H as (l & s2 & H2 & H).
  unfold installer_files in H2. destruct (i_files i) as [l'|] eqn:El; [|discriminate].
  injection H2 as <- <-.
  apply bind_ok in H as (N & s3 & H3 & H).
  assert (Hk1 : kept Keep s0 s1) by (injection H1 as <-; exact Hk).
  assert (Hk3 : kept Keep s0 s3 -> kept Keep s0 t') by (injection H as <-; auto).
  apply Hk3. clear Hk3 H.
  revert H3 Hk1. apply for_fold_inv. clear N s3. intros N st u N' u' Hst Hb Hu.
  apply uninstall_tuple in Hb as (rt & N1 & u1 & Ec & Hf & Hd).
  assert (Hu1 : kept Keep s0 u1).
  { revert Hf Hu. apply for_fold_inv. intros acc f v acc' v' Hf' Hstep Hv.
    unfold uninstall_file_step in Hstep.
    apply bind_ok in Hstep as (d & v1 & Hd' & Hstep).
    pose proof (destination_dest_path e rt f v) as Hp.
    destruct (dest_path e rt f) as [d'|] eqn:Edp; [|destruct Hp as [ex Hp]; congruence].
    rewrite Hp in Hd'. injection Hd' as <- <-.
    assert (Hin : In d' (destinations e i)) by (eapply in_destinations; eauto).
    apply bind_ok in Hstep as (n1 & v2 & D1 & Hstep).
    apply (kept_delete_file e Keep s0 _ _ _ _ _ Hdry) in D1;
      [|intros p Hp'; apply (Hdel p d' d' Hp' Hin); now left|exact Hv].
    pose proof (Hdel) as Hdel'. unfold deletions_of in Hdel'.
    destruct (PyStr.endswith ".py" d') eqn:Epy.
    - apply bind_ok in Hstep as (n2 & v3 & D2 & Hstep).
      apply (kept_delete_file e Keep s0 _ _ _ _ _ Hdry) in D2;
        [|intros p Hp'; apply (Hdel p d' _ Hp' Hin); unfold deletions_of; rewrite Epy;
          right; left; reflexivity|exact D1].
      apply bind_ok in Hstep as (n3 & v4 & D3 & Hstep).
      apply (kept_delete_file e Keep s0 _ _ _ _ _ Hdry) in D3;
        [|intros p Hp'; apply (Hdel p d' _ Hp' Hin); unfold deletions_of; rewrite Epy;
          right; right; left; reflexivity|exact D2].
      now injection Hstep as _ <-.
    - now injection Hstep as _ <-. }
  destruct Hd as [[_ ->]|(-> & q & Eq & Hd)]; [exact Hu1|].
  eapply kept_delete_directory; [exact Hfile| |exact Hd|exact Hu1].
  apply Hanch. eapply in_skin_directories; eauto.
Qed.

(** *** What an installation writes *)

Lemma written_within_refl (e : engine) (K : list string) (W : string -> Prop) (s : state) :
  written_within e K W s s.
Proof. split; [set_solver|]. left. intros p. left. apply same_at_refl. Qed.

Lemma written_within_trans (e : engine) (K : list string) (W : string -> Prop)
    (a b c : state) :
  written_within e K W a b -> written_within e K W b c -> written_within e K W a c.
Proof.
  intros (H3 & H4) (G3 & G4).
  split; [set_solver|].
  destruct G4 as [G4|G4]; [|now right].
  destruct H4 as [H4|(d & Hd & Hin)]; [|right; exists d; split; [exact Hd|set_solver]].
  left. intros p. destruct (G4 p) as [Hg|?]; [|now right].
  destruct (H4 p) as [Hh|?]; [left; eapply same_at_trans; eauto|now right].
Qed.

Lemma written_within_log (e : engine) (K : list string) (W : string -> Prop)
    (s : state) (msg : string) (lvl : nat) :
  written_within e K W s (snd (logger_log msg lvl s)).
Proof. split; [set_solver|]. left. intros p. left. split; reflexivity. Qed.

Lemma written_within_same_fs (e : engine) (K : list string) (W : string -> Prop)
    (s s' : state) :
  same_fs s s' -> written_within e K W s s'.
Proof.
  intros (Hf & Ht & Hd). split; [set_solver|]. left. intros p.
  left. split; congruence.
Qed.

Lemma same_fs_log (s : state) (msg : string) (lvl : nat) :
  same_fs s (snd (logger_log msg lvl s)).
Proof. repeat split. Qed.

Ltac same_fs_tac :=
  repeat first
    [ apply (respects_root _ same_fs_refl)
    | apply (respects_read_service_group _ same_fs_refl same_fs_trans)
    | progress respects_with same_fs_refl same_fs_trans same_fs_log
    | match goal with
      | |- respects same_fs (modify_config _) => intros ?; repeat split
      end ].

Lemma merge_config_same_fs (e : engine) (i : installer) (n : string) :
  respects same_fs (merge_config e i n).
Proof. unfold merge_config. same_fs_tac. Qed.

Lemma register_group_same_fs (e : engine) (i : installer) (b : bool) (g : string) :
  respects same_fs (register_group e i b g).
Proof. unfold register_group, register_service. same_fs_tac. Qed.

Lemma unregister_group_same_fs (e : engine) (i : installer) (b : bool) (g : string) :
  respects same_fs (unregister_group e i b g).
Proof. unfold unregister_group. same_fs_tac. Qed.

Lemma respects_weaken {A} (R R' : state -> state -> Prop) (m : M A) :
  (forall s s', R s s' -> R' s s') -> respects R m -> respects R' m.
Proof. intros HR Hm s. apply HR, Hm. Qed.

Lemma ok_respects {A} (R : state -> state -> Prop) (m : M A) (s s' : state) (a : A) :
  respects R m -> m s = (Ok a, s') -> R s s'.
Proof. intros Hm H. specialize (Hm s). now rewrite H in Hm. Qed.

Lemma save_with_backup_effect (e : engine) (s : state) :
  exists s', Weecfg.save_with_backup e s = (Ok (backup_path e), s')
    /\ config_dict s' = config_dict s /\ tarballs s' = tarballs s /\ dirs s' = dirs s
    /\ forall p, files s' !! p = files s !! p
                 \/ p = Fs.resolve e (config_path e) \/ p = Fs.resolve e (backup_path e).
Proof.
  unfold Weecfg.save_with_backup. monad_unfold. eexists. split; [reflexivity|].
  repeat split. intros p. cbn [files Fs.with_files].
  destruct (decide (p = Fs.resolve e (config_path e))) as [->|Hc]; [auto|].
  destruct (decide (p = Fs.resolve e (backup_path e))) as [->|Hb]; [auto|].
  left. rewrite lookup_insert_ne by congruence.
  destruct (files s !! Fs.resolve e (config_path e)); [|reflexivity].
  now rewrite lookup_insert_ne by congruence.
Qed.

Lemma makedirs_effect (e : engine) (p : string) (s : state) :
  files (snd (Fs.makedirs e p s)) = files s
  /\ tarballs (snd (Fs.makedirs e p s)) = tarballs s
  /\ config_dict (snd (Fs.makedirs e p s)) = config_dict s
  /\ dirs s ⊆ dirs (snd (Fs.makedirs e p s))
  /\ (fst (Fs.makedirs e p s) = Ok tt -> Fs.resolve e p ∈ dirs (snd (Fs.makedirs e p s))).
Proof.
  unfold Fs.makedirs. monad_unfold.
  destruct (_ || _); [repeat split; [set_solver|discriminate]|].
  destruct (existsb _ _); [repeat split; [set_solver|discriminate]|].
  cbn. repeat split; set_solver.
Qed.

(** Whatever [install_from_dir] does, and however it ends, it removes no
    directory, and the only regular files it writes are the destinations
    of the manifest's files, the saved configuration with its backup, and
    the stored manifest. *)
Lemma install_from_dir_writes (e : engine) (dir r : string) (i : installer) (s : state) :
  files s !! Fs.resolve e (OsPath.join dir "install.py") = Some (Manifest i) ->
  root_dict e !! "EXT_ROOT" = Some r ->
  written_within e (destinations e i)
    (fun p => p = Fs.resolve e (OsPath.join r (recorded_name i)) \/ In p (artifacts e dir r i))
    s (snd (install_from_dir e dir s)).
Proof.
  intros Hm Hr.
  set (K := destinations e i).
  set (W := fun p => p = Fs.resolve e (OsPath.join r (recorded_name i))
                     \/ In p (artifacts e dir r i)).
  unfold install_from_dir.
  unfold mbind at 1, M_bind at 1. cbn [logger_log].
  unfold mbind at 1, M_bind at 1.
  unfold Weecfg.get_extension_installer at 1. unfold mbind at 1, M_bind at 1.
  unfold get at 1. cbn [files]. rewrite Hm. unfold mret at 1, M_ret at 1. cbn [fst snd].
  match goal with |- written_within _ _ _ _ (snd (?m ?s1)) =>
    assert (Hrest : respects (written_within e K W) m);
      [|apply (written_within_trans e K W s s1);
          [apply (written_within_log e K W s)|apply Hrest]]
  end.
  pose proof (written_within_refl e K W) as Rr.
  pose proof (written_within_trans e K W) as Rt.
  pose proof (written_within_log e K W) as Rl.
  apply (respects_bind _ Rt); [apply (respects_log _ Rl)|intros _].
  apply (respects_bind _ Rt); [apply (respects_log _ Rl)|intros _].
  apply (respects_bind _ Rt).
  { eapply respects_weaken; [|apply copy_files_copied].
    intros a b (_ & H3 & H4). split; [exact H3|].
    destruct H4 as [H4|H4]; [left|now right].
    intros p. destruct (H4 p); auto. }
  intros N.
  apply (respects_bind _ Rt); [apply (respects_log _ Rl)|intros _].
  apply (respects_bind _ Rt).
  { eapply respects_weaken; [apply written_within_same_fs|apply merge_config_same_fs]. }
  intros b.
  apply (respects_bind _ Rt); [apply (respects_log _ Rl)|intros _].
  apply (respects_bind _ Rt).
  { apply (respects_for_fold _ Rr Rt). intros acc g.
    eapply respects_weaken; [apply written_within_same_fs|apply register_group_same_fs]. }
  intros b'. unfold root. rewrite Hr.
  apply (respects_bind_val _ Rt (fun a => a = r));
    [apply (respects_ret _ Rr)|now apply returns_ret|intros r' ->].
  apply (respects_bind _ Rt); [apply (respects_log _ Rl)|intros _].
  apply (respects_bind _ Rt).
  { destruct (dry_run e); [apply (respects_ret _ Rr)|].
    apply (respects_bind _ Rt).
    - apply (respects_try_except _ Rt); [|intros ?; apply (respects_ret _ Rr)].
      intros t. destruct (makedirs_effect e (OsPath.join r (default "Unknown" (i_name i))) t)
        as (F & T & _ & D & _).
      split; [exact D|]. left. intros p. left. split; congruence.
    - intros _ t.
      destruct (copy_cases e (OsPath.join dir "install.py")
                  (OsPath.join r (default "Unknown" (i_name i))) t)
        as [[ex ->]|(x & -> & _ & _ & _)]; [apply Rr|].
      cbn [snd].
      match goal with |- written_within _ _ _ _ (Fs.write ?k _ _) => set (qd := k) end.
      destruct (write_rest qd x t) as (Wd & _ & _).
      split; [rewrite Wd; set_solver|]. left. intros p.
      destruct (decide (p = qd)) as [->|Hne]; [|left; now apply write_other].
      right. right. subst qd. unfold W, artifacts, recorded_name.
      destruct (Fs.is_dir t _); [right; right; right; left; reflexivity|left; reflexivity]. }
  intros _. destruct b'; [|apply (respects_ret _ Rr)].
  apply (respects_bind _ Rt); [|intros ?; apply (respects_log _ Rl)].
  intros t. destruct (save_with_backup_effect e t) as (t' & E & _ & Ht & Hd & Hf).
  rewrite E. cbn [snd]. split; [set_solver|]. left. intros p.
  destruct (Hf p) as [?|[->| ->]]; [left; split; congruence|right; right; right; now left|].
  right. right. right. right. now left.
Qed.

Lemma keeps_config_refl (s : state) : keeps_config s s.
Proof. reflexivity. Qed.

Lemma keeps_config_trans (a b c : state) :
  keeps_config a b -> keeps_config b c -> keeps_config a c.
Proof. unfold keeps_config. congruence. Qed.

Lemma keeps_config_log (s : state) (msg : string) (lvl : nat) :
  keeps_config s (snd (logger_log msg lvl s)).
Proof. reflexivity. Qed.

Lemma makedirs_keeps_config (e : engine) (p : string) : respects keeps_config (Fs.makedirs e p).
Proof. intros s. apply makedirs_effect. Qed.

Lemma copy_keeps_config (e : engine) (src dst : string) :
  respects keeps_config (Fs.copy e src dst).
Proof.
  intros s. destruct (copy_cases e src dst s) as [[ex ->]|(x & -> & _)]; [reflexivity|].
  apply write_rest.
Qed.

Lemma rmtree_keeps_config (e : engine) (d : string) (ig : bool) :
  respects keeps_config (Fs.rmtree e d ig).
Proof.
  intros s. unfold Fs.rmtree. monad_unfold.
  destruct (Fs.is_dir s _); [reflexivity|]. destruct ig; reflexivity.
Qed.

Lemma save_keeps_config (e : engine) : respects keeps_config (Weecfg.save_with_backup e).
Proof.
  intros s. destruct (save_with_backup_effect e s) as (s' & E & H & _). now rewrite E.
Qed.

(** The phases of an installation that returns, one after the other: the
    copy phase, the merge of the fragment, the registration of the
    services, the storing of the manifest and the saving of the
    configuration. *)
Lemma install_from_dir_phases (e : engine) (dir : string) (i : installer) (s0 s1 : state) :
  dry_run e = false ->
  files s0 !! Fs.resolve e (OsPath.join dir "install.py") = Some (Manifest i) ->
  install_from_dir e dir s0 = (Ok tt, s1) ->
  exists r N sa sc sc' b sm sm' b' sr sr' sx sy,
    root_dict e !! "EXT_ROOT" = Some r
    /\ same_world s0 sa /\ copy_files e dir i sa = (Ok N, sc)
    /\ same_world sc sc' /\ merge_config e i (recorded_name i) sc' = (Ok b, sm)
    /\ same_world sm sm'
    /\ for_fold (all_service_groups e) b (register_group e i) sm' = (Ok b', sr)
    /\ same_world sr sr'
    /\ try_except (Fs.makedirs e (OsPath.join r (recorded_name i))) is_OSError
                  (fun _ => mret tt) sr' = (Ok tt, sx)
    /\ Fs.copy e (OsPath.join dir "install.py") (OsPath.join r (recorded_name i)) sx
       = (Ok tt, sy)
    /\ config_dict s1 = config_dict sy /\ tarballs s1 = tarballs sy /\ dirs s1 = dirs sy
    /\ forall p, files s1 !! p = files sy !! p
                 \/ p = Fs.resolve e (config_path e) \/ p = Fs.resolve e (backup_path e).
Proof.
  intros Hdry Hm H. unfold install_from_dir in H. rewrite Hdry in H.
  apply bind_ok in H as ([] & sa & Ha & H). injection Ha as <-.
  apply bind_ok in H as (found & sb & Hb & H).
  unfold Weecfg.get_extension_installer, mbind, M_bind, get, mret, M_ret in Hb.
  cbn [files] in Hb.
  rewrite Hm in Hb. injection Hb as <- <-. cbn [fst snd] in H.
  apply bind_ok in H as ([] & sc0 & Hc & H). injection Hc as <-.
  apply bind_ok in H as ([] & sd & Hd & H). injection Hd as <-.
  apply bind_ok in H as (N & se & He & H).
  apply bind_ok in H as ([] & sf & Hf & H). injection Hf as <-.
  apply bind_ok in H as (b & sg & Hg & H).
  apply bind_ok in H as ([] & sh & Hh & H). injection Hh as <-.
  apply bind_ok in H as (b' & sj & Hj & H).
  apply bind_ok in H as (r & sk & Hk & H).
  unfold root in Hk. destruct (root_dict e !! "EXT_ROOT") as [r0|] eqn:Er; [|discriminate].
  injection Hk as <- <-.
  apply bind_ok in H as ([] & sl & Hl & H). injection Hl as <-.
  apply bind_ok in H as ([] & sn & Hn & H).
  apply bind_ok in Hn as ([] & sx & Hx & Hn).
  exists r0, N. do 11 eexists.
  split; [reflexivity|]. split; [|split; [exact He|]]; [repeat split|].
  split; [|split; [exact Hg|]]; [repeat split|].
  split; [|split; [exact Hj|]]; [repeat split|].
  split; [|split; [exact Hx|]]; [repeat split|].
  split; [exact Hn|].
  destruct b'.
  - apply bind_ok in H as (bk & sy & Hy & H). injection H as <-.
    destruct (save_with_backup_effect e sn) as (sy' & E & C & T & D & F).
    rewrite E in Hy. injection Hy as _ <-. cbn. auto.
  - injection H as <-. repeat split. auto.
Qed.

(** What an installation that returns did to the configuration: the merge
    of the fragment, then the registration of the services, on the
    configuration it found. *)
Lemma install_from_dir_config (e : engine) (dir : string) (i : installer) (s0 s1 : state) :
  dry_run e = false ->
  files s0 !! Fs.resolve e (OsPath.join dir "install.py") = Some (Manifest i) ->
  install_from_dir e dir s0 = (Ok tt, s1) ->
  exists sm0 b sm sm' b' sr,
    config_dict sm0 = config_dict s0
    /\ merge_config e i (recorded_name i) sm0 = (Ok b, sm)
    /\ config_dict sm' = config_dict sm
    /\ for_fold (all_service_groups e) b (register_group e i) sm' = (Ok b', sr)
    /\ config_dict s1 = config_dict sr.
Proof.
  intros Hdry Hm H.
  destruct (install_from_dir_phases e dir i s0 s1 Hdry Hm H)
    as (r & N & sa & sc & sc' & b & sm & sm' & b' & sr & sr' & sx & sy
        & _ & Wa & Hcopy & Wc & Hmerge & Wm & Hreg & Wr & Hmk & Hcp & C1 & _).
  exists sc', b, sm, sm', b', sr.
  apply (ok_respects _ _ _ _ _ (copy_files_copied e dir i)) in Hcopy as (Hcc & _).
  assert (Hx : keeps_config sr' sx).
  { eapply ok_respects; [|exact Hmk].
    apply (respects_try_except _ keeps_config_trans); [apply makedirs_keeps_config|].
    intros ?. apply (respects_ret _ keeps_config_refl). }
  apply (ok_respects _ _ _ _ _ (copy_keeps_config e _ _)) in Hcp.
  destruct Wa as (_ & _ & _ & Wa), Wc as (_ & _ & _ & Wc), Wm as (_ & _ & _ & Wm),
    Wr as (_ & _ & _ & Wr).
  unfold keeps_config in *.
  split; [congruence|]. split; [exact Hmerge|]. split; [exact Wm|]. split; [exact Hreg|].
  congruence.
Qed.

(** An installation that returns, and leaves the record of the extension a
    directory, has stored the manifest in it: unless a destination is the
    manifest's own path or a directory, or the place is that of the
    configuration file or of its backup. *)
Lemma install_stores_manifest (e : engine) (dir r : string) (i : installer) (s0 s1 : state) :
  dry_run e = false ->
  files s0 !! Fs.resolve e (OsPath.join dir "install.py") = Some (Manifest i) ->
  root_dict e !! "EXT_ROOT" = Some r ->
  install_from_dir e dir s0 = (Ok tt, s1) ->
  Fs.resolve e (OsPath.join r (recorded_name i)) ∈ dirs s1 ->
  (forall d, In d (destinations e i) -> Fs.resolve e d ∉ dirs s1) ->
  (forall d, In d (destinations e i) ->
             Fs.resolve e d <> Fs.resolve e (OsPath.join dir "install.py")) ->
  (forall p, In p (artifacts e dir r i) ->
             files s1 !! p = Some (Manifest i)
             \/ p = Fs.resolve e (config_path e) \/ p = Fs.resolve e (backup_path e)).
Proof.
  intros Hdry Hm Hr H Hrec Hnd Hsrc.
  destruct (install_from_dir_phases e dir i s0 s1 Hdry Hm H)
    as (r' & N & sa & sc & sc' & b & sm & sm' & b' & sr & sr' & sx & sy
        & Hr' & Wa & Hcopy & Wc & Hmerge & Wm & Hreg & Wr & Hmk & Hcp & C1 & T1 & D1 & F1).
  assert (r' = r) by congruence. subst r'.
  apply (ok_respects _ _ _ _ _ (copy_files_copied e dir i)) in Hcopy as (_ & Dc & Hcopy).
  apply (ok_respects same_fs) in Hmerge; [|apply merge_config_same_fs].
  apply (ok_respects same_fs) in Hreg;
    [|apply (respects_for_fold _ same_fs_refl same_fs_trans); intros ? ?;
      apply register_group_same_fs].
  assert (Hx : files sx = files sr' /\ dirs sr' ⊆ dirs sx).
  { unfold try_except in Hmk.
    destruct (makedirs_effect e (OsPath.join r (recorded_name i)) sr') as (F & _ & _ & D & _).
    destruct (Fs.makedirs e (OsPath.join r (recorded_name i)) sr') as [[[]|ex] t]; cbn in *.
    - injection Hmk as <-. auto.
    - destruct (is_OSError ex); [|discriminate]. injection Hmk as <-. auto. }
  destruct Hx as [Fx Dx].
  destruct (copy_cases e (OsPath.join dir "install.py") (OsPath.join r (recorded_name i)) sx)
    as [[ex Hc]|(x & Hc & Hread & _ & _)]; [congruence|].
  rewrite Hc in Hcp. injection Hcp as <-.
  match type of D1 with context [Fs.write ?k _ _] => set (qd := k) in * end.
  destruct (write_rest qd x sx) as (Wd & _ & _).
  destruct Wa as (Wa1 & Wa2 & Wa3 & _), Wc as (Wc1 & Wc2 & Wc3 & _),
    Wm as (Wm1 & Wm2 & Wm3 & _), Wr as (Wr1 & Wr2 & Wr3 & _),
    Hmerge as (M1 & M2 & M3), Hreg as (R1 & R2 & R3).
  assert (Hdsc : dirs sc ⊆ dirs s1).
  { rewrite D1, Wd. rewrite <- Wc3, <- M3, <- Wm3, <- R3, <- Wr3. exact Dx. }
  assert (Hsrc_c : files sc !! Fs.resolve e (OsPath.join dir "install.py")
                   = Some (Manifest i)).
  { destruct Hcopy as [Hcopy|(d & Hd & Hin)]; [|exfalso; apply (Hnd d Hd); set_solver].
    destruct (Hcopy (Fs.resolve e (OsPath.join dir "install.py"))) as [[Hs _]|(d & Hd & He)].
    - rewrite Hs, Wa1. exact Hm.
    - exfalso. apply (Hsrc d Hd). now symmetry. }
  assert (Hsrc_x : files sx !! Fs.resolve e (OsPath.join dir "install.py")
                   = Some (Manifest i)).
  { rewrite Fx, Wr1, R1, Wm1, M1, Wc1. exact Hsrc_c. }
  assert (Hx : x = inl (Manifest i)).
  { unfold Fs.read in Hread. rewrite Hsrc_x in Hread. congruence. }
  assert (Hqd : qd = OsPath.join (Fs.resolve e (OsPath.join r (recorded_name i)))
                       (Fs.basename (Fs.resolve e (OsPath.join dir "install.py")))).
  { subst qd. assert (Hdir : Fs.is_dir sx (Fs.resolve e (OsPath.join r (recorded_name i)))
                             = true).
    { unfold Fs.is_dir. apply bool_decide_eq_true. rewrite <- Wd, <- D1. exact Hrec. }
    now rewrite Hdir. }
  intros p Hp. unfold artifacts in Hp. simpl in Hp.
  destruct Hp as [<-|[<-|[<-|[]]]]; [auto|auto|].
  destruct (F1 qd) as [Hf|Hf]; [|rewrite <- Hqd; now right].
  left. rewrite <- Hqd, Hf. subst x. cbn. apply lookup_insert_eq.
Qed.

(** *** What a removal does *)

Lemma under_refl (q : string) : Fs.under q q = true.
Proof. unfold Fs.under. now rewrite String.eqb_refl. Qed.

Lemma rmtree_ok (e : engine) (d : string) (s s' : state) :
  Fs.rmtree e d false s = (Ok tt, s') ->
  Fs.resolve e d ∈ dirs s
  /\ config_dict s' = config_dict s
  /\ (forall p, if Fs.under (Fs.resolve e d) p
                then Fs.is_file s' p = false else same_at s s' p)
  /\ (forall c, c ∈ dirs s' <-> c ∈ dirs s /\ Fs.under (Fs.resolve e d) c = false).
Proof.
  intros H. destruct (Fs.is_dir s (Fs.resolve e d)) eqn:Ed.
  - destruct (rmtree_dir e d false s Ed) as (t & E & C & _ & F & D).
    rewrite E in H. injection H as <-.
    split; [now apply bool_decide_eq_true in Ed|auto].
  - unfold Fs.rmtree in H. unfold mbind, M_bind, get in H. rewrite Ed in H. discriminate.
Qed.

(** The phases of a removal that returns, one after the other: the
    manifest it found, the removal of the files, the services pass, the
    removal of the fragment, and then the removal of the record of the
    extension and the saving of the configuration. *)
Lemma uninstall_extension_phases (e : engine) (name r : string) (s1 s2 : state) :
  dry_run e = false ->
  root_dict e !! "EXT_ROOT" = Some r ->
  uninstall_extension e name s1 = (Ok tt, s2) ->
  exists i s1' tu b su',
    files s1 !! Fs.resolve e (OsPath.join (OsPath.join r name) "install.py")
      = Some (Manifest i)
    /\ same_world s1 s1'
    /\ uninstall_files e i s1' = (Ok tt, tu)
    /\ for_fold (all_service_groups e) false (unregister_group e i) tu = (Ok b, su')
    /\ config_dict s2 = match i_config i with
                        | Some F => Merge.remove_and_prune (config_dict su') F
                        | None => config_dict su'
                        end
    /\ Fs.resolve e (OsPath.join r name) ∈ dirs tu
    /\ (forall p, p <> Fs.resolve e (config_path e) -> p <> Fs.resolve e (backup_path e) ->
          if Fs.under (Fs.resolve e (OsPath.join r name)) p
          then Fs.is_file s2 p = false else same_at tu s2 p)
    /\ (forall c, c ∈ dirs s2
                  <-> c ∈ dirs tu /\ Fs.under (Fs.resolve e (OsPath.join r name)) c = false).
Proof.
  intros Hdry Hr H. unfold uninstall_extension in H. rewrite Hdry in H.
  apply bind_ok in H as ([] & sa & Ha & H). injection Ha as <-.
  apply bind_ok in H as (r' & sb & Hb & H).
  unfold root in Hb. rewrite Hr in Hb. injection Hb as <- <-.
  apply bind_ok in H as (found & sc & Hc & H).
  unfold try_except, Weecfg.get_extension_installer, mbind, M_bind, get, mret, M_ret in Hc.
  cbn [files] in Hc.
  destruct (files s1 !! Fs.resolve e (OsPath.join (OsPath.join r name) "install.py"))
    as [c|] eqn:Em; [|discriminate].
  destruct c as [? | i | ?]; try discriminate.
  injection Hc as <- <-. cbn [fst snd] in H.
  apply bind_ok in H as ([] & tu & Hu & H).
  apply bind_ok in H as (b & su' & Hp & H).
  pose proof Hp as Hfs.
  apply (ok_respects same_fs) in Hfs as (Hf1 & Hf2 & Hf3);
    [|apply (respects_for_fold _ same_fs_refl same_fs_trans); intros ? ?;
      apply unregister_group_same_fs].
  apply bind_ok in H as (b1 & sv & Hv & H).
  apply bind_ok in H as ([] & sw & Hw & H).
  apply rmtree_ok in Hw as (Hwd & Hwc & Hwf & Hwdirs).
  apply bind_ok in H as ([] & sx & Hx & H). injection H as <-.
  assert (Hvf : files sv = files su' /\ tarballs sv = tarballs su' /\ dirs sv = dirs su'
                /\ config_dict sv
                   = match i_config i with
                     | Some F => Merge.remove_and_prune (config_dict su') F
                     | None => config_dict su'
                     end).
  { destruct (i_config i); injection Hv as _ <-; repeat split. }
  destruct Hvf as (Hv1 & Hv2 & Hv3 & Hvc).
  assert (Hxs : config_dict sx = config_dict sw /\ dirs sx = dirs sw
                /\ forall p, p <> Fs.resolve e (config_path e) ->
                             p <> Fs.resolve e (backup_path e) -> same_at sw sx p).
  { destruct b1.
    - apply bind_ok in Hx as (bk & sy & Hy & Hx). injection Hx as <-.
      destruct (save_with_backup_effect e sw) as (sy' & E & Hc' & Ht' & Hd' & Hf').
      rewrite E in Hy. injection Hy as _ <-. split; [exact Hc'|]. split; [exact Hd'|].
      intros p H1 H2. split; [|congruence]. destruct (Hf' p) as [?|[?|?]]; congruence.
    - injection Hx as <-. repeat split. }
  destruct Hxs as (Hxc & Hxd & Hxf).
  exists i, (snd (logger_log ("Request to remove extension '" ++ name ++ "'") 0 s1)), tu, b, su'.
  split; [reflexivity|]. split; [repeat split|]. split; [exact Hu|]. split; [exact Hp|].
  split; [cbn [config_dict]; congruence|].
  split; [rewrite <- Hf3, <- Hv3; exact Hwd|].
  split.
  - intros p H1 H2. cbn [files tarballs]. specialize (Hwf p). specialize (Hxf p H1 H2).
    destruct (Fs.under (Fs.resolve e (OsPath.join r name)) p).
    + unfold Fs.is_file. cbn [files tarballs].
      change (Fs.is_file sx p = false). now rewrite (same_at_is_file _ _ _ Hxf).
    + destruct Hwf as [A B], Hxf as [C D]. split; cbn [files tarballs]; congruence.
  - intros c. cbn [dirs]. rewrite Hxd, Hwdirs, Hv3, Hf3. reflexivity.
Qed.

Lemma services_untouched_app (G : list string) (i : installer) (c0 N : section) :
  services_untouched G i c0 -> services_untouched G i (c0 ++ N).
Proof.
  intros H g declared Hg Hd. destruct (H g declared Hg Hd) as (l & Hl & Hx).
  exists l. split; [|exact Hx]. simpl in *. unfold Sec.get in *.
  destruct (Sec.lookup "Engine" c0) as [x|] eqn:E; [|discriminate].
  rewrite lookup_app_l; [now rewrite E|]. unfold Sec.mem. now rewrite E.
Qed.

(** The regular files of a state, by their paths. *)
Lemma in_regular_files (s : state) (p : string) :
  Fs.is_file s p = true ->
  In p (map fst (map_to_list (files s)) ++ map fst (map_to_list (tarballs s))).
Proof.
  unfold Fs.is_file. intros H. apply in_or_app.
  apply orb_true_iff in H as [H|H]; apply bool_decide_eq_true in H; destruct H as [c E];
    [left|right]; apply in_map_iff; exists (p, c); (split; [reflexivity|]);
    apply list_elem_of_In, elem_of_map_to_list; exact E.
Qed.

Lemma no_file_under (s : state) (q : string) :
  forallb (fun k => negb (Fs.under q k))
          (map fst (map_to_list (files s)) ++ map fst (map_to_list (tarballs s))) = true ->
  forall p, Fs.under q p = true -> Fs.is_file s p = false.
Proof.
  intros H p Hu. destruct (Fs.is_file s p) eqn:E; [|reflexivity]. exfalso.
  rewrite forallb_forall in H. apply in_regular_files in E. apply H in E.
  rewrite Hu in E. discriminate.
Qed.

Lemma anchored_by_listing (s : state) (q : string) :
  forallb (fun p => negb (Fs.under q p) || Fs.child_of q p
                    || existsb (fun c => Fs.child_of q c && Fs.under c p)
                               (elements (dirs s)))
          (map fst (map_to_list (files s)) ++ map fst (map_to_list (tarballs s))) = true ->
  anchored (fun p => Fs.is_file s p = true) s q.
Proof.
  intros H p Hp Hu. rewrite forallb_forall in H. apply in_regular_files in Hp.
  apply H in Hp. rewrite Hu in Hp. cbn [negb orb] in Hp.
  apply orb_true_iff in Hp as [Hp|Hp]; [now left|right].
  apply existsb_exists in Hp as (c & Hc & Hcp). apply andb_true_iff in Hcp as [? ?].
  exists c. split; [assumption|]. split; [|assumption].
  apply list_elem_of_In, elem_of_elements in Hc. exact Hc.
Qed.

Lemma anchored_weaken (Keep Keep' : string -> Prop) (s : state) (q : string) :
  (forall p, Keep' p -> Keep p) -> anchored Keep s q -> anchored Keep' s q.
Proof. intros HK H p Hp. apply H, HK, Hp. Qed.

(** C1, as amended: an installation and the removal that follows it, both
    returning in a real run, give back the configuration tree and the
    regular files, and keep the directories that hold a file.  Before the
    installation the configuration has none of the fragment's top-level
    keys and every service group that the manifest declares is a list
    without the declared identifiers; there is no regular file at a
    destination of the manifest's files or at a compiled sibling of one,
    and none in the record of the extension; a regular file under a skin
    directory of the manifest is an entry of it or lies under a directory
    that is one, as in any file system.  No destination is a directory,
    no destination is the manifest that is installed, and the manifest is
    stored at the path where the removal looks for it, which is neither
    the configuration file nor its backup.  Afterwards the configuration
    tree is the one before the installation; every path other than the
    saved configuration, its backup and the stored manifest holds the
    regular file that it held before, or none as before, and no
    destination other than these three holds one; the record of the
    extension is no directory; and every directory of before is still
    one, unless it lay in the record of the extension, or in a skin
    directory of the manifest with no regular file of before, other than
    these three, under it.  The directories that the installation made
    for the destinations may remain. *)
Theorem C1_install_then_uninstall_restores_configuration_and_files
    (e : engine) (dir r : string) (i : installer) (s0 s1 s2 : state) :
  dry_run e = false ->
  files s0 !! Fs.resolve e (OsPath.join dir "install.py") = Some (Manifest i) ->
  install_from_dir e dir s0 = (Ok tt, s1) ->
  root_dict e !! "EXT_ROOT" = Some r ->
  uninstall_extension e (recorded_name i) s1 = (Ok tt, s2) ->
  fragment_fresh i (config_dict s0) ->
  services_untouched (all_service_groups e) i (config_dict s0) ->
  (forall d x, In d (destinations e i) -> In x (deletions_of d) ->
               Fs.is_file s0 (Fs.resolve e x) = false) ->
  (forall p, Fs.under (Fs.resolve e (OsPath.join r (recorded_name i))) p = true ->
             Fs.is_file s0 p = false) ->
  (forall q, In q (skin_directories e i) ->
             anchored (fun p => Fs.is_file s0 p = true) s0 (Fs.resolve e q)) ->
  (forall d, In d (destinations e i) ->
             Fs.resolve e d ∉ dirs s1
             /\ Fs.resolve e d <> Fs.resolve e (OsPath.join dir "install.py")) ->
  Fs.resolve e (OsPath.join (OsPath.join r (recorded_name i)) "install.py")
  = OsPath.join (Fs.resolve e (OsPath.join r (recorded_name i)))
                (Fs.basename (Fs.resolve e (OsPath.join dir "install.py"))) ->
  Fs.resolve e (OsPath.join (OsPath.join r (recorded_name i)) "install.py")
  <> Fs.resolve e (config_path e) ->
  Fs.resolve e (OsPath.join (OsPath.join r (recorded_name i)) "install.py")
  <> Fs.resolve e (backup_path e) ->
  config_dict s2 = config_dict s0
  /\ (forall p, ~ In p (artifacts e dir r i) -> same_at s0 s2 p)
  /\ (forall d, In d (destinations e i) -> ~ In (Fs.resolve e d) (artifacts e dir r i) ->
                Fs.is_file s2 (Fs.resolve e d) = false)
  /\ Fs.resolve e (OsPath.join r (recorded_name i)) ∉ dirs s2
  /\ (forall c, c ∈ dirs s0 ->
        c ∈ dirs s2
        \/ Fs.under (Fs.resolve e (OsPath.join r (recorded_name i))) c = true
        \/ (in_skin_directory e i c
            /\ forall p, Fs.is_file s0 p = true -> ~ In p (artifacts e dir r i) ->
                         Fs.under c p = false)).
Proof.
  intros Hdry Hm Hi Hr Hu Hfresh Hsvc Hdel Hrec Hanch Hdst Hpath Hnc Hnb.
  assert (Hnodir : forall d, In d (destinations e i) -> Fs.resolve e d ∉ dirs s1)
    by (intros d Hd; apply (Hdst d Hd)).
  assert (Hsrc : forall d, In d (destinations e i) ->
                   Fs.resolve e d <> Fs.resolve e (OsPath.join dir "install.py"))
    by (intros d Hd; apply (Hdst d Hd)).
  pose proof (install_from_dir_writes e dir r i s0 Hm Hr) as Hw. rewrite Hi in Hw.
  cbn [snd] in Hw.
  destruct Hw as (Hd01 & [Hw|(d & Hd & Hin)]); [|exfalso; exact (Hnodir d Hd Hin)].
  destruct (install_from_dir_config e dir i s0 s1 Hdry Hm Hi)
    as (sm0 & b & sm & sm' & b' & sr & Hc0 & Hmerge & Hcm & Hreg & Hc1).
  destruct (uninstall_extension_phases e _ r s1 s2 Hdry Hr Hu)
    as (i' & s1' & tu & bu & su' & Hm1 & Hsw & Hfiles & Hunreg & Hc2 & Hrd & Hf2 & Hd2).
  assert (Hrd1 : Fs.resolve e (OsPath.join r (recorded_name i)) ∈ dirs s1).
  { destruct (uninstall_files_effect e i' s1' tu Hdry Hfiles) as [(_ & _ & Hsub & _) _].
    destruct Hsw as (_ & _ & <- & _). now apply Hsub. }
  assert (Hii : i' = i).
  { destruct (install_stores_manifest e dir r i s0 s1 Hdry Hm Hr Hi Hrd1 Hnodir Hsrc
                (OsPath.join (Fs.resolve e (OsPath.join r (recorded_name i)))
                   (Fs.basename (Fs.resolve e (OsPath.join dir "install.py")))))
      as [Hst|[Hst|Hst]].
    - unfold artifacts. simpl. auto.
    - rewrite <- Hpath, Hm1 in Hst. congruence.
    - exfalso. apply Hnc. now rewrite Hpath.
    - exfalso. apply Hnb. now rewrite Hpath. }
  subst i'.
  destruct (uninstall_files_effect e i s1' tu Hdry Hfiles) as [Hdw Hgone].
  set (Keep := fun p => Fs.is_file s0 p = true /\ ~ In p (artifacts e dir r i)).
  assert (Hk1 : kept Keep s0 s1').
  { destruct Hsw as (S1 & S2 & S3 & _). split.
    - intros p [Hp Hna]. destruct (Hw p) as [[A B]|[(d & Hd & ->)|[->|Ha]]].
      + split; congruence.
      + rewrite (Hdel d d Hd) in Hp; [discriminate|now left].
      + rewrite (Hrec _ (under_refl _)) in Hp. discriminate.
      + contradiction.
    - intros c p Hc _ _. rewrite S3. now apply Hd01. }
  assert (Hk2 : kept Keep s0 tu).
  { apply (uninstall_files_keeps e i Keep s0 s1' tu Hdry); [| | |exact Hk1|exact Hfiles].
    - intros p [Hp _]. exact Hp.
    - intros p d x [Hp _] Hd Hx ->. rewrite (Hdel d x Hd Hx) in Hp. discriminate.
    - intros q Hq. eapply anchored_weaken; [|apply (Hanch q Hq)]. intros p [Hp _]. exact Hp. }
  split; [|split; [|split; [|split]]].
  - destruct Hsw as (_ & _ & _ & Hcu).
    unfold fragment_fresh in Hfresh.
    destruct (i_config i) as [F|] eqn:EF.
    + destruct Hfresh as [Hwf Hk]. rewrite <- Hc0 in Hk.
      destruct (merge_config_fresh e i _ F sm0 sm b Hdry EF Hwf Hk Hmerge)
        as (_ & _ & _ & N & HN & Hrem).
      assert (Hs' : services_untouched (all_service_groups e) i (config_dict sm')).
      { rewrite Hcm, HN, Hc0. now apply services_untouched_app. }
      assert (Hctu : config_dict tu = config_dict sr).
      { destruct Hdw as (Hctu & _). congruence. }
      destruct (services_round_trip e i (config_dict sm') b false b' bu sm' sr tu su'
                  Hdry Hs' eq_refl Hreg Hctu Hunreg) as (_ & _ & Hback).
      rewrite Hc2, Hback, Hcm, HN, Hc0. apply remove_appended.
      * apply Hwf.
      * rewrite <- Hc0. exact Hk.
      * exact Hrem.
    + unfold merge_config in Hmerge. rewrite EF in Hmerge. injection Hmerge as _ <-.
      assert (Hs' : services_untouched (all_service_groups e) i (config_dict sm')).
      { now rewrite Hcm, Hc0. }
      assert (Hctu : config_dict tu = config_dict sr).
      { destruct Hdw as (Hctu & _). congruence. }
      destruct (services_round_trip e i (config_dict sm') b false b' bu sm' sr tu su'
                  Hdry Hs' eq_refl Hreg Hctu Hunreg) as (_ & _ & Hback).
      rewrite Hc2, Hback, Hcm, Hc0. reflexivity.
  - intros p Hp.
    assert (H1 : p <> Fs.resolve e (config_path e))
      by (intros ->; apply Hp; unfold artifacts; simpl; tauto).
    assert (H2 : p <> Fs.resolve e (backup_path e))
      by (intros ->; apply Hp; unfold artifacts; simpl; tauto).
    specialize (Hf2 p H1 H2).
    destruct (Fs.under (Fs.resolve e (OsPath.join r (recorded_name i))) p) eqn:Eu.
    + apply same_at_absent; [now apply Hrec|exact Hf2].
    + destruct (Fs.is_file s0 p) eqn:Ef.
      * eapply same_at_trans; [|exact Hf2]. apply Hk2. split; assumption.
      * apply same_at_absent; [exact Ef|]. rewrite (same_at_is_file _ _ _ Hf2).
        destruct Hdw as (_ & Hdw & _).
        destruct (Hdw p) as [Hs|[Hs _]]; [|exact Hs].
        rewrite (same_at_is_file _ _ _ Hs).
        destruct Hsw as (S1 & S2 & _).
        assert (Hs1 : Fs.is_file s1' p = Fs.is_file s1 p)
          by (unfold Fs.is_file; now rewrite S1, S2).
        destruct (Hw p) as [Hsame|[(d & Hd & ->)|[->|Ha]]].
        -- rewrite Hs1, (same_at_is_file _ _ _ Hsame). exact Ef.
        -- rewrite <- (same_at_is_file _ _ _ Hs). now apply Hgone.
        -- rewrite under_refl in Eu. discriminate.
        -- contradiction.
  - intros d Hd Hna.
    assert (H1 : Fs.resolve e d <> Fs.resolve e (config_path e))
      by (intros E; apply Hna; rewrite E; unfold artifacts; simpl; tauto).
    assert (H2 : Fs.resolve e d <> Fs.resolve e (backup_path e))
      by (intros E; apply Hna; rewrite E; unfold artifacts; simpl; tauto).
    specialize (Hf2 _ H1 H2).
    destruct (Fs.under (Fs.resolve e (OsPath.join r (recorded_name i))) (Fs.resolve e d));
      [exact Hf2|].
    rewrite (same_at_is_file _ _ _ Hf2). now apply Hgone.
  - intros Hin. apply Hd2 in Hin as [_ Hin]. rewrite under_refl in Hin. discriminate.
  - intros c Hc.
    destruct (decide (c ∈ dirs tu)) as [Hct|Hct].
    + destruct (Fs.under (Fs.resolve e (OsPath.join r (recorded_name i))) c) eqn:Eu;
        [right; left; reflexivity|left; apply Hd2; auto].
    + right. right. split.
      * destruct Hdw as (_ & _ & _ & Hdd). destruct Hsw as (_ & _ & S3 & _).
        destruct (Hdd c) as [?|?]; [rewrite S3; now apply Hd01|contradiction|assumption].
      * intros p Hp Hna. destruct (Fs.under c p) eqn:Eu; [|reflexivity].
        exfalso. apply Hct. destruct Hk2 as [_ Hk2]. apply (Hk2 c p Hc); [split|]; assumption.
Qed.

Lemma C1_install_then_uninstall_witness :
  let e := Sample.weewx_engine false ["bin"; "skins"] in
  let i := Sample.pmon_extension in
  let r := "/home/weewx/bin/user/installer" in
  let s0 := Sample.pmon_customised_world (VList ["weewx.engine.StdPrint"]) in
  let s2 := snd (uninstall_extension e "pmon" (snd (install_from_dir e "/home/me/pmon" s0))) in
  config_dict s2 = config_dict s0
  /\ (forall p, ~ In p (artifacts e "/home/me/pmon" r i) -> same_at s0 s2 p)
  /\ (forall d, In d (destinations e i) ->
                ~ In (Fs.resolve e d) (artifacts e "/home/me/pmon" r i) ->
                Fs.is_file s2 (Fs.resolve e d) = false)
  /\ Fs.resolve e (OsPath.join r (recorded_name i)) ∉ dirs s2
  /\ (forall c, c ∈ dirs s0 ->
        c ∈ dirs s2
        \/ Fs.under (Fs.resolve e (OsPath.join r (recorded_name i))) c = true
        \/ (in_skin_directory e i c
            /\ forall p, Fs.is_file s0 p = true -> ~ In p (artifacts e "/home/me/pmon" r i) ->
                         Fs.under c p = false)).
Proof.
  intros e i r s0 s2.
  apply (C1_install_then_uninstall_restores_configuration_and_files
           e "/home/me/pmon" r i s0 (snd (install_from_dir e "/home/me/pmon" s0)) s2).
  - reflexivity.
  - vm_compute. reflexivity.
  - vm_compute. reflexivity.
  - vm_compute. reflexivity.
  - vm_compute. reflexivity.
  - split.
    + simpl. repeat constructor; set_solver.
    + intros k Hk. apply list_elem_of_In in Hk. destruct Hk as [<-|[]]. reflexivity.
  - intros g declared Hg Hd. destruct Hg as [<-|[<-|[]]]; vm_compute in Hd; [discriminate|].
    injection Hd as <-. exists ["weewx.engine.StdPrint"]. split; [reflexivity|].
    intros x [<-|[]]. vm_compute. reflexivity.
  - intros d x Hd Hx. vm_compute in Hd. destruct Hd as [<-|[<-|[]]]; vm_compute in Hx.
    + destruct Hx as [<-|[<-|[<-|[]]]]; vm_compute; reflexivity.
    + destruct Hx as [<-|[]]; vm_compute; reflexivity.
  - apply no_file_under. vm_compute. reflexivity.
  - intros q Hq. vm_compute in Hq. destruct Hq as [<-|[]].
    apply anchored_by_listing. vm_compute. reflexivity.
  - intros d Hd. vm_compute in Hd. destruct Hd as [<-|[<-|[]]]; split;
      try (intros Hin; apply (bool_decide_pack _) in Hin; vm_compute in Hin; exact Hin);
      intros Heq; vm_compute in Heq; discriminate.
  - vm_compute. reflexivity.
  - intros Heq. vm_compute in Heq. discriminate.
  - intros Heq. vm_compute in Heq. discriminate.
Defined.

(** C1 as the specification states it fails.  The process monitor is
    installed where none of its destination files and none of its
    fragment's keys is present, and removed at once; both calls return.
    Its service was registered by hand before: the removal takes it out of
    the list, so the configuration tree is not the one before the
    installation.  And the directory that the installation made for the
    module under the root of the executables is still there. *)
Lemma C1_round_trip_does_not_restore :
  let e := Sample.weewx_engine false ["bin"; "skins"] in
  let s0 := Sample.pmon_source_world (VList ["weewx.engine.StdPrint"; "user.pmon.ProcessMonitor"]) in
  let installed := install_from_dir e "/home/me/pmon" s0 in
  let removed := uninstall_extension e "pmon" (snd installed) in
  (forall d, In d (destinations e Sample.pmon_extension) ->
     Fs.is_file s0 (Fs.resolve e d) = false)
  /\ (forall k, In k (map fst Sample.pmon_fragment) -> Sec.mem k (config_dict s0) = false)
  /\ fst installed = Ok tt /\ fst removed = Ok tt
  /\ (forall d, In d (destinations e Sample.pmon_extension) ->
        Fs.is_file (snd removed) (Fs.resolve e d) = false)
  /\ config_dict (snd removed) <> config_dict s0
  /\ lookup_path ["Engine"; "Services"; "report_services"] (Section (config_dict s0))
     = Some (Scalar (VList ["weewx.engine.StdPrint"; "user.pmon.ProcessMonitor"]))
  /\ lookup_path ["Engine"; "Services"; "report_services"]
       (Section (config_dict (snd removed)))
     = Some (Scalar (VList ["weewx.engine.StdPrint"]))
  /\ ("/home/weewx/bin/user/pmon" ∉ dirs s0)
  /\ ("/home/weewx/bin/user/pmon" ∈ dirs (snd removed)).
Proof.
  intros e s0 installed removed.
  split; [intros d Hd; vm_compute in Hd; destruct Hd as [<-|[<-|[]]]; vm_compute; reflexivity|].
  split; [intros k [<-|[]]; reflexivity|].
  split; [vm_compute; reflexivity|]. split; [vm_compute; reflexivity|].
  split; [intros d Hd; vm_compute in Hd; destruct Hd as [<-|[<-|[]]]; vm_compute; reflexivity|].
  split; [intros H; vm_compute in H; discriminate|].
  split; [vm_compute; reflexivity|]. split; [vm_compute; reflexivity|].
  split.
  - intros Hin. apply (bool_decide_pack _) in Hin. vm_compute in Hin. exact Hin.
  - apply (bool_decide_unpack _). vm_compute. exact I.
Qed.

(** * Further properties of the engine *)

(** ** [delete_file] and [delete_directory] *)

(** X1: [delete_file], real run: it never raises, whatever [report_errors]
    says, and returns 0 or 1.  It returns 1 only when a regular file, plain
    or archive, was at the path, and then there is none any more; it
    returns 0 whenever there was none; and when it returns 0 the path
    holds what it held.  Every other path, the directories and the
    configuration are as before. *)
Theorem delete_file_removes_and_counts (e : engine) (f : string) (r : bool) (s : state) :
  dry_run e = false ->
  exists n s',
    delete_file e f r s = (Ok n, s')
    /\ (n = 0%nat \/ n = 1%nat)
    /\ (n = 1%nat -> Fs.is_file s (Fs.resolve e f) = true
                     /\ Fs.is_file s' (Fs.resolve e f) = false)
    /\ (Fs.is_file s (Fs.resolve e f) = false -> n = 0%nat)
    /\ (n = 0%nat -> same_at s s' (Fs.resolve e f))
    /\ (forall p, p <> Fs.resolve e f -> same_at s s' p)
    /\ dirs s' = dirs s /\ config_dict s' = config_dict s.
Proof.
  intros Hdry. destruct (delete_file_effect e f r s Hdry) as (s' & E & F & T & D & C).
  eexists _, s'. split; [exact E|].
  assert (Hafter : Fs.is_file s' (Fs.resolve e f) = false).
  { apply is_file_absent. rewrite F, T. split; apply lookup_delete_eq. }
  split; [destruct (Fs.is_file s (Fs.resolve e f)); auto|].
  split; [destruct (Fs.is_file s (Fs.resolve e f)); [auto|discriminate]|].
  split; [intros ->; reflexivity|].
  split.
  - destruct (Fs.is_file s (Fs.resolve e f)) eqn:Ef; [discriminate|]. intros _.
    now apply same_at_absent.
  - split; [|auto]. intros p Hp. split; [rewrite F|rewrite T];
      now apply fin_maps.lookup_delete_ne.
Qed.

Lemma delete_file_removes_and_counts_witness :
  exists s',
    delete_file (Sample.weewx_engine false ["bin"; "skins"])
                "/home/me/ext.tgz" true (Sample.tar_world Sample.pmon_tar)
    = (Ok 1%nat, s')
    /\ Fs.is_file (Sample.tar_world Sample.pmon_tar) "/home/me/ext.tgz" = true
    /\ Fs.is_file s' "/home/me/ext.tgz" = false
    /\ same_at (Sample.tar_world Sample.pmon_tar) s' "/home/me/notes.txt".
Proof.
  destruct (delete_file_removes_and_counts (Sample.weewx_engine false ["bin"; "skins"])
              "/home/me/ext.tgz" true (Sample.tar_world Sample.pmon_tar)
              eq_refl) as (n & s' & E & _ & H1 & _ & _ & Hp & _).
  assert (Hn : n = 1%nat) by (vm_compute in E; congruence).
  subst n. exists s'. split; [exact E|].
  destruct (H1 eq_refl) as [A B]. split; [exact A|]. split; [exact B|].
  apply Hp. vm_compute. discriminate.
Defined.

Lemma listdir_nonempty_listdir (e : engine) (d : string) (s : state) :
  Fs.listdir_nonempty e d s
  = match Fs.listdir e d s with
    | (Ok l, s') => (Ok (match l with [] => false | _ => true end), s')
    | (Raise ex, s') => (Raise ex, s')
    end.
Proof.
  unfold Fs.listdir_nonempty, Fs.listdir. monad_unfold.
  destruct (Fs.is_dir s (Fs.resolve e d)); [|reflexivity].
  f_equal. f_equal.
  induction (elements (dom (files s) ∪ dom (tarballs s) ∪ dirs s)) as [|x l IH];
    [reflexivity|].
  simpl. destruct (Fs.child_of (Fs.resolve e d) x); [reflexivity|exact IH].
Qed.


(** X3: [delete_directory] on a directory that has an entry does nothing: it
    says that the directory is not empty, and files, directories and
    configuration stay as they are. *)
Theorem delete_directory_keeps_nonempty (e : engine) (d : string) (r : bool)
    (s : state) (x : string) (l : list string) :
  Fs.listdir e d s = (Ok (x :: l), s) ->
  delete_directory e d r s
  = (Ok tt, State (files s) (tarballs s) (dirs s) (config_dict s)
                  (log s ++ [(2%nat, "Directory '" ++ d ++ "' not empty")])).
Proof.
  intros H. unfold delete_directory. unfold try_except, mbind, M_bind.
  rewrite listdir_nonempty_listdir, H. reflexivity.
Qed.

Lemma delete_directory_keeps_nonempty_witness :
  files (snd (delete_directory (Sample.weewx_engine false ["bin"; "skins"])
                "/home/weewx/skins/pmon" true Sample.skin_installed_world))
  = files Sample.skin_installed_world.
Proof.
  rewrite (delete_directory_keeps_nonempty (Sample.weewx_engine false ["bin"; "skins"])
             "/home/weewx/skins/pmon" true Sample.skin_installed_world
             "index.html.tmpl" []); [reflexivity|].
  vm_compute. reflexivity.
Defined.

(** ** [install_extension] and [uninstall_extension]: what is not there *)

(** X4: [install_extension] on a path that is neither a regular file nor a
    directory raises [InstallError] with the message "Extension '...' not
    found."; the request was logged and nothing else happened. *)
Theorem install_extension_not_found (e : engine) (path : string) (s : state) :
  Fs.is_file s (Fs.resolve e path) = false ->
  Fs.is_dir s (Fs.resolve e path) = false ->
  install_extension e path s
  = (Raise (InstallError ("Extension '" ++ path ++ "' not found.")),
     State (files s) (tarballs s) (dirs s) (config_dict s)
           (log s ++ [(0%nat, "Request to install '" ++ path ++ "'")])).
Proof.
  intros Hf Hd. unfold install_extension, Fs.isfile, Fs.isdir. monad_unfold.
  unfold Fs.is_file, Fs.is_dir in *. cbn [files tarballs dirs].
  rewrite Hf. cbv beta iota. cbn [files tarballs dirs]. rewrite Hd. reflexivity.
Qed.

Lemma install_extension_not_found_witness :
  fst (install_extension (Sample.weewx_engine false ["bin"; "skins"])
         "/home/me/nothing" Sample.skin_source_world)
  = Raise (InstallError "Extension '/home/me/nothing' not found.").
Proof.
  rewrite (install_extension_not_found (Sample.weewx_engine false ["bin"; "skins"])
             "/home/me/nothing" Sample.skin_source_world);
    [reflexivity|vm_compute; reflexivity|vm_compute; reflexivity].
Defined.

(** X5: [uninstall_extension] for a name whose manifest
    [get_extension_installer] cannot load (it raises [ExtensionError])
    ends in the exit "Unable to find extension NAME": the request was
    logged, and neither a file nor the configuration was touched by
    [uninstall_extension] itself. *)
Theorem uninstall_extension_unknown (e : engine) (name r msg : string) (s s' : state) :
  root_dict e !! "EXT_ROOT" = Some r ->
  Weecfg.get_extension_installer e (OsPath.join r name)
    (State (files s) (tarballs s) (dirs s) (config_dict s)
           (log s ++ [(0%nat, "Request to remove extension '" ++ name ++ "'")]))
  = (Raise (ExtensionError msg), s') ->
  uninstall_extension e name s
  = (Raise (SystemExit ("Unable to find extension " ++ name)), s').
Proof.
  intros Hr Hg. unfold uninstall_extension, root. rewrite Hr.
  unfold mbind at 1, M_bind at 1. unfold logger_log at 1.
  unfold mbind at 1, M_bind at 1. unfold mret at 1, M_ret at 1.
  unfold mbind at 1, M_bind at 1. unfold try_except at 1.
  rewrite Hg. reflexivity.
Qed.

Lemma uninstall_extension_unknown_witness :
  fst (uninstall_extension (Sample.weewx_engine false ["bin"; "skins"]) "pmon"
         Sample.skin_source_world)
  = Raise (SystemExit "Unable to find extension pmon").
Proof.
  erewrite (uninstall_extension_unknown (Sample.weewx_engine false ["bin"; "skins"])
              "pmon" "/home/weewx/bin/user/installer");
    [reflexivity|reflexivity|vm_compute; reflexivity].
Defined.

(** ** The loop over [target_dirs] *)

Lemma commonprefix2_app (a r : string) : OsPath.commonprefix2 (a ++ r) a = a.
Proof.
  induction a as [|x a IH]; simpl; [now destruct r|].
  rewrite Ascii.eqb_refl. now rewrite IH.
Qed.

(** X6: A source-prefix that starts with a key of [target_dirs] is classified
    by that key, in whichever order the dictionary yields its keys: the
    body of the loop runs once, with ['BIN_ROOT'] for "bin..." and with
    ['SKIN_ROOT'] for "skins...". *)
Theorem for_target_dirs_by_prefix {A} (order : list string) (st : source_tuple)
    (body : string -> M A) (key root_type : string) :
  order = ["bin"; "skins"] \/ order = ["skins"; "bin"] ->
  target_dirs !! key = Some root_type ->
  PyStr.startswith key (st_prefix st) = true ->
  for_target_dirs order st body = body root_type.
Proof.
  intros Ho Hk Hp. apply startswith_split in Hp as [r Hp].
  unfold target_dirs in Hk.
  apply lookup_insert_Some in Hk as [[<- <-]|[_ Hk]];
    [|apply lookup_singleton_Some in Hk as [<- <-]].
  - destruct Ho as [-> | ->]; simpl; rewrite Hp, ?commonprefix2_app; reflexivity.
  - destruct Ho as [-> | ->]; simpl; rewrite Hp, ?commonprefix2_app; reflexivity.
Qed.

Lemma for_target_dirs_by_prefix_witness :
  for_target_dirs ["skins"; "bin"] (SourceTuple true "bin/user" ["bin/user/pmon.py"])
    (fun root_type => mret root_type) Sample.skin_source_world
  = (Ok "BIN_ROOT", Sample.skin_source_world).
Proof.
  rewrite (for_target_dirs_by_prefix ["skins"; "bin"]
             (SourceTuple true "bin/user" ["bin/user/pmon.py"])
             (fun root_type => mret root_type) "bin" "BIN_ROOT");
    [reflexivity|now right|reflexivity|reflexivity].
Defined.

(** ** The copy phase *)

Lemma install_file_step_count (e : engine) (dir root_type : string) (N N' : nat)
    (f : string) (s s' : state) :
  install_file_step e dir root_type N f s = (Ok N', s') ->
  N' = if dry_run e then N else S N.
Proof.
  intros H. unfold install_file_step in H.
  apply bind_ok in H as (d & s1 & _ & H).
  apply bind_ok in H as ([] & s2 & _ & H).
  destruct (dry_run e); [now injection H as <-|].
  apply bind_ok in H as ([] & s3 & _ & H).
  apply bind_ok in H as ([] & s4 & _ & H). now injection H as <-.
Qed.

Lemma install_files_count (e : engine) (dir root_type : string) (l : list string) :
  forall (N N' : nat) (s s' : state),
    for_fold l N (install_file_step e dir root_type) s = (Ok N', s') ->
    N' = if dry_run e then N else (N + List.length l)%nat.
Proof.
  induction l as [|f l IH]; intros N N' s s' H; simpl in H.
  - injection H as <-. destruct (dry_run e); simpl; lia.
  - apply bind_ok in H as (N1 & s1 & H1 & H).
    apply install_file_step_count in H1. apply IH in H.
    destruct (dry_run e); simpl; lia.
Qed.

(** X7: The number that the copy phase reports ("Copied N files"): when the
    phase completes in a real run it is the number of file entries of the
    manifest, every entry of every source tuple counted once; in a dry run
    it is 0. *)
Theorem copy_files_counts_every_entry (e : engine) (dir : string) (i : installer)
    (l : list source_tuple) (N : nat) (s s' : state) :
  i_files i = Some l ->
  copy_files e dir i s = (Ok N, s') ->
  N = if dry_run e then 0%nat else List.length (concat (map st_files l)).
Proof.
  intros Hl H. unfold copy_files, installer_files in H. rewrite Hl in H.
  apply bind_ok in H as (l' & s1 & Hl' & H). injection Hl' as <- <-.
  assert (Hgen : forall (N0 N1 : nat) (t t' : state),
             for_fold l N0 (fun N st =>
               for_target_dirs (target_order e) st (fun root_type =>
                 for_fold (st_files st) N (install_file_step e dir root_type))) t
             = (Ok N1, t') ->
             N1 = if dry_run e then N0
                  else (N0 + List.length (concat (map st_files l)))%nat).
  { clear. induction l as [|st l IH]; intros N0 N1 t t' H; simpl in H.
    - injection H as <-. destruct (dry_run e); simpl; lia.
    - apply bind_ok in H as (N2 & t1 & H1 & H).
      pose proof (for_target_dirs_classify (target_order e) st
                    (fun root_type =>
                       for_fold (st_files st) N0 (install_file_step e dir root_type)) t) as Hc.
      destruct (classify (target_order e) (st_prefix st)) as [rt|];
        [|destruct Hc as [ex Hc]; congruence].
      rewrite Hc in H1. apply install_files_count in H1. apply IH in H.
      simpl. rewrite length_app. destruct (dry_run e); lia. }
  apply Hgen in H. destruct (dry_run e); [exact H|].
  now rewrite H.
Qed.

Lemma copy_files_counts_every_entry_witness :
  fst (copy_files (Sample.weewx_engine false ["bin"; "skins"]) "/home/me/pmon"
         Sample.pmon_extension (Sample.pmon_source_world (VList [])))
  = Ok 2%nat.
Proof.
  destruct (copy_files (Sample.weewx_engine false ["bin"; "skins"]) "/home/me/pmon"
              Sample.pmon_extension (Sample.pmon_source_world (VList [])))
    as [[N|ex] s'] eqn:E; [|vm_compute in E; discriminate].
  rewrite (copy_files_counts_every_entry
             (Sample.weewx_engine false ["bin"; "skins"]) "/home/me/pmon"
             Sample.pmon_extension
             [SourceTuple true "bin" ["bin/user/pmon/monitor.py"];
              SourceTuple true "skins/pmon" ["skins/pmon/index.html.tmpl"]]
             N _ s' eq_refl E).
  reflexivity.
Defined.

(** ** What an installation and a removal touch *)

(** X8: However [install_from_dir] ends, by returning or by an exception, it
    has removed no directory; and unless one of the destination paths is a
    directory, every path that is neither a destination of the manifest's
    files, nor the saved configuration, nor its backup, nor the stored
    manifest holds the regular file, plain or archive, that it held, or
    none as before. *)
Theorem install_from_dir_touches_only_its_files (e : engine) (dir r : string)
    (i : installer) (s : state) :
  files s !! Fs.resolve e (OsPath.join dir "install.py") = Some (Manifest i) ->
  root_dict e !! "EXT_ROOT" = Some r ->
  (forall d, In d (destinations e i) ->
             Fs.resolve e d ∉ dirs (snd (install_from_dir e dir s))) ->
  dirs s ⊆ dirs (snd (install_from_dir e dir s))
  /\ forall p,
       (forall d, In d (destinations e i) -> p <> Fs.resolve e d) ->
       p <> Fs.resolve e (OsPath.join r (recorded_name i)) ->
       ~ In p (artifacts e dir r i) ->
       same_at s (snd (install_from_dir e dir s)) p.
Proof.
  intros Hm Hr Hnd. destruct (install_from_dir_writes e dir r i s Hm Hr) as (Hd & Hw).
  split; [exact Hd|].
  destruct Hw as [Hw|(d & Hin & Hdir)]; [|exfalso; exact (Hnd d Hin Hdir)].
  intros p H1 H2 H3. destruct (Hw p) as [?|[(d & Hin & ->)|[?|?]]];
    [assumption|exfalso; exact (H1 d Hin eq_refl)|contradiction|contradiction].
Qed.

Lemma install_from_dir_touches_only_its_files_witness :
  files (snd (install_from_dir (Sample.weewx_engine false ["bin"; "skins"])
                "/home/me/pmon" (Sample.pmon_source_world (VList []))))
    !! "/home/me/pmon/bin/user/pmon/monitor.py"
  = Some (Data "import weewx").
Proof.
  pose proof (install_from_dir_touches_only_its_files
                (Sample.weewx_engine false ["bin"; "skins"]) "/home/me/pmon"
                "/home/weewx/bin/user/installer" Sample.pmon_extension
                (Sample.pmon_source_world (VList []))) as H.
  destruct H as (_ & H).
  - vm_compute. reflexivity.
  - reflexivity.
  - intros d Hd. vm_compute in Hd. destruct Hd as [<-|[<-|[]]];
      intros Hin; apply (bool_decide_pack _) in Hin; vm_compute in Hin; exact Hin.
  - destruct (H "/home/me/pmon/bin/user/pmon/monitor.py") as [Hf _].
    + intros d Hd. vm_compute in Hd. destruct Hd as [<-|[<-|[]]]; vm_compute; discriminate.
    + vm_compute. discriminate.
    + vm_compute. intros [H1|[H1|[H1|[]]]]; discriminate.
    + rewrite Hf. reflexivity.
Defined.



(** X10: A removal is not repeatable.  When a real [uninstall_extension]
    returns, the stored manifest is gone with the record of the extension
    (it lies under the record's directory, and is neither the configuration
    file nor its backup): a second removal of the same name ends in the
    exit "Unable to find extension NAME". *)
Theorem uninstall_extension_twice (e : engine) (name r : string) (i : installer)
    (s1 s2 : state) :
  dry_run e = false ->
  root_dict e !! "EXT_ROOT" = Some r ->
  files s1 !! Fs.resolve e (OsPath.join (OsPath.join r name) "install.py")
    = Some (Manifest i) ->
  Fs.under (Fs.resolve e (OsPath.join r name))
           (Fs.resolve e (OsPath.join (OsPath.join r name) "install.py")) = true ->
  Fs.resolve e (OsPath.join (OsPath.join r name) "install.py")
    <> Fs.resolve e (config_path e) ->
  Fs.resolve e (OsPath.join (OsPath.join r name) "install.py")
    <> Fs.resolve e (backup_path e) ->
  uninstall_extension e name s1 = (Ok tt, s2) ->
  fst (uninstall_extension e name s2)
  = Raise (SystemExit ("Unable to find extension " ++ name)).
Proof.
  intros Hdry Hr Hm Hu Hc Hb H.
  destruct (uninstall_extension_phases e name r s1 s2 Hdry Hr H)
    as (i' & s1' & tu & bu & su' & _ & _ & _ & _ & _ & _ & Hf & _).
  specialize (Hf _ Hc Hb). rewrite Hu in Hf. apply is_file_absent in Hf as [Hgone _].
  unfold uninstall_extension, root. rewrite Hr.
  unfold mbind at 1, M_bind at 1. unfold logger_log at 1.
  unfold mbind at 1, M_bind at 1. unfold mret at 1, M_ret at 1.
  unfold mbind at 1, M_bind at 1. unfold try_except at 1.
  unfold Weecfg.get_extension_installer, mbind, M_bind, get. cbn [files].
  rewrite Hgone. reflexivity.
Qed.

Lemma uninstall_extension_twice_witness :
  fst (uninstall_extension (Sample.weewx_engine false ["bin"; "skins"]) "pmon"
         (snd (uninstall_extension (Sample.weewx_engine false ["bin"; "skins"]) "pmon"
                 Sample.skin_installed_world)))
  = Raise (SystemExit "Unable to find extension pmon").
Proof.
  apply (uninstall_extension_twice (Sample.weewx_engine false ["bin"; "skins"]) "pmon"
           "/home/weewx/bin/user/installer" Sample.skin_extension
           Sample.skin_installed_world).
  - reflexivity.
  - reflexivity.
  - vm_compute. reflexivity.
  - vm_compute. reflexivity.
  - vm_compute. discriminate.
  - vm_compute. discriminate.
  - vm_compute. reflexivity.
Defined.


(** ** The registration of services *)

Lemma lookup_after_write (g g' : string) (v : value) (c : section) (x : cfg) :
  lookup_path ["Engine"; "Services"; g] (Section c) = Some x ->
  lookup_path ["Engine"; "Services"; g'] (Section (write_service_group g v c))
  = if String.eqb g g' then Some (Scalar v)
    else lookup_path ["Engine"; "Services"; g'] (Section c).
Proof.
  unfold write_service_group. simpl.
  destruct (Sec.get "Engine" c) as [[?|eb]|] eqn:E1; try discriminate.
  destruct (Sec.get "Services" eb) as [[?|sb]|] eqn:E2; try discriminate.
  intros _. rewrite get_set, String.eqb_refl. rewrite get_set, String.eqb_refl.
  rewrite get_set. destruct (String.eqb g g'); reflexivity.
Qed.

Lemma register_loop (e : engine) (g : string) :
  dry_run e = false ->
  forall (svcs cur : list string) (sv : bool) (s : state) (v : value),
    lookup_path ["Engine"; "Services"; g] (Section (config_dict s)) = Some (Scalar v) ->
    Weeutil.option_as_list v = cur ->
    exists a sv' s' v',
      for_fold svcs (AsList cur, sv) (register_service e g) s
      = (Ok (AsList (cur ++ a), sv'), s')
      /\ same_fs s s'
      /\ lookup_path ["Engine"; "Services"; g] (Section (config_dict s')) = Some (Scalar v')
      /\ Weeutil.option_as_list v' = (cur ++ a)%list
      /\ (forall x, In x svcs -> In x (cur ++ a))
      /\ (forall x, In x a -> In x svcs /\ ~ In x cur)
      /\ NoDup a
      /\ a = missing cur svcs
      /\ sv' = sv || match a with [] => false | _ => true end
      /\ (forall g', g' <> g ->
            lookup_path ["Engine"; "Services"; g'] (Section (config_dict s'))
            = lookup_path ["Engine"; "Services"; g'] (Section (config_dict s))).
Proof.
  intros Hdry. induction svcs as [|x r IH]; intros cur sv s v Hv Hcur.
  - exists [], sv, s, v. rewrite app_nil_r. simpl.
    repeat split; auto; try (intros ? []); try constructor. now rewrite orb_false_r.
  - cbn [for_fold]. unfold mbind at 1, M_bind at 1. unfold register_service at 1.
    cbn [fst]. destruct (svc_in x (AsList cur)) eqn:Ein.
    + destruct (IH cur sv s v Hv Hcur)
        as (a & sv' & s' & v' & E & Hfs & Hl & Ho & Hall & Hnew & Hnd & Hmis & Hsv & Hoth).
      exists a, sv', s', v'. unfold mret at 1, M_ret at 1.
      split; [exact E|]. split; [exact Hfs|]. split; [exact Hl|]. split; [exact Ho|].
      split; [|split; [|split; [exact Hnd|split; [|split; [exact Hsv|exact Hoth]]]]].
      * intros y [<-|Hy]; [|now apply Hall].
        apply in_or_app. left. now apply svc_in_list.
      * intros y Hy. destruct (Hnew y Hy). split; [now right|assumption].
      * cbn [missing]. cbn [svc_in] in Ein. now rewrite Ein.
    + rewrite Hdry. cbn [fst].
      unfold mbind at 1, M_bind at 1. unfold mbind at 1, M_bind at 1.
      unfold modify_config at 1. unfold mret at 1, M_ret at 1.
      unfold mbind at 1, M_bind at 1. unfold logger_log at 1.
      unfold mret at 1, M_ret at 1.
      match goal with |- context [for_fold r _ _ ?t] => set (s1 := t) end.
      assert (Hv1 : lookup_path ["Engine"; "Services"; g] (Section (config_dict s1))
                    = Some (Scalar (VList (cur ++ [x])))).
      { subst s1. cbn [config_dict with_config].
        rewrite (lookup_after_write g g _ _ _ Hv), String.eqb_refl. reflexivity. }
      destruct (IH (cur ++ [x])%list true s1 (VList (cur ++ [x])) Hv1 eq_refl)
        as (a & sv' & s' & v' & E & Hfs & Hl & Ho & Hall & Hnew & Hnd & Hmis & Hsv & Hoth).
      exists (x :: a), sv', s', v'.
      replace (cur ++ x :: a)%list with ((cur ++ [x]) ++ a)%list
        by (now rewrite <- app_assoc).
      split; [exact E|].
      split; [destruct Hfs as (F1 & F2 & F3); subst s1; repeat split; assumption|].
      split; [exact Hl|]. split; [exact Ho|].
      split; [|split; [|split; [|split; [|split]]]].
      * intros y [<-|Hy]; [|now apply Hall].
        apply in_or_app. left. apply in_or_app. right. now left.
      * intros y [<-|Hy].
        -- split; [now left|]. intros Hc. apply svc_in_list in Hc. congruence.
        -- destruct (Hnew y Hy) as [H1 H2]. split; [now right|].
           intros Hc. apply H2. apply in_or_app. now left.
      * apply NoDup_cons. split; [|exact Hnd].
        intros Hx. apply list_elem_of_In in Hx. destruct (Hnew x Hx) as [_ H2].
        apply H2. apply in_or_app. right. now left.
      * cbn [missing]. cbn [svc_in] in Ein. rewrite Ein. now rewrite Hmis.
      * rewrite Hsv. now rewrite orb_true_r.
      * intros g' Hg'. rewrite (Hoth g' Hg'). subst s1. cbn [config_dict with_config].
        rewrite (lookup_after_write g g' _ _ _ Hv).
        destruct (String.eqb g g') eqn:Eg; [apply String.eqb_eq in Eg; congruence|].
        reflexivity.
Qed.

Lemma missing_sublist (svcs cur : list string) : sublist (missing cur svcs) svcs.
Proof.
  revert cur. induction svcs as [|x r IH]; intros cur; simpl; [constructor|].
  destruct (existsb (String.eqb x) cur); [apply sublist_cons|apply sublist_skip]; apply IH.
Qed.

(** X11: The registration of one service group, real run.  When the manifest
    declares identifiers for the group and the live configuration holds a
    value for it, the group's turn returns; the live list is then the old
    list followed by the declared identifiers that it lacked, each once
    and in the order in which the declaration first names them
    ([missing]): nothing is removed or reordered, every declared
    identifier is registered, and none twice.  The flag [save_config] is
    raised exactly when something was appended; no file and no other
    service group is touched. *)
Theorem register_group_appends_the_missing (e : engine) (i : installer) (g : string)
    (declared v : value) (sv : bool) (s : state) :
  dry_run e = false ->
  Sec.lookup g (i_groups i) = Some declared ->
  lookup_path ["Engine"; "Services"; g] (Section (config_dict s)) = Some (Scalar v) ->
  exists a b s' v',
    register_group e i sv g s = (Ok b, s')
    /\ same_fs s s'
    /\ lookup_path ["Engine"; "Services"; g] (Section (config_dict s')) = Some (Scalar v')
    /\ Weeutil.option_as_list v' = (Weeutil.option_as_list v ++ a)%list
    /\ a = missing (Weeutil.option_as_list v) (Weeutil.option_as_list declared)
    /\ sublist a (Weeutil.option_as_list declared)
    /\ (forall x, In x (Weeutil.option_as_list declared) ->
                  In x (Weeutil.option_as_list v ++ a))
    /\ (forall x, In x a ->
          In x (Weeutil.option_as_list declared) /\ ~ In x (Weeutil.option_as_list v))
    /\ NoDup a
    /\ b = sv || match a with [] => false | _ => true end
    /\ (forall g', g' <> g ->
          lookup_path ["Engine"; "Services"; g'] (Section (config_dict s'))
          = lookup_path ["Engine"; "Services"; g'] (Section (config_dict s))).
Proof.
  intros Hdry Hd Hv. unfold register_group. rewrite Hd.
  assert (Hread : read_service_group g s = (Ok (Scalar v), s)).
  { unfold read_service_group, index. monad_unfold. simpl in Hv.
    destruct (Sec.get "Engine" (config_dict s)) as [[?|eb]|]; try discriminate.
    destruct (Sec.get "Services" eb) as [[?|sb]|]; try discriminate.
    destruct (Sec.get g sb); [injection Hv as ->; reflexivity|discriminate]. }
  unfold mbind at 1, M_bind at 1. rewrite Hread. cbn [live_as_list].
  destruct (register_loop e g Hdry (Weeutil.option_as_list declared)
              (Weeutil.option_as_list v) sv s v Hv eq_refl)
    as (a & sv' & s' & v' & E & Hfs & Hl & Ho & Hall & Hnew & Hnd & Hmis & Hsv & Hoth).
  exists a, sv', s', v'. unfold mbind, M_bind. rewrite E. cbn [snd].
  split; [reflexivity|]. split; [exact Hfs|]. split; [exact Hl|]. split; [exact Ho|].
  split; [exact Hmis|]. split; [rewrite Hmis; apply missing_sublist|].
  auto.
Qed.

Lemma register_group_appends_the_missing_witness :
  exists b s' v',
    register_group (Sample.weewx_engine false ["bin"; "skins"]) Sample.skin_extension
      false "report_services" Sample.skin_source_world = (Ok b, s')
    /\ lookup_path ["Engine"; "Services"; "report_services"] (Section (config_dict s'))
       = Some (Scalar v')
    /\ Weeutil.option_as_list v' = ["weewx.engine.StdPrint"; "user.pmon.ProcessMonitor"].
Proof.
  destruct (register_group_appends_the_missing
              (Sample.weewx_engine false ["bin"; "skins"]) Sample.skin_extension
              "report_services"
              (VList ["user.pmon.ProcessMonitor"; "user.pmon.ProcessMonitor"])
              (VList ["weewx.engine.StdPrint"]) false Sample.skin_source_world
              eq_refl eq_refl eq_refl)
    as (a & b & s' & v' & E & _ & Hl & Ho & Hm & _).
  exists b, s', v'. split; [exact E|]. split; [exact Hl|].
  rewrite Ho, Hm. reflexivity.
Defined.

(** ** [enumerate_extensions] *)

(** X12: [enumerate_extensions] only logs.  With ['EXT_ROOT'] in the root
    dictionary it returns, whatever the cache is: one line for each entry
    of the directory, or, when the directory is empty or is not there (the
    [OSError] of [os.listdir] is caught), the line "No extensions
    installed" after a line that names the cache.  Files, directories and
    configuration are as before. *)
Theorem enumerate_extensions_only_logs (e : engine) (r : string) (s : state) :
  root_dict e !! "EXT_ROOT" = Some r ->
  enumerate_extensions e s
  = (Ok tt,
     State (files s) (tarballs s) (dirs s) (config_dict s)
           (log s ++ match Fs.listdir e r s with
                     | (Ok (x :: l), _) => map (fun f => (0%nat, f)) (x :: l)
                     | (Ok [], _) =>
                         [(2%nat, "Extension cache is '" ++ r ++ "'");
                          (0%nat, "No extensions installed")]
                     | (Raise _, _) =>
                         [(2%nat, "No extension cache '" ++ r ++ "'");
                          (0%nat, "No extensions installed")]
                     end)).
Proof.
  intros Hr. unfold enumerate_extensions, root. rewrite Hr.
  unfold mbind at 1, M_bind at 1. unfold mret at 1, M_ret at 1.
  unfold try_except. unfold mbind at 1, M_bind at 1.
  unfold Fs.listdir. unfold mbind, M_bind, get, mret, M_ret, raise.
  destruct (Fs.is_dir s (Fs.resolve e r)).
  - destruct (map Fs.basename _) as [|x l].
    + unfold logger_log. cbn. now rewrite <- app_assoc.
    + rewrite (for_each_log (x :: l) (fun f => f) 0 s). reflexivity.
  - cbn. unfold logger_log. cbn. now rewrite <- app_assoc.
Qed.

Lemma enumerate_extensions_only_logs_witness :
  log (snd (enumerate_extensions (Sample.weewx_engine false ["bin"; "skins"])
              Sample.skin_installed_world))
  = [(0%nat, "pmon")].
Proof.
  rewrite (enumerate_extensions_only_logs (Sample.weewx_engine false ["bin"; "skins"])
             "/home/weewx/bin/user/installer" Sample.skin_installed_world eq_refl).
  vm_compute. reflexivity.
Defined.

(** ** The staging directory of a tarball *)











(** ** The configuration block without the section of the reports *)

(** X14: The configuration block of [install_from_dir] reads
    [config_dict['StdReport']['HTML_ROOT']] before it changes anything: for
    a manifest with a fragment and a live configuration without the
    section [StdReport], or without the key [HTML_ROOT] in it, the block
    ends in the [KeyError] of the missing key, and the configuration is as
    it was. *)
Theorem merge_config_needs_html_root (e : engine) (i : installer) (n k : string)
    (F : list (string * pydict)) (s : state) :
  i_config i = Some F ->
  (Sec.get "StdReport" (config_dict s) = None /\ k = "StdReport")
  \/ (exists b, Sec.get "StdReport" (config_dict s) = Some (Section b)
                /\ Sec.get "HTML_ROOT" b = None /\ k = "HTML_ROOT") ->
  merge_config e i n s
  = (Raise (KeyError k),
     State (files s) (tarballs s) (dirs s) (config_dict s)
           (log s ++ [(2%nat, "Adding sections to configuration file")])).
Proof.
  intros Hc H. unfold merge_config. rewrite Hc. unfold index. monad_unfold.
  cbn [config_dict].
  destruct H as [[H ->]|(b & H & Hb & ->)]; rewrite H; [reflexivity|].
  now rewrite Hb.
Qed.

Lemma merge_config_needs_html_root_witness :
  fst (merge_config (Sample.weewx_engine false ["bin"; "skins"]) Sample.pmon_extension
         "pmon"
         (State ∅ ∅ Sample.base_dirs Sample.bare_conf []))
  = Raise (KeyError "StdReport").
Proof.
  rewrite (merge_config_needs_html_root (Sample.weewx_engine false ["bin"; "skins"])
             Sample.pmon_extension "pmon" "StdReport" Sample.pmon_fragment
             (State ∅ ∅ Sample.base_dirs Sample.bare_conf []) eq_refl);
    [reflexivity|].
  left. split; reflexivity.
Defined.


(** ** The copy phase copies the sources *)

Lemma for_fold_copied {A B} (pairs : A -> list (string * string))
    (body : B -> A -> M B) (l : list A) :
  (forall acc x s acc' s1,
     In x l -> body acc x s = (Ok acc', s1) ->
     (forall src dst, In (src, dst) (pairs x) -> dst ∉ dirs s1) ->
     NoDup (map snd (pairs x)) ->
     (forall src dst, In (src, dst) (pairs x) -> ~ In src (map snd (pairs x))) ->
     copied (pairs x) s s1) ->
  forall acc s acc' s',
    for_fold l acc body s = (Ok acc', s') ->
    (forall src dst, In (src, dst) (flat_map pairs l) -> dst ∉ dirs s') ->
    NoDup (map snd (flat_map pairs l)) ->
    (forall src dst, In (src, dst) (flat_map pairs l) ->
                     ~ In src (map snd (flat_map pairs l))) ->
    copied (flat_map pairs l) s s'.
Proof.
  intros Hb. induction l as [|x r IH]; intros acc s acc' s' H Hnd Hdup Hsrc; simpl in *.
  - injection H as _ <-. split; [set_solver|].
    split; [intros; apply same_at_refl|intros ? ? []].
  - apply bind_ok in H as (a1 & s1 & H1 & H).
    rewrite map_app in Hdup. apply NoDup_app in Hdup as (Hdx & Hdisj & Hdr).
    assert (Hr : copied (flat_map pairs r) s1 s').
    { eapply IH; eauto.
      - intros src dst Hin. apply (Hnd src dst). apply in_or_app. now right.
      - intros src dst Hin Hc. apply (Hsrc src dst); [apply in_or_app; now right|].
        rewrite map_app. apply in_or_app. now right. }
    destruct Hr as (Rd & Ro & Rc).
    assert (Hx : copied (pairs x) s s1).
    { eapply Hb; eauto.
      - intros src dst Hin Hc. apply (Hnd src dst); [apply in_or_app; now left|].
        set_solver.
      - intros src dst Hin Hc. apply (Hsrc src dst); [apply in_or_app; now left|].
        rewrite map_app. apply in_or_app. now left. }
    destruct Hx as (Xd & Xo & Xc).
    split; [set_solver|]. split.
    + intros p Hp. rewrite map_app in Hp.
      apply (same_at_trans s s1 s').
      * apply Xo. intros Hc. apply Hp, in_or_app. now left.
      * apply Ro. intros Hc. apply Hp, in_or_app. now right.
    + intros src dst Hin. apply in_app_or in Hin as [Hin|Hin].
      * destruct (Xc src dst Hin) as (X1 & X2 & X3).
        assert (Hk : same_at s1 s' dst).
        { apply Ro. intros Hc. apply (Hdisj dst); apply list_elem_of_In; [|exact Hc].
          apply in_map_iff. exists (src, dst). split; [reflexivity|exact Hin]. }
        destruct Hk as [K1 K2].
        split; [congruence|]. split; [|exact X3].
        rewrite <- X2. now apply read_same.
      * destruct (Rc src dst Hin) as (R1 & R2 & R3).
        assert (Hk : same_at s s1 src).
        { apply Xo. intros Hc. apply (Hsrc src dst); [apply in_or_app; now right|].
          rewrite map_app. apply in_or_app. now left. }
        destruct Hk as [K1 K2].
        assert (Hread : Fs.read s1 src = Fs.read s src) by now apply read_same.
        split; [congruence|]. split; [congruence|]. now rewrite <- Hread.
Qed.

Lemma install_file_step_copied_exactly (e : engine) (dir root_type : string)
    (N N' : nat) (f : string) (s s1 : state) :
  dry_run e = false ->
  install_file_step e dir root_type N f s = (Ok N', s1) ->
  (forall src dst, In (src, dst) (copies_of e dir root_type f) -> dst ∉ dirs s1) ->
  copied (copies_of e dir root_type f) s s1.
Proof.
  intros Hdry H Hnd. unfold install_file_step in H. rewrite Hdry in H.
  apply bind_ok in H as (d & sa & Hd & H).
  pose proof (destination_dest_path e root_type f s) as Hp.
  unfold copies_of in *.
  destruct (dest_path e root_type f) as [d'|]; [|destruct Hp as [ex Hp]; congruence].
  rewrite Hp in Hd. injection Hd as <- <-.
  apply bind_ok in H as ([] & sb & Hb & H). injection Hb as <-.
  apply bind_ok in H as ([] & sc & Hc & H).
  apply bind_ok in H as ([] & sd & Hcp & H). injection H as _ <-.
  assert (Hm : files sc = files s /\ tarballs sc = tarballs s /\ dirs s ⊆ dirs sc).
  { unfold try_except in Hc.
    match type of Hc with context [Fs.makedirs e ?p ?t] =>
      destruct (makedirs_effect e p t) as (F & T & _ & D & _);
      destruct (Fs.makedirs e p t) as [[[]|ex] t1]
    end; cbn in *.
    - injection Hc as <-. auto.
    - destruct (is_OSError ex); [|discriminate]. injection Hc as <-. auto. }
  destruct Hm as (Hmf & Hmt & Hmd).
  destruct (copy_cases e (OsPath.join dir f) d' sc)
    as [[ex Hcc]|(x & Hcc & Hread & _ & _)]; [congruence|].
  rewrite Hcc in Hcp. injection Hcp as <-.
  specialize (Hnd _ _ (or_introl eq_refl)).
  match type of Hnd with context [Fs.write ?k _ _] => set (qd := k) in * end.
  destruct (write_rest qd x sc) as (Wd & _ & _). rewrite Wd in Hnd.
  assert (Hnodir : Fs.is_dir sc (Fs.resolve e d') = false).
  { unfold Fs.is_dir. now apply bool_decide_eq_false. }
  assert (Hqd : qd = Fs.resolve e d') by (subst qd; now rewrite Hnodir).
  clearbody qd. subst qd.
  assert (Hrs : Fs.read sc (Fs.resolve e (OsPath.join dir f))
                = Fs.read s (Fs.resolve e (OsPath.join dir f)))
    by (apply read_same; congruence).
  unfold copied. cbn [map snd].
  split; [rewrite Wd; exact Hmd|]. split.
  - intros p Hp'. simpl in Hp'.
    destruct (write_other (Fs.resolve e d') p x sc) as [A B];
      [intros ->; apply Hp'; now left|].
    split; congruence.
  - intros src dst [[= <- <-]|[]].
    split; [|split].
    + rewrite <- Hmf. unfold Fs.read in Hread.
      destruct x as [c|t]; cbn.
      * rewrite lookup_insert_eq.
        destruct (files sc !! Fs.resolve e (OsPath.join dir f)) as [c'|];
          [congruence|].
        destruct (tarballs sc !! Fs.resolve e (OsPath.join dir f)); discriminate.
      * rewrite lookup_delete_eq.
        destruct (files sc !! Fs.resolve e (OsPath.join dir f)) as [c'|];
          [discriminate|reflexivity].
    + rewrite write_read. congruence.
    + rewrite <- Hrs, Hread. eauto.
Qed.

Lemma copies_of_single (e : engine) (dir root_type f : string) :
  NoDup (map snd (copies_of e dir root_type f)).
Proof.
  unfold copies_of. destruct (dest_path e root_type f); simpl; repeat constructor.
  set_solver.
Qed.

(** X15: The copy phase, real run.  When it completes, the targets of its
    copies being distinct, no source being a target and no target a
    directory, every destination holds what its source held, which was a
    regular file, plain or archive; every other regular file is as it
    was, and no directory was removed. *)
Theorem copy_files_copies_the_sources (e : engine) (dir : string) (i : installer)
    (N : nat) (s s' : state) :
  dry_run e = false ->
  copy_files e dir i s = (Ok N, s') ->
  NoDup (map snd (copies e dir i)) ->
  (forall src dst, In (src, dst) (copies e dir i) -> ~ In src (map snd (copies e dir i))) ->
  (forall src dst, In (src, dst) (copies e dir i) -> dst ∉ dirs s') ->
  copied (copies e dir i) s s'.
Proof.
  intros Hdry H Hdup Hsrc Hnd. unfold copy_files, installer_files in H. unfold copies in *.
  destruct (i_files i) as [l|]; [|discriminate].
  apply bind_ok in H as (l' & s1 & Hl & H). injection Hl as <- <-. simpl in *.
  eapply (for_fold_copied (tuple_copies e dir)); [|exact H|exact Hnd|exact Hdup|exact Hsrc].
  clear H Hdup Hsrc Hnd. intros acc st t acc' t1 _ H Hnd Hdup Hsrc.
  pose proof (for_target_dirs_classify (target_order e) st
                (fun root_type => for_fold (st_files st) acc (install_file_step e dir root_type))
                t) as Hc.
  unfold tuple_copies in *.
  destruct (classify (target_order e) (st_prefix st)) as [rt|];
    [|destruct Hc as [ex Hc]; congruence].
  rewrite Hc in H.
  eapply (for_fold_copied (copies_of e dir rt)); [|exact H|exact Hnd|exact Hdup|exact Hsrc].
  intros acc0 f u acc1 u1 _ Hstep Hnd' _ _.
  eapply install_file_step_copied_exactly; eauto.
Qed.

Lemma copy_files_copies_the_sources_witness :
  files (snd (copy_files (Sample.weewx_engine false ["bin"; "skins"]) "/home/me/pmon"
                Sample.pmon_extension (Sample.pmon_source_world (VList []))))
    !! "/home/weewx/bin/user/pmon/monitor.py"
  = Some (Data "import weewx").
Proof.
  destruct (copy_files (Sample.weewx_engine false ["bin"; "skins"]) "/home/me/pmon"
              Sample.pmon_extension (Sample.pmon_source_world (VList [])))
    as [[N|ex] s'] eqn:E; [|vm_compute in E; discriminate].
  destruct (copy_files_copies_the_sources
              (Sample.weewx_engine false ["bin"; "skins"]) "/home/me/pmon"
              Sample.pmon_extension N (Sample.pmon_source_world (VList [])) s'
              eq_refl E) as (_ & _ & H).
  - apply (bool_decide_unpack _). vm_compute. exact I.
  - intros src dst Hin. vm_compute in Hin. vm_compute.
    destruct Hin as [[= <- <-]|[[= <- <-]|[]]]; intros [H|[H|[]]]; discriminate.
  - intros src dst Hin. vm_compute in Hin.
    assert (Hs : s' = snd (copy_files (Sample.weewx_engine false ["bin"; "skins"])
                             "/home/me/pmon" Sample.pmon_extension
                             (Sample.pmon_source_world (VList [])))) by now rewrite E.
    rewrite Hs.
    destruct Hin as [[= <- <-]|[[= <- <-]|[]]];
      intros Hc; apply (bool_decide_pack _) in Hc; vm_compute in Hc; exact Hc.
  - cbn [snd].
    destruct (H "/home/me/pmon/bin/user/pmon/monitor.py"
                "/home/weewx/bin/user/pmon/monitor.py") as [H1 _].
    + vm_compute. now left.
    + rewrite H1. vm_compute. reflexivity.
Defined.

(** ** The removal of services *)

Lemma read_service_group_value (g : string) (s : state) (x : cfg) :
  lookup_path ["Engine"; "Services"; g] (Section (config_dict s)) = Some x ->
  read_service_group g s = (Ok x, s).
Proof.
  intros Hv. unfold read_service_group, index. monad_unfold. simpl in Hv.
  destruct (Sec.get "Engine" (config_dict s)) as [[?|eb]|]; try discriminate.
  destruct (Sec.get "Services" eb) as [[?|sb]|]; try discriminate.
  destruct (Sec.get g sb); [injection Hv as ->; reflexivity|discriminate].
Qed.

(** X16: The removal of the services of one group, real run, when the manifest
    declares a list of identifiers for the group and the live
    configuration holds a list: the turn returns; the live list is then
    the old list without the declared identifiers, the others in their
    old order; no file and no other service group is touched; and the flag
    [save_config] is raised whether or not an identifier was removed. *)
Theorem unregister_group_filters_the_declared (e : engine) (i : installer) (g : string)
    (declared l : list string) (sv : bool) (s : state) :
  dry_run e = false ->
  Sec.lookup g (i_groups i) = Some (VList declared) ->
  lookup_path ["Engine"; "Services"; g] (Section (config_dict s))
    = Some (Scalar (VList l)) ->
  exists s' l',
    unregister_group e i sv g s = (Ok true, s')
    /\ same_fs s s'
    /\ lookup_path ["Engine"; "Services"; g] (Section (config_dict s'))
       = Some (Scalar (VList l'))
    /\ l' = List.filter (fun x => negb (existsb (String.eqb x) declared)) l
    /\ (forall x, In x l' <-> In x l /\ ~ In x declared)
    /\ (forall g', g' <> g ->
          lookup_path ["Engine"; "Services"; g'] (Section (config_dict s'))
          = lookup_path ["Engine"; "Services"; g'] (Section (config_dict s))).
Proof.
  intros Hdry Hd Hv. unfold unregister_group. rewrite Hd, Hdry.
  unfold mbind at 1, M_bind at 1. rewrite (read_service_group_value g s _ Hv).
  unfold mbind, M_bind, modify_config, mret, M_ret. cbn [py_filter not_in_declared].
  eexists _, _. split; [reflexivity|]. split; [repeat split|].
  cbn [config_dict with_config].
  split; [rewrite (lookup_after_write g g _ _ _ Hv), String.eqb_refl; reflexivity|].
  split; [reflexivity|]. split.
  - intros x. rewrite filter_In. unfold not_in_declared. rewrite negb_true_iff.
    split; intros [H1 H2]; (split; [exact H1|]).
    + intros Hc. assert (Hex : existsb (String.eqb x) declared = true).
      { apply existsb_exists. exists x. split; [exact Hc|apply String.eqb_refl]. }
      congruence.
    + destruct (existsb (String.eqb x) declared) eqn:E; [|reflexivity].
      exfalso. apply H2. apply existsb_exists in E as (y & Hy & Heq).
      apply String.eqb_eq in Heq. now subst.
  - intros g' Hg'. rewrite (lookup_after_write g g' _ _ _ Hv).
    destruct (String.eqb g g') eqn:Eg; [apply String.eqb_eq in Eg; congruence|reflexivity].
Qed.

Lemma unregister_group_filters_the_declared_witness :
  exists s',
    unregister_group (Sample.weewx_engine false ["bin"; "skins"]) Sample.skin_extension
      false "report_services" Sample.skin_installed_world = (Ok true, s')
    /\ lookup_path ["Engine"; "Services"; "report_services"] (Section (config_dict s'))
       = Some (Scalar (VList ["weewx.engine.StdPrint"])).
Proof.
  destruct (unregister_group_filters_the_declared
              (Sample.weewx_engine false ["bin"; "skins"]) Sample.skin_extension
              "report_services"
              ["user.pmon.ProcessMonitor"; "user.pmon.ProcessMonitor"]
              ["weewx.engine.StdPrint"; "user.pmon.ProcessMonitor"]
              false Sample.skin_installed_world eq_refl eq_refl eq_refl)
    as (s' & l' & E & _ & Hl & -> & _).
  exists s'. split; [exact E|exact Hl].
Defined.

